(** * Portfolio backend: the project CRUD handlers of [backend/server.js]

    A shallow embedding of the Express handlers and of the Mongoose schema
    they save through, followed by the properties of the specification.

    Modelling conventions.
    - A request body is the record of the nine properties the handlers
      read; a property that is not in the JSON is [JUndefined]. The
      query parameters [category] and [sort] are strings, when present.
    - Strings are Rocq strings: one character stands for one code unit.
    - A number of a body is an integer literal. How JavaScript writes
      a number out ([Number.prototype.toString]) is a parameter of the
      casts: what is proved holds whatever that writing is.
    - [Date.now()] is a read of a clock kept in the world state. The
      environment lets an amount of time pass before each read; that
      amount is never negative, the clock does not run backwards.
    - The collection is a finite map from [_id] to the stored document,
      as the unique index on [_id] makes it. The store is available: the
      only store error is the duplicate key of an insert.
    - Each call that reaches the store is appended to a log, so that
      "before any store access" can be stated.
    - Requests are handled one after the other.
    - Mongoose is the library of its versions 5 and later: a path is set
      through the cast of its type, and an assignment that does not cast
      records its error and leaves the path as it was; [save] validates
      every path that has no error of its own and stops on the first
      failing validator of a path; a validator is called on every value
      but [undefined]; the errors of the assignments are listed before
      those of the validators. *)

From Stdlib Require Import Ascii.
From stdpp Require Import gmap strings list sorting pretty.

Local Open Scope Z_scope.

(** ** JavaScript values *)

#[warnings="-register-all"]
Inductive JsVal : Type :=
| JUndefined
| JNull
| JBool (b : bool)
| JNum (n : Z)
| JStr (s : string)
| JArr (items : list JsVal)
| JObj (props : list (string * JsVal)).

(** ToBoolean: what [if (v)], [!v] and [v || w] look at. *)
Definition truthy (v : JsVal) : bool :=
  match v with
  | JUndefined | JNull => false
  | JBool b => b
  | JNum n => negb (n =? 0)
  | JStr s => negb (String.eqb s "")
  | JArr _ | JObj _ => true
  end.

(** [v || null] *)
Definition or_null (v : JsVal) : JsVal := if truthy v then v else JNull.

(** [v !== undefined] *)
Definition supplied (v : JsVal) : bool :=
  match v with JUndefined => false | _ => true end.

(** [Array.isArray(v)] *)
Definition isArray (v : JsVal) : bool :=
  match v with JArr _ => true | _ => false end.

(** [Array.isArray(v) ? v : [v]], as the list of the elements. *)
Definition as_array (v : JsVal) : list JsVal :=
  match v with JArr items => items | _ => [v] end.

(** [Number.prototype.toString]: how JavaScript writes the number [n]
    out. The casts take it as a parameter, and what is proved of them
    holds whatever that writing is; [Number_prototype_toString] below
    is the one that the examples run with. *)
Class NumberToString : Type := number_toString : Z → string.

(** ** Strings *)

Definition isWhiteSpace (c : ascii) : bool :=
  match c with
  | "009" | "010" | "011" | "012" | "013" | " " | "160" => true
  | _ => false
  end%char.

Fixpoint trimStart (s : string) : string :=
  match s with
  | String c r => if isWhiteSpace c then trimStart r else s
  | EmptyString => EmptyString
  end.

(** [String.prototype.trim] *)
Definition trim (s : string) : string :=
  String.rev (trimStart (String.rev (trimStart s))).

Fixpoint strip_prefix (p s : string) : option string :=
  match p, s with
  | EmptyString, _ => Some s
  | String a p', String b s' =>
      if Ascii.eqb a b then strip_prefix p' s' else None
  | String _ _, EmptyString => None
  end.

(** Anchored regular expressions in continuation style: [lit p k] matches
    the literal [p] and goes on with [k]; [opt p k] is [(p)?], trying the
    literal first and the empty match next. *)
Definition lit (p : string) (k : string → bool) (s : string) : bool :=
  match strip_prefix p s with Some r => k r | None => false end.

Definition opt (p : string) (k : string → bool) (s : string) : bool :=
  lit p k s || k s.

Definition accept (_ : string) : bool := true.

(** [/^https?:\/\/(www\.)?github\.com\//] *)
Definition github_re : string → bool :=
  lit "http" (opt "s" (lit "://" (opt "www." (lit "github.com/" accept)))).

(** [/^https?:\/\//] *)
Definition url_re : string → bool :=
  lit "http" (opt "s" (lit "://" accept)).

(** The replacement text of [String.prototype.replace] for a string
    pattern, as GetSubstitution gives it: [$$] is a dollar, [$&] the
    matched text, [$`] what comes before the match and [$'] what comes
    after it. A string pattern has no capture groups, so any other [$]
    stands for itself. *)
Fixpoint GetSubstitution (matched before after replacement : string) : string :=
  match replacement with
  | String "$" (String "$" r) =>
      String "$" (GetSubstitution matched before after r)
  | String "$" (String "&" r) =>
      matched +:+ GetSubstitution matched before after r
  | String "$" (String "`" r) =>
      before +:+ GetSubstitution matched before after r
  | String "$" (String "'" r) =>
      after +:+ GetSubstitution matched before after r
  | String c r => String c (GetSubstitution matched before after r)
  | EmptyString => EmptyString
  end%char.

(** [s.replace(pattern, replacement)], on what of [s] follows [before]:
    the first occurrence of the pattern is replaced. *)
Fixpoint replace_from (pattern replacement before s : string) : string :=
  match strip_prefix pattern s with
  | Some after =>
      before +:+ GetSubstitution pattern before after replacement +:+ after
  | None =>
      match s with
      | String c r =>
          replace_from pattern replacement (before +:+ String c "") r
      | EmptyString => before
      end
  end.

Definition replace (pattern replacement s : string) : string :=
  replace_from pattern replacement "" s.

(** ** Mongoose casting *)

(** The cast of a value to the type of a path. The cast of an array
    fails on its first element that does not cast, and the error names
    the index of that element. *)
Inductive Cast (A : Type) : Type :=
| Ok (a : A)
| CastError (element : option nat) (v : JsVal).
Arguments Ok {A} a.
Arguments CastError {A} element v.

Fixpoint prop (k : string) (props : list (string * JsVal)) : JsVal :=
  match props with
  | [] => JUndefined
  | (k', v) :: rest => if String.eqb k k' then v else prop k rest
  end.

Section Casts.
Context `{!NumberToString}.

(** The cast of a [String] path. [None] is null (or undefined); numbers
    and booleans go through their [toString]; an object is taken for its
    [_id] when that is a non-empty string; arrays and the other objects
    do not cast. *)
Definition castString (v : JsVal) : Cast (option string) :=
  match v with
  | JUndefined | JNull => Ok None
  | JStr s => Ok (Some s)
  | JNum n => Ok (Some (number_toString n))
  | JBool b => Ok (Some (if b then "true" else "false"))
  | JArr _ => CastError None v
  | JObj props =>
      match prop "_id" props with
      | JStr s => if String.eqb s "" then CastError None v else Ok (Some s)
      | _ => CastError None v
      end
  end.

(** [trim: true]: the setter trims the cast value. *)
Definition castTrimmed (v : JsVal) : Cast (option string) :=
  match castString v with
  | Ok o => Ok (trim <$> o)
  | CastError e w => CastError e w
  end.

(** The elements of an array, cast one after the other from the index
    [i] on: the cast elements, or the index of the first that fails. *)
Fixpoint castItems (i : nat) (items : list JsVal)
  : nat + list (option string) :=
  match items with
  | [] => inr []
  | x :: rest =>
      match castString x with
      | Ok o => match castItems (S i) rest with
                | inr l => inr (o :: l)
                | inl j => inl j
                end
      | CastError _ _ => inl i
      end
  end.

(** The cast of an array to a [[String]] path: every element is cast,
    null elements stay, and the first element that does not cast fails
    the whole array, under its index. *)
Definition castStringArray (items : list JsVal) : Cast (list (option string)) :=
  match castItems 0 items with
  | inr l => Ok l
  | inl i => CastError (Some i) (JArr items)
  end.

End Casts.

(** ** Schema validators

    A validator answers [None] when the value passes and the message of
    the error otherwise. The validators of a path run in order and the
    first failure is the error of the path. *)

Definition Validator (A : Type) : Type := A → option string.

Definition required (msg : string) : Validator (option string) :=
  fun v => match v with
           | Some s => if String.eqb s "" then Some msg else None
           | None => Some msg
           end.

Definition maxlength (n : nat) (msg : string) : Validator (option string) :=
  fun v => match v with
           | Some s => if (n <? String.length s)%nat then Some msg else None
           | None => None
           end.

Definition categories : list string :=
  ["AI/Computer Vision"; "Data Analytics"; "NLP/AI"; "Security/Mobile";
   "Web Development"].

(** The message of a validator error: Mongoose puts the value in the
    place of [{VALUE}] with [msg.replace('{VALUE}', value)]. The other
    place holders do not occur in the messages of this schema. *)
Definition formatMessage (msg value : string) : string :=
  replace "{VALUE}" value msg.

(** [enum: { values, message: '{VALUE} is not a valid category' }] *)
Definition enum (values : list string) (msg : string)
  : Validator (option string) :=
  fun v => match v with
           | Some s => if bool_decide (s ∈ values) then None
                       else Some (formatMessage msg s)
           | None => Some (formatMessage msg "null")
           end.

(** [required] on an array path: every array passes, the empty one
    too (Mongoose 5 and later). *)
Definition required_array {A} (msg : string) : Validator (list A) :=
  fun _ => None.

(** [validator: function(v) { return v.length > 0; }] *)
Definition nonempty_array {A} (msg : string) : Validator (list A) :=
  fun v => if (0 <? length v)%nat then None else Some msg.

(** [validator: function(v) { if (!v) return true; return re.test(v); }] *)
Definition matches (re : string → bool) (msg : string)
  : Validator (option string) :=
  fun v => match v with
           | None => None
           | Some s => if String.eqb s "" then None
                       else if re s then None else Some msg
           end.

Fixpoint first_failure {A} (vs : list (Validator A)) (a : A) : option string :=
  match vs with
  | [] => None
  | f :: rest => match f a with Some m => Some m | None => first_failure rest a end
  end.

Inductive Message : Type :=
| ValidatorError (message : string)
| CastErrorAt (path : string) (v : JsVal).

(** The path of a cast error: the path that was assigned, or the
    element of it that did not cast, as in [technologies.0]. *)
Definition error_path (path : string) (element : option nat) : string :=
  match element with
  | Some i => path +:+ "." +:+ pretty i
  | None => path
  end.

(** The error that the assignment of a String path has recorded. *)
Definition castError {A} (path : string) (c : Cast A)
  : list (string * Message) :=
  match c with
  | CastError e v => [(error_path path e, CastErrorAt (error_path path e) v)]
  | Ok _ => []
  end.

(** The validators of a path run in order on its value; a path that
    has a cast error of its own is not validated. *)
Definition doValidate {A} (path : string) (vs : list (Validator A))
    (c : Cast A) : list (string * Message) :=
  match c with
  | CastError _ _ => []
  | Ok a => match first_failure vs a with
            | Some m => [(path, ValidatorError m)]
            | None => []
            end
  end.

(** An array path of a document: the array it holds, and the error of
    the last assignment when that did not cast. Such an assignment
    leaves the array as it was, and its error sits under the path of
    the element: the array path itself has no error and is validated. *)
Record ArrayPath : Type := mkArrayPath {
  held : list (option string);
  rejected : option (option nat * JsVal)
}.

Definition assign (c : Cast (list (option string))) (a : ArrayPath)
  : ArrayPath :=
  match c with
  | Ok l => mkArrayPath l None
  | CastError e v => mkArrayPath (held a) (Some (e, v))
  end.

(** The error that the assignment of an array path has recorded. *)
Definition arrayError (path : string) (a : ArrayPath)
  : list (string * Message) :=
  match rejected a with
  | Some (e, v) => [(error_path path e, CastErrorAt (error_path path e) v)]
  | None => []
  end.

(** The validators of an array path, on the array it holds. *)
Definition validateArray (path : string)
    (vs : list (Validator (list (option string)))) (a : ArrayPath)
  : list (string * Message) :=
  match rejected a with
  | Some (None, _) => []
  | _ => doValidate path vs (Ok (held a))
  end.

(** ** Request bodies, documents and stored projects *)

(** [req.body], as far as the handlers read it. *)
Module Body.
Record t : Type := mk {
  title : JsVal;
  description : JsVal;
  category : JsVal;
  technologies : JsVal;
  highlights : JsVal;
  image : JsVal;
  github : JsVal;
  live : JsVal;
  impact : JsVal
}.

Definition empty : t :=
  mk JUndefined JUndefined JUndefined JUndefined JUndefined
     JUndefined JUndefined JUndefined JUndefined.
End Body.

(** A project as the collection holds it. *)
Module Project.
Record t (Id : Type) : Type := mk {
  _id : Id;
  title : string;
  description : string;
  category : string;
  technologies : list (option string);
  highlights : list (option string);
  image : option string;
  github : option string;
  live : option string;
  impact : option string;
  createdAt : Z;
  updatedAt : Z
}.
Arguments mk {Id}.
Arguments _id {Id}.
Arguments title {Id}.
Arguments description {Id}.
Arguments category {Id}.
Arguments technologies {Id}.
Arguments highlights {Id}.
Arguments image {Id}.
Arguments github {Id}.
Arguments live {Id}.
Arguments impact {Id}.
Arguments createdAt {Id}.
Arguments updatedAt {Id}.
End Project.

(** A Mongoose document in memory: a String path holds what the cast
    of the last assignment gave, a value or an error; an array path
    holds its array and the error of the last assignment, if any. *)
Module Doc.
Record t (Id : Type) : Type := mk {
  isNew : bool;
  _id : Id;
  title : Cast (option string);
  description : Cast (option string);
  category : Cast (option string);
  technologies : ArrayPath;
  highlights : ArrayPath;
  image : Cast (option string);
  github : Cast (option string);
  live : Cast (option string);
  impact : Cast (option string);
  createdAt : Z;
  updatedAt : Z
}.
Arguments mk {Id}.
Arguments isNew {Id}.
Arguments _id {Id}.
Arguments title {Id}.
Arguments description {Id}.
Arguments category {Id}.
Arguments technologies {Id}.
Arguments highlights {Id}.
Arguments image {Id}.
Arguments github {Id}.
Arguments live {Id}.
Arguments impact {Id}.
Arguments createdAt {Id}.
Arguments updatedAt {Id}.

Section Setters.
Context {Id : Type}.
Implicit Type d : t Id.

Definition set_title c d :=
  mk (isNew d) (_id d) c (description d) (category d) (technologies d)
     (highlights d) (image d) (github d) (live d) (impact d)
     (createdAt d) (updatedAt d).
Definition set_description c d :=
  mk (isNew d) (_id d) (title d) c (category d) (technologies d)
     (highlights d) (image d) (github d) (live d) (impact d)
     (createdAt d) (updatedAt d).
Definition set_category c d :=
  mk (isNew d) (_id d) (title d) (description d) c (technologies d)
     (highlights d) (image d) (github d) (live d) (impact d)
     (createdAt d) (updatedAt d).
Definition set_technologies c d :=
  mk (isNew d) (_id d) (title d) (description d) (category d)
     (assign c (technologies d))
     (highlights d) (image d) (github d) (live d) (impact d)
     (createdAt d) (updatedAt d).
Definition set_highlights c d :=
  mk (isNew d) (_id d) (title d) (description d) (category d)
     (technologies d) (assign c (highlights d))
     (image d) (github d) (live d) (impact d)
     (createdAt d) (updatedAt d).
Definition set_image c d :=
  mk (isNew d) (_id d) (title d) (description d) (category d)
     (technologies d) (highlights d) c (github d) (live d) (impact d)
     (createdAt d) (updatedAt d).
Definition set_github c d :=
  mk (isNew d) (_id d) (title d) (description d) (category d)
     (technologies d) (highlights d) (image d) c (live d) (impact d)
     (createdAt d) (updatedAt d).
Definition set_live c d :=
  mk (isNew d) (_id d) (title d) (description d) (category d)
     (technologies d) (highlights d) (image d) (github d) c (impact d)
     (createdAt d) (updatedAt d).
Definition set_impact c d :=
  mk (isNew d) (_id d) (title d) (description d) (category d)
     (technologies d) (highlights d) (image d) (github d) (live d) c
     (createdAt d) (updatedAt d).
Definition set_updatedAt (now : Z) d :=
  mk (isNew d) (_id d) (title d) (description d) (category d)
     (technologies d) (highlights d) (image d) (github d) (live d)
     (impact d) (createdAt d) now.
Definition set_isNew (b : bool) d :=
  mk b (_id d) (title d) (description d) (category d)
     (technologies d) (highlights d) (image d) (github d) (live d)
     (impact d) (createdAt d) (updatedAt d).

(** The document Mongoose builds from a stored project. *)
Definition init (p : Project.t Id) : t Id :=
  mk false (Project._id p)
     (Ok (Some (Project.title p))) (Ok (Some (Project.description p)))
     (Ok (Some (Project.category p)))
     (mkArrayPath (Project.technologies p) None)
     (mkArrayPath (Project.highlights p) None)
     (Ok (Project.image p)) (Ok (Project.github p))
     (Ok (Project.live p)) (Ok (Project.impact p))
     (Project.createdAt p) (Project.updatedAt p).

Definition value {A} (c : Cast A) : option A :=
  match c with Ok a => Some a | CastError _ _ => None end.

Definition array (a : ArrayPath) : option (list (option string)) :=
  match rejected a with None => Some (held a) | Some _ => None end.

(** The fields of a document, as they are stored; there are none while
    a path has a cast error or a required string is null. *)
Definition toObject d : option (Project.t Id) :=
  t ← value (title d) ≫= id;
  de ← value (description d) ≫= id;
  c ← value (category d) ≫= id;
  te ← array (technologies d);
  h ← array (highlights d);
  i ← value (image d);
  g ← value (github d);
  l ← value (live d);
  im ← value (impact d);
  Some (Project.mk (_id d) t de c te h i g l im (createdAt d) (updatedAt d)).
End Setters.
End Doc.

(** ** The schema *)

(** The validators of each path of [projectSchema]; [required] comes
    first on a path that has it. *)
Definition title_validators : list (Validator (option string)) :=
  [required "Please provide a project title";
   maxlength 200 "Title cannot exceed 200 characters"].

Definition description_validators : list (Validator (option string)) :=
  [required "Please provide a description";
   maxlength 2000 "Description cannot exceed 2000 characters"].

Definition category_validators : list (Validator (option string)) :=
  [required "Please select a category";
   enum categories "{VALUE} is not a valid category"].

Definition technologies_validators : list (Validator (list (option string))) :=
  [required_array "Please add at least one technology";
   nonempty_array "Technologies array cannot be empty"].

Definition highlights_validators : list (Validator (list (option string))) :=
  [nonempty_array "Add at least one highlight"].

Definition image_validators : list (Validator (option string)) := [].

Definition github_validators : list (Validator (option string)) :=
  [matches github_re "Please provide a valid GitHub URL"].

Definition live_validators : list (Validator (option string)) :=
  [matches url_re "Please provide a valid URL"].

Definition impact_validators : list (Validator (option string)) :=
  [maxlength 500 "Impact description cannot exceed 500 characters"].

(** The errors that the assignments have recorded in the document.
    Both handlers assign the paths in the order of the schema. *)
Definition castErrors {Id} (d : Doc.t Id) : list (string * Message) :=
  castError "title" (Doc.title d)
  ++ castError "description" (Doc.description d)
  ++ castError "category" (Doc.category d)
  ++ arrayError "technologies" (Doc.technologies d)
  ++ arrayError "highlights" (Doc.highlights d)
  ++ castError "image" (Doc.image d)
  ++ castError "github" (Doc.github d)
  ++ castError "live" (Doc.live d)
  ++ castError "impact" (Doc.impact d).

(** The errors of the validators, path by path. *)
Definition validatorErrors {Id} (d : Doc.t Id) : list (string * Message) :=
  doValidate "title" title_validators (Doc.title d)
  ++ doValidate "description" description_validators (Doc.description d)
  ++ doValidate "category" category_validators (Doc.category d)
  ++ validateArray "technologies" technologies_validators (Doc.technologies d)
  ++ validateArray "highlights" highlights_validators (Doc.highlights d)
  ++ doValidate "image" image_validators (Doc.image d)
  ++ doValidate "github" github_validators (Doc.github d)
  ++ doValidate "live" live_validators (Doc.live d)
  ++ doValidate "impact" impact_validators (Doc.impact d).

(** The validation of a document: the errors of the assignments are
    already in its list of errors, those of the validators are added;
    each error is kept under the name of its path. *)
Definition validate {Id} (d : Doc.t Id) : list (string * Message) :=
  castErrors d ++ validatorErrors d.

(** The errors under one path, and those of a document path by path:
    they are the errors of [validate], in another order. *)
Definition pathErrors {A} (path : string) (vs : list (Validator A))
    (c : Cast A) : list (string * Message) :=
  castError path c ++ doValidate path vs c.

Definition arrayErrors (path : string)
    (vs : list (Validator (list (option string)))) (a : ArrayPath)
  : list (string * Message) :=
  arrayError path a ++ validateArray path vs a.

Definition errorsByPath {Id} (d : Doc.t Id) : list (string * Message) :=
  pathErrors "title" title_validators (Doc.title d)
  ++ pathErrors "description" description_validators (Doc.description d)
  ++ pathErrors "category" category_validators (Doc.category d)
  ++ arrayErrors "technologies" technologies_validators (Doc.technologies d)
  ++ arrayErrors "highlights" highlights_validators (Doc.highlights d)
  ++ pathErrors "image" image_validators (Doc.image d)
  ++ pathErrors "github" github_validators (Doc.github d)
  ++ pathErrors "live" live_validators (Doc.live d)
  ++ pathErrors "impact" impact_validators (Doc.impact d).

(** A stored project is valid when the document loaded from it passes
    the schema. *)
Definition valid_project {Id} (p : Project.t Id) : Prop :=
  validate (Doc.init p) = [].

(** ** Vocabulary of the statements

    Predicates on request bodies that the properties below are stated
    with; the server does not compute them. *)

(** A required string within its length limit; the title is measured
    after trimming. *)
Definition text_within (limit : nat) (f : string → string) (v : JsVal) : bool :=
  match v with
  | JStr s => negb (String.eqb (f s) "") && (String.length (f s) <=? limit)%nat
  | _ => false
  end.

Definition is_category (v : JsVal) : bool :=
  match v with
  | JStr s => bool_decide (s ∈ categories)
  | _ => false
  end.

Definition is_string (v : JsVal) : bool :=
  match v with JStr _ => true | _ => false end.

(** A non-empty array of strings, or one non-empty string. *)
Definition some_strings (v : JsVal) : bool :=
  match v with
  | JArr items => (0 <? length items)%nat && forallb is_string items
  | JStr s => negb (String.eqb s "")
  | _ => false
  end.

(** An optional string: absent, null, or a string that is empty or
    passes [ok]. *)
Definition optional_text (ok : string → bool) (v : JsVal) : bool :=
  match v with
  | JUndefined | JNull => true
  | JStr s => String.eqb s "" || ok s
  | _ => false
  end.

Definition creatable (body : Body.t) : bool :=
  text_within 200 trim (Body.title body)
  && text_within 2000 id (Body.description body)
  && is_category (Body.category body)
  && some_strings (Body.technologies body)
  && some_strings (Body.highlights body)
  && optional_text (λ _, true) (Body.image body)
  && optional_text github_re (Body.github body)
  && optional_text url_re (Body.live body)
  && optional_text (λ s, (String.length s <=? 500)%nat) (Body.impact body).

(** A value that clears a nullable field: absent, null or empty. *)
Definition blank (v : JsVal) : bool :=
  match v with
  | JUndefined | JNull => true
  | JStr s => String.eqb s ""
  | _ => false
  end.

(** A body that supplies at most the four nullable fields, each as null
    or as the empty string. *)
Definition clears_only (body : Body.t) : bool :=
  negb (supplied (Body.title body))
  && negb (supplied (Body.description body))
  && negb (supplied (Body.category body))
  && negb (supplied (Body.technologies body))
  && negb (supplied (Body.highlights body))
  && blank (Body.image body) && blank (Body.github body)
  && blank (Body.live body) && blank (Body.impact body).

(** A body that supplies [impact] and nothing else. *)
Definition impact_only (v : JsVal) : Body.t :=
  Body.mk JUndefined JUndefined JUndefined JUndefined JUndefined
          JUndefined JUndefined JUndefined v.

Fixpoint contains (needle s : string) : bool :=
  match strip_prefix needle s with
  | Some _ => true
  | None => match s with
            | String _ r => contains needle r
            | EmptyString => false
            end
  end.

(** An error message that is about the path [field]: a cast error of the
    path, or a validator message that spells its name. *)
Definition mentions (field : string) (m : Message) : bool :=
  match m with
  | ValidatorError s => contains field s
  | CastErrorAt path _ => String.eqb path field
  end.

(** The order of two strings by their character codes: the first is a
    prefix of the second, or at the first place where the two differ
    the first has the smaller code. *)
Definition lex_le (s t : string) : Prop :=
  (∃ r, t = s +:+ r)
  ∨ (∃ pre a b r r',
       s = pre +:+ String a r ∧ t = pre +:+ String b r'
       ∧ (nat_of_ascii a < nat_of_ascii b)%nat).

(** The path [path] is [field] or a path under it, as [technologies.0]
    is under [technologies]. *)
Definition under (field path : string) : bool :=
  String.eqb path field
  || match strip_prefix (field +:+ ".") path with
     | Some _ => true
     | None => false
     end.

(** ** The server *)

Section Server.
Context {ObjectId : Type} `{Countable ObjectId} `{!NumberToString}.

(** [mongoose.Types.ObjectId.isValid] on the [:id] of the path, and the
    cast of such a string to the [_id] it denotes. *)
Variable isValid : string → bool.
Variable castObjectId : string → ObjectId.

Abbreviation Project := (Project.t ObjectId).
Abbreviation Document := (Doc.t ObjectId).

(** *** World, store calls and the handler monad *)

Inductive StoreOp : Type :=
| Find (category : option string)
| FindById (id : ObjectId)
| InsertOne (id : ObjectId)
| UpdateOne (id : ObjectId)
| FindByIdAndDelete (id : ObjectId).

Record World : Type := mkWorld {
  collection : gmap ObjectId Project;
  clock : Z;
  oplog : list StoreOp
}.

Inductive Exn : Type :=
| ValidationError (errors : list (string * Message))
| DuplicateKey (id : ObjectId).

Inductive Result (A : Type) : Type :=
| Returned (a : A)
| Thrown (e : Exn).
Arguments Returned {A} a.
Arguments Thrown {A} e.

(** State and exceptions: what an [async] handler body does between
    its [try] and its [catch]. *)
Definition M (A : Type) : Type := World → Result A * World.

Definition ret {A} (a : A) : M A := fun w => (Returned a, w).

Definition bind {A B} (m : M A) (k : A → M B) : M B :=
  fun w => match m w with
           | (Returned a, w') => k a w'
           | (Thrown e, w') => (Thrown e, w')
           end.

Definition throw {A} (e : Exn) : M A := fun w => (Thrown e, w).

Notation "x <- m ;; k" := (bind m (fun x => k))
  (at level 100, m at next level, right associativity).

(** [try { body } catch (error) { handler }] around a whole handler. *)
Definition try_catch {R} (body : M R) (handler : Exn → R) : World → R * World :=
  fun w => match body w with
           | (Returned r, w') => (r, w')
           | (Thrown e, w') => (handler e, w')
           end.

(** The world [dt] milliseconds later. *)
Definition later (dt : N) (w : World) : World :=
  mkWorld (collection w) (clock w + Z.of_N dt) (oplog w).

(** [Date.now()], after [dt] milliseconds have passed. *)
Definition Date_now (dt : N) : M Z :=
  fun w => (Returned (clock (later dt w)), later dt w).

Definition logged (op : StoreOp) (w : World) : World :=
  mkWorld (collection w) (clock w) (oplog w ++ [op]).

Definition store (c : gmap ObjectId Project) (w : World) : World :=
  mkWorld c (clock w) (oplog w).

(** *** The model [Project] *)

Inductive SortBy : Type :=
| title_asc       (* { title: 1 } *)
| createdAt_desc. (* { createdAt: -1 } *)

(** Ascending titles: the lexicographic order of the character codes,
    a proper prefix coming first. *)
Definition title_le (p q : Project) : Prop :=
  String.le (Project.title p) (Project.title q).

(** Descending creation times. *)
Definition newer_first (p q : Project) : Prop :=
  Project.createdAt q ≤ Project.createdAt p.

Global Instance title_le_dec : RelDecision title_le.
Proof. intros p q. unfold title_le. apply _. Defined.

Global Instance newer_first_dec : RelDecision newer_first.
Proof. intros p q. unfold newer_first. apply _. Defined.

Definition sorted_by (s : SortBy) (ps : list Project) : list Project :=
  match s with
  | title_asc => merge_sort title_le ps
  | createdAt_desc => merge_sort newer_first ps
  end.

Definition in_category (c : option string) (p : Project) : Prop :=
  match c with Some c => Project.category p = c | None => True end.

Global Instance in_category_dec c p : Decision (in_category c p).
Proof. destruct c; simpl; apply _. Defined.

(** [Project.find(filter).sort(sortBy)], with or without [lean()]: the
    records are the same, what differs is how they are sent. *)
Definition find (category : option string) (s : SortBy) : M (list Project) :=
  fun w =>
    let found := filter (in_category category) (map_to_list (collection w)).*2 in
    (Returned (sorted_by s found), logged (Find category) w).

(** [Project.findById(id)] *)
Definition findById (id : ObjectId) : M (option Project) :=
  fun w => (Returned (collection w !! id), logged (FindById id) w).

(** [Project.findByIdAndDelete(id)] *)
Definition findByIdAndDelete (id : ObjectId) : M (option Project) :=
  fun w => (Returned (collection w !! id),
            store (delete id (collection w)) (logged (FindByIdAndDelete id) w)).

Definition insertOne (p : Project) : M unit :=
  fun w =>
    let w' := logged (InsertOne (Project._id p)) w in
    match collection w !! Project._id p with
    | Some _ => (Thrown (DuplicateKey (Project._id p)), w')
    | None => (Returned (), store (<[Project._id p := p]> (collection w)) w')
    end.

Definition updateOne (p : Project) : M unit :=
  fun w => (Returned (),
            store (<[Project._id p := p]> (collection w))
                  (logged (UpdateOne (Project._id p)) w)).

(** What the environment decides during one request: the [_id] a new
    document is given, and the time that passes before the n-th read
    of the clock. *)
Record Env : Type := mkEnv {
  generated : ObjectId;
  elapsed : nat → N
}.

(** The document of
    [new Project({ title, description, category, technologies: ...,
    highlights: ..., image: req.body.image || null, ... })] in the create
    handler: each property of the literal is set through the cast of its
    path; an array path is the empty array before it is set. *)
Definition new_document (id : ObjectId) (body : Body.t) (created updated : Z)
  : Document :=
  Doc.mk true id
    (castTrimmed (Body.title body))
    (castString (Body.description body))
    (castString (Body.category body))
    (assign (castStringArray (as_array (Body.technologies body)))
       (mkArrayPath [] None))
    (assign
       (castStringArray
          (if truthy (Body.highlights body)
           then as_array (Body.highlights body) else []))
       (mkArrayPath [] None))
    (castString (or_null (Body.image body)))
    (castString (or_null (Body.github body)))
    (castString (or_null (Body.live body)))
    (castString (or_null (Body.impact body)))
    created updated.

(** [new Project({...})]: the document gets its [_id], the defaults of
    [createdAt] and [updatedAt] read the clock, and the paths are set. *)
Definition new_Project (env : Env) (body : Body.t) : M Document :=
  created <- Date_now (elapsed env 0%nat) ;;
  updated <- Date_now (elapsed env 1%nat) ;;
  ret (new_document (generated env) body created updated).

(** [projectSchema.pre('save', ...)]: [this.updatedAt = Date.now()].
    With [timestamps: true] Mongoose has its own hook write [updatedAt]
    first; this one is registered after it and runs after it, so what
    it writes is what is saved. *)
Definition pre_save (dt : N) (d : Document) : M Document :=
  now <- Date_now dt ;;
  ret (Doc.set_updatedAt now d).

(** [doc.save()]: validation, then the hook, then the write: an insert
    for a new document and an update for a loaded one. The answer is
    the saved document, given by its fields; a document that has passed
    the validation has them all, the other branch is never taken. *)
Definition save (dt : N) (d : Document) : M Project :=
  match validate d with
  | [] =>
      d' <- pre_save dt d ;;
      match Doc.toObject d' with
      | Some p =>
          _ <- (if Doc.isNew d then insertOne p else updateOne p) ;;
          ret p
      | None => throw (ValidationError [])
      end
  | errors => throw (ValidationError errors)
  end.

(** *** Responses *)

(** The [data] of a response. [One] and [Many] hold Mongoose documents,
    which [res.json] serialises through [toJSON]: with [virtuals: true]
    the getter [id] is sent beside the stored fields. [Lean] holds the
    plain objects that a query with [lean()] gives: they are sent as
    they are stored, without [id]. *)
Inductive Data : Type :=
| One (project : Project)
| Many (projects : list Project)
| Lean (projects : list Project).

(** [res.status(status).json({ success, message, count, data, errors,
    error })]; [error] stands for the message of the caught error. *)
Record Response : Type := mkResponse {
  status : Z;
  success : bool;
  message : option string;
  count : option nat;
  data : option Data;
  errors : option (list Message);
  error : option Exn
}.

Definition failure (st : Z) (msg : string) : Response :=
  mkResponse st false (Some msg) None None None None.

Definition invalid_id : Response := failure 400 "Invalid project ID".
Definition not_found : Response := failure 404 "Project not found".

(** The [catch] of the create and update handlers. *)
Definition on_save_error (msg : string) (e : Exn) : Response :=
  match e with
  | ValidationError errs =>
      mkResponse 400 false (Some "Validation error") None None
                 (Some (errs.*2)) None
  | _ => mkResponse 500 false (Some msg) None None None (Some e)
  end.

(** The [catch] of the other handlers. *)
Definition on_error (msg : string) (e : Exn) : Response :=
  mkResponse 500 false (Some msg) None None None (Some e).

(** *** Handlers *)

(** [GET /api/projects?category=&sort=] *)
Definition getProjects (category sort : option string)
  : World → Response * World :=
  try_catch
    (let filter :=
       match category with
       | Some c => if truthy (JStr c) then Some c else None
       | None => None
       end in
     let sortBy :=
       if bool_decide (sort = Some "title") then title_asc
       else if bool_decide (sort = Some "newest") then createdAt_desc
       else createdAt_desc in
     projects <- find filter sortBy ;;
     ret (mkResponse 200 true None (Some (length projects))
                     (Some (Lean projects)) None None))
    (on_error "Error fetching projects").

(** [GET /api/projects/:id] *)
Definition getProject (id : string) : World → Response * World :=
  try_catch
    (if negb (isValid id) then ret invalid_id
     else
       project <- findById (castObjectId id) ;;
       match project with
       | None => ret not_found
       | Some p => ret (mkResponse 200 true None None (Some (One p)) None None)
       end)
    (on_error "Error fetching project").

(** [POST /api/projects] *)
Definition createProject (env : Env) (body : Body.t)
  : World → Response * World :=
  try_catch
    (if negb (truthy (Body.title body))
        || negb (truthy (Body.description body))
        || negb (truthy (Body.category body))
        || negb (truthy (Body.technologies body))
     then
       ret (failure 400
         "Please provide all required fields: title, description, category, technologies")
     else
       newProject <- new_Project env body ;;
       saved <- save (elapsed env 2%nat) newProject ;;
       ret (mkResponse 201 true (Some "Project created successfully") None
                       (Some (One saved)) None None))
    (on_save_error "Error creating project").

(** The assignments of the update handler, in order. *)
Definition update_fields (body : Body.t) (project : Document) : Document :=
  let project :=
    if truthy (Body.title body)
    then Doc.set_title (castTrimmed (Body.title body)) project
    else project in
  let project :=
    if truthy (Body.description body)
    then Doc.set_description (castString (Body.description body)) project
    else project in
  let project :=
    if truthy (Body.category body)
    then Doc.set_category (castString (Body.category body)) project
    else project in
  let project :=
    if truthy (Body.technologies body)
    then Doc.set_technologies
           (castStringArray (as_array (Body.technologies body))) project
    else project in
  let project :=
    if truthy (Body.highlights body)
    then Doc.set_highlights
           (castStringArray (as_array (Body.highlights body))) project
    else project in
  let project :=
    if supplied (Body.image body)
    then Doc.set_image (castString (Body.image body)) project
    else project in
  let project :=
    if supplied (Body.github body)
    then Doc.set_github (castString (Body.github body)) project
    else project in
  let project :=
    if supplied (Body.live body)
    then Doc.set_live (castString (Body.live body)) project
    else project in
  if supplied (Body.impact body)
  then Doc.set_impact (castString (Body.impact body)) project
  else project.

(** [PUT /api/projects/:id] *)
Definition updateProject (env : Env) (id : string) (body : Body.t)
  : World → Response * World :=
  try_catch
    (if negb (isValid id) then ret invalid_id
     else
       project <- findById (castObjectId id) ;;
       match project with
       | None => ret not_found
       | Some p =>
           updatedProject <-
             save (elapsed env 0%nat) (update_fields body (Doc.init p)) ;;
           ret (mkResponse 200 true (Some "Project updated successfully")
                           None (Some (One updatedProject)) None None)
       end)
    (on_save_error "Error updating project").

(** [DELETE /api/projects/:id] *)
Definition deleteProject (id : string) : World → Response * World :=
  try_catch
    (if negb (isValid id) then ret invalid_id
     else
       project <- findByIdAndDelete (castObjectId id) ;;
       match project with
       | None => ret not_found
       | Some p =>
           ret (mkResponse 200 true (Some "Project deleted successfully")
                           None (Some (One p)) None None)
       end)
    (on_error "Error deleting project").

(** [GET /api/projects/category/:category] *)
Definition getProjectsByCategory (category : string)
  : World → Response * World :=
  try_catch
    (projects <- find (Some category) createdAt_desc ;;
     ret (mkResponse 200 true None (Some (length projects))
                     (Some (Many projects)) None None))
    (on_error "Error fetching projects by category").

(** *** Requests and runs *)

Inductive Request : Type :=
| GET_projects (category sort : option string)
| GET_project (id : string)
| POST_project (body : Body.t)
| PUT_project (id : string) (body : Body.t)
| DELETE_project (id : string)
| GET_category (category : string).

Definition handle (env : Env) (req : Request) : World → Response * World :=
  match req with
  | GET_projects c s => getProjects c s
  | GET_project id => getProject id
  | POST_project body => createProject env body
  | PUT_project id body => updateProject env id body
  | DELETE_project id => deleteProject id
  | GET_category c => getProjectsByCategory c
  end.

(** The server starts on an empty collection, at any time. *)
Definition initial (t : Z) : World := mkWorld ∅ t [].

Inductive reachable : World → Prop :=
| reachable_initial t : reachable (initial t)
| reachable_handle env req w :
    reachable w → reachable (handle env req w).2.

(** *** Consistency

    What holds of every stored project in a world the server can be in:
    it sits under its own [_id], it passes the schema, and its time
    stamps are in order and not in the future. *)
Definition consistent (w : World) : Prop :=
  ∀ id p, collection w !! id = Some p →
    Project._id p = id ∧ valid_project p ∧
    Project.createdAt p ≤ Project.updatedAt p ∧
    Project.updatedAt p ≤ clock w.

End Server.

Arguments Returned {ObjectId A} a.
Arguments Thrown {ObjectId A} e.
Arguments StoreOp : clear implicits.
Arguments Exn : clear implicits.
Arguments Env : clear implicits.
Arguments World ObjectId {_ _}.
Arguments Data : clear implicits.
Arguments Response : clear implicits.

(** ** The writing of numbers

    [Number.prototype.toString] on an integer literal of a JSON body.
    The literal is first a double, the nearest one; the writing has the
    fewest digits that give that double back, in full up to 21 digits
    and with an exponent beyond. *)

(** The double nearest to the integer [m > 0], ties going to the even
    significand. *)
Definition toDouble (m : Z) : Z :=
  let e := Z.log2 m in
  if e <? 53 then m
  else
    let ulp := 2 ^ (e - 52) in
    let q := m / ulp in
    let r := m mod ulp in
    let q' := if (ulp <? 2 * r) || ((2 * r =? ulp) && Z.odd q)
              then q + 1 else q in
    q' * ulp.

(** The decimal number of the fewest significant digits that the double
    [v] is the nearest double to; with [k] digits there are two to try,
    and of two that do the nearer one is taken. *)
Fixpoint shortest (fuel : nat) (k : Z) (digits : Z) (v : Z) : Z :=
  match fuel with
  | O => v
  | S fuel =>
      let p := 10 ^ (digits - k) in
      let lo := v / p * p in
      let hi := lo + p in
      match toDouble lo =? v, toDouble hi =? v with
      | true, true =>
          if v - lo <? hi - v then lo
          else if hi - v <? v - lo then hi
          else if Z.even (v / p) then lo else hi
      | true, false => lo
      | false, true => hi
      | false, false => shortest fuel (k + 1) digits v
      end
  end.

Fixpoint dropZeros (reversed : string) : string :=
  match reversed with
  | String "0" r => dropZeros r
  | _ => reversed
  end%char.

Definition Number_prototype_toString (n : Z) : string :=
  if n =? 0 then "0"
  else
    let sign := if n <? 0 then "-" else "" in
    let v := toDouble (Z.abs n) in
    if 2 ^ 1024 <=? v then sign +:+ "Infinity"
    else
      let digits := String.length (pretty v) in
      let c := pretty (shortest digits 1 (Z.of_nat digits) v) in
      let n := String.length c in
      if (n <=? 21)%nat then sign +:+ c
      else
        match String.rev (dropZeros (String.rev c)) with
        | String d "" => sign +:+ String d ("e+" +:+ pretty (n - 1)%nat)
        | String d rest =>
            sign +:+ String d ("." +:+ rest +:+ "e+" +:+ pretty (n - 1)%nat)
        | EmptyString => sign
        end.

(** ** A concrete server

    Identifiers of 24 hexadecimal digits, kept in lower case, and some
    requests to run the handlers on. *)
Module Example.

Definition isHexDigit (c : ascii) : bool :=
  let n := nat_of_ascii c in
  ((48 <=? n) && (n <=? 57) || (65 <=? n) && (n <=? 70)
   || (97 <=? n) && (n <=? 102))%nat.

Definition toLower (c : ascii) : ascii :=
  let n := nat_of_ascii c in
  if ((65 <=? n) && (n <=? 90))%nat then ascii_of_nat (n + 32) else c.

Fixpoint map_string (f : ascii → ascii) (s : string) : string :=
  match s with
  | EmptyString => EmptyString
  | String c r => String (f c) (map_string f r)
  end.

Fixpoint all_chars (f : ascii → bool) (s : string) : bool :=
  match s with
  | EmptyString => true
  | String c r => f c && all_chars f r
  end.

Definition isValid (s : string) : bool :=
  (String.length s =? 24)%nat && all_chars isHexDigit s.

Definition castObjectId (s : string) : string := map_string toLower s.

(** The examples write numbers as JavaScript does. *)
#[export] Instance javascript : NumberToString := Number_prototype_toString.

Definition id1 : string := "507f1f77bcf86cd799439011".
Definition id2 : string := "507f191e810c19729de860ea".

(** One millisecond passes before every read of the clock. *)
Definition env1 : Env string := mkEnv id1 (λ _, 1%N).

Definition site : Body.t :=
  Body.mk (JStr "  Portfolio site ") (JStr "A personal site")
          (JStr "Web Development") (JStr "React") (JArr [JStr "Fast"])
          JUndefined (JStr "https://github.com/me/repo") JUndefined
          JUndefined.

Definition w0 : World string := initial 1000.

(** The world after [site] has been created. *)
Definition w1 : World string := (createProject env1 site w0).2.

(** The project that [w1] holds under [id1]. *)
Definition project1 : Project.t string :=
  Project.mk id1 "Portfolio site" "A personal site" "Web Development"
    [Some "React"] [Some "Fast"] None (Some "https://github.com/me/repo")
    None None 1001 1003.

(** An update that supplies a [github] outside GitHub, and nothing else. *)
Definition evil_github : Body.t :=
  Body.mk JUndefined JUndefined JUndefined JUndefined JUndefined
          JUndefined (JStr "https://evil.com") JUndefined JUndefined.

(** An update that empties [github] and nulls [impact]. *)
Definition clearing : Body.t :=
  Body.mk JUndefined JUndefined JUndefined JUndefined JUndefined
          JUndefined (JStr "") JUndefined JNull.

(** An update with an empty title and a new description. *)
Definition retitle : Body.t :=
  Body.mk (JStr "") (JStr "A rewritten site") JUndefined JUndefined
          JUndefined JUndefined JUndefined JUndefined JUndefined.

(** A second driver: it generates [id2]. *)
Definition env2 : Env string := mkEnv id2 (λ _, 1%N).

(** A second project, whose title comes before that of [site]. *)
Definition board : Body.t :=
  Body.mk (JStr "Analytics board") (JStr "Sales by region")
          (JStr "Data Analytics") (JArr [JStr "SQL"; JStr "Python"])
          (JStr "Live") JUndefined JUndefined JUndefined JUndefined.

(** A world with two projects: [site] was created first, under [id2],
    and [board] after it, under [id1]. *)
Definition w2 : World string :=
  (createProject env1 board (createProject env2 site w0).2).2.

(** The two projects of [w2]. *)
Definition older : Project.t string :=
  Project.mk id2 "Portfolio site" "A personal site" "Web Development"
    [Some "React"] [Some "Fast"] None (Some "https://github.com/me/repo")
    None None 1001 1003.

Definition newer : Project.t string :=
  Project.mk id1 "Analytics board" "Sales by region" "Data Analytics"
    [Some "SQL"; Some "Python"] [Some "Live"] None None None None 1004 1006.

(** A body with one property replaced. *)
Definition with_title (v : JsVal) (b : Body.t) : Body.t :=
  Body.mk v (Body.description b) (Body.category b) (Body.technologies b)
          (Body.highlights b) (Body.image b) (Body.github b) (Body.live b)
          (Body.impact b).
Definition with_technologies (v : JsVal) (b : Body.t) : Body.t :=
  Body.mk (Body.title b) (Body.description b) (Body.category b) v
          (Body.highlights b) (Body.image b) (Body.github b) (Body.live b)
          (Body.impact b).
Definition with_live (v : JsVal) (b : Body.t) : Body.t :=
  Body.mk (Body.title b) (Body.description b) (Body.category b)
          (Body.technologies b) (Body.highlights b) (Body.image b)
          (Body.github b) v (Body.impact b).

(** A project in a category that the schema does not list. *)
Definition games : Body.t :=
  Body.mk (JStr "Chess") (JStr "A chess engine") (JStr "Games")
          (JStr "Rust") (JArr [JStr "Fast"]) JUndefined JUndefined
          JUndefined JUndefined.

(** The same project in a category with a dollar sign in it. *)
Definition dollars : Body.t :=
  Body.mk (JStr "Chess") (JStr "A chess engine") (JStr "US$$")
          (JStr "Rust") (JArr [JStr "Fast"]) JUndefined JUndefined
          JUndefined JUndefined.

Fixpoint repeat_char (c : ascii) (n : nat) : string :=
  match n with
  | O => EmptyString
  | S n => String c (repeat_char c n)
  end.

(** A title of 201 characters. *)
Definition long_title : string := repeat_char "a" 201.

End Example.


(** * Properties *)

(** ** Validation *)

Lemma pathErrors_nil {A} path (vs : list (Validator A)) (c : Cast A) :
  pathErrors path vs c = [] ↔ ∃ a, c = Ok a ∧ first_failure vs a = None.
Proof.
  unfold pathErrors, castError, doValidate. destruct c as [a|e v]; simpl.
  - destruct (first_failure vs a) eqn:E; split.
    + discriminate.
    + intros (a' & [= <-] & E'). congruence.
    + eauto.
    + done.
  - split; [discriminate | intros (a & ? & _); discriminate].
Qed.

Lemma arrayErrors_nil path vs (a : ArrayPath) :
  arrayErrors path vs a = []
  ↔ rejected a = None ∧ first_failure vs (held a) = None.
Proof.
  unfold arrayErrors, arrayError, validateArray, doValidate.
  destruct (rejected a) as [[e v]|]; simpl.
  - split; [discriminate | intros [? _]; discriminate].
  - destruct (first_failure vs (held a)); split; try done.
    intros [_ ?]. discriminate.
Qed.

Lemma str_app_assoc (s t u : string) : (s +:+ t) +:+ u = s +:+ (t +:+ u).
Proof.
  induction s as [|a s IH]; [reflexivity|].
  change (String a ((s +:+ t) +:+ u) = String a (s +:+ (t +:+ u))).
  by rewrite IH.
Qed.

Lemma strip_prefix_app (s r : string) : strip_prefix s (s +:+ r) = Some r.
Proof.
  induction s as [|a s IH]; [by destruct r|].
  change (strip_prefix (String a s) (String a (s +:+ r)) = Some r).
  simpl. by rewrite Ascii.eqb_refl.
Qed.

Lemma strip_prefix_Some (pre s r : string) :
  strip_prefix pre s = Some r ↔ s = pre +:+ r.
Proof.
  revert s. induction pre as [|a pre IH]; intros s.
  - split; [by intros [= ->]|by intros ->].
  - destruct s as [|b s].
    + split; [done|]. intros Hs. discriminate Hs.
    + cbn [strip_prefix]. destruct (Ascii.eqb_spec a b) as [->|Hne].
      * rewrite IH. split; [by intros ->|]. intros Hs. by injection Hs.
      * split; [done|]. intros Hs. injection Hs as Hb _. by destruct Hne.
Qed.

(** A path under one field of the schema is under no other: [Hu] says
    that the path is under a field, the goal that it is not under
    another one. *)
Ltac other_path Hu :=
  unfold under in Hu; apply orb_true_iff in Hu as [Hu|Hu];
  [apply String.eqb_eq in Hu as ->; reflexivity
  |match type of Hu with
   | context [strip_prefix ?f ?s] =>
       let r := fresh "r" in
       let Hr := fresh "Hr" in
       destruct (strip_prefix f s) as [r|] eqn:Hr; [|discriminate Hu];
       apply strip_prefix_Some in Hr as ->; reflexivity
   end].

(** The path of an error of an assignment is the path assigned or an
    element of it. *)
Lemma under_error_path path e : under path (error_path path e) = true.
Proof.
  unfold under, error_path. destruct e as [i|].
  - rewrite <- str_app_assoc, strip_prefix_app. apply orb_true_r.
  - by rewrite String.eqb_refl.
Qed.

Lemma under_refl path : under path path = true.
Proof. apply (under_error_path path None). Qed.

Lemma pathErrors_paths {A} path (vs : list (Validator A)) (c : Cast A) q m :
  (q, m) ∈ pathErrors path vs c → under path q = true.
Proof.
  unfold pathErrors, castError, doValidate. rewrite elem_of_app.
  destruct c as [a|e v]; [destruct (first_failure vs a)|];
    rewrite ?list_elem_of_singleton, ?elem_of_nil;
    intros [Hin|Hin]; try done; injection Hin as -> _;
    auto using under_error_path, under_refl.
Qed.

Lemma arrayErrors_paths path vs (a : ArrayPath) q m :
  (q, m) ∈ arrayErrors path vs a → under path q = true.
Proof.
  unfold arrayErrors, arrayError, validateArray, doValidate.
  rewrite elem_of_app.
  destruct (rejected a) as [[e v]|].
  - intros [Hin|Hin].
    + apply list_elem_of_singleton in Hin. injection Hin as -> _.
      apply under_error_path.
    + destruct e; [|by apply elem_of_nil in Hin].
      destruct (first_failure vs (held a)); [|by apply elem_of_nil in Hin].
      apply list_elem_of_singleton in Hin. injection Hin as -> _.
      apply under_refl.
  - intros [Hin|Hin]; [by apply elem_of_nil in Hin|].
    destruct (first_failure vs (held a)); [|by apply elem_of_nil in Hin].
    apply list_elem_of_singleton in Hin. injection Hin as -> _.
    apply under_refl.
Qed.

Section Validation.
Context {Id : Type}.
Implicit Types (d : Doc.t Id) (p : Project.t Id).

(** The errors of a document are its errors path by path. *)
Lemma elem_of_validate d x : x ∈ validate d ↔ x ∈ errorsByPath d.
Proof.
  unfold validate, castErrors, validatorErrors, errorsByPath, pathErrors,
    arrayErrors.
  rewrite !elem_of_app. tauto.
Qed.

Lemma validate_nil d : validate d = [] ↔ errorsByPath d = [].
Proof.
  unfold validate, castErrors, validatorErrors, errorsByPath, pathErrors,
    arrayErrors.
  rewrite !app_nil. tauto.
Qed.

(** Validation looks at the nine schema paths only. *)
Lemma validate_set_updatedAt t d : validate (Doc.set_updatedAt t d) = validate d.
Proof. reflexivity. Qed.

Lemma validate_set_isNew b d : validate (Doc.set_isNew b d) = validate d.
Proof. reflexivity. Qed.

(** A document that validates has its fields, and loading those fields
    gives the document back. *)
Lemma valid_toObject d :
  validate d = [] →
  ∃ p, Doc.toObject d = Some p ∧ Doc.init p = Doc.set_isNew false d.
Proof.
  rewrite validate_nil. unfold errorsByPath.
  rewrite !app_nil, !pathErrors_nil, !arrayErrors_nil.
  intros ((t & Ht & Vt) & (de & Hde & Vde) & (c & Hc & Vc) & (Hte & _)
          & (Hh & _) & (i & Hi & _) & (g & Hg & _) & (l & Hl & _)
          & (im & Him & _)).
  destruct d as [? ? ? ? ? [te ?] [h ?] ? ? ? ? ? ?]; simpl in *; subst.
  destruct t as [t|]; [|done]. destruct de as [de|]; [|done].
  destruct c as [c|]; [|done].
  eexists; split; [reflexivity|]. reflexivity.
Qed.

Lemma valid_project_technologies p :
  valid_project p → Project.technologies p ≠ [].
Proof.
  unfold valid_project. rewrite validate_nil. unfold errorsByPath.
  rewrite !app_nil, !pathErrors_nil, !arrayErrors_nil.
  intros (_ & _ & _ & (_ & V) & _).
  simpl in V. unfold nonempty_array in V.
  destruct (Project.technologies p); [discriminate | done].
Qed.

Lemma valid_project_category p :
  valid_project p → Project.category p ∈ categories.
Proof.
  unfold valid_project. rewrite validate_nil. unfold errorsByPath.
  rewrite !app_nil, !pathErrors_nil, !arrayErrors_nil.
  intros (_ & _ & (c & [= <-] & V) & _).
  simpl in V.
  destruct (String.eqb (Project.category p) ""); [discriminate|].
  destruct (bool_decide (Project.category p ∈ categories)) eqn:E;
    [by apply bool_decide_eq_true in E | discriminate].
Qed.

End Validation.

(** ** Accepted payloads *)

Section Payloads.
Context `{!NumberToString}.

Lemma title_ok v :
  text_within 200 trim v = true →
  truthy v = true
  ∧ pathErrors "title" title_validators (castTrimmed v) = [].
Proof.
  destruct v as [| | | |s| |]; try done. unfold text_within.
  intros [Hne Hlen]%andb_true_iff. apply negb_true_iff in Hne.
  apply Nat.leb_le in Hlen. split.
  - simpl. destruct (String.eqb_spec s ""); [by subst|done].
  - unfold castTrimmed, pathErrors, doValidate. simpl. rewrite Hne.
    destruct (Nat.ltb_spec 200 (String.length (trim s))); [lia|done].
Qed.

Lemma description_ok v :
  text_within 2000 id v = true →
  truthy v = true
  ∧ pathErrors "description" description_validators (castString v) = [].
Proof.
  destruct v as [| | | |s| |]; try done. unfold text_within.
  intros [Hne Hlen]%andb_true_iff. simpl in Hne, Hlen.
  apply Nat.leb_le in Hlen. split; [done|].
  apply negb_true_iff in Hne.
  unfold pathErrors, doValidate. simpl. rewrite Hne.
  destruct (Nat.ltb_spec 2000 (String.length s)); [lia|done].
Qed.

Lemma category_ok v :
  is_category v = true →
  truthy v = true
  ∧ pathErrors "category" category_validators (castString v) = [].
Proof.
  destruct v as [| | | |s| |]; try done. simpl. intros Hc.
  assert (String.eqb s "" = false) as Hne.
  { apply bool_decide_eq_true in Hc. apply String.eqb_neq. intros ->.
    unfold categories in Hc. rewrite !elem_of_cons, elem_of_nil in Hc.
    destruct Hc as [?|[?|[?|[?|[?|[]]]]]]; discriminate. }
  split; [by rewrite Hne|].
  unfold pathErrors, doValidate. simpl. by rewrite Hne, Hc.
Qed.

Lemma castItems_strings i items :
  forallb is_string items = true →
  ∃ l, castItems i items = inr l ∧ length l = length items.
Proof.
  revert i. induction items as [|x items IH]; intros i; simpl;
    [by exists []|].
  intros [Hx Hi]%andb_true_iff. destruct (IH (S i) Hi) as (l & -> & Hl).
  destruct x; try done. simpl. eexists; split; [done|]. simpl. by rewrite Hl.
Qed.

(** An array of strings, or one string, is cast as it is and replaces
    what the path held. *)
Lemma strings_ok path msg vs v old :
  some_strings v = true →
  (∀ l, first_failure vs l = first_failure [nonempty_array msg] l) →
  truthy v = true
  ∧ arrayErrors path vs (assign (castStringArray (as_array v)) old) = [].
Proof.
  intros Hv Hvs. split; [by destruct v as [| | | |s|items|]|].
  apply arrayErrors_nil. rewrite Hvs.
  destruct v as [| | | |s|items|]; try done; simpl.
  apply andb_true_iff in Hv as [Hlen Hs].
  destruct (castItems_strings 0 _ Hs) as (l & Hc & Hl).
  unfold castStringArray. rewrite Hc. simpl.
  unfold nonempty_array. by rewrite Hl, Hlen.
Qed.

Lemma optional_ok path (vs : list (Validator (option string))) ok v :
  optional_text ok v = true →
  first_failure vs None = None →
  (∀ s, ok s = true → first_failure vs (Some s) = None) →
  pathErrors path vs (castString (or_null v)) = [].
Proof.
  intros Hv Hnone Hsome.
  destruct v as [| | | |s| |]; try done; unfold or_null; simpl.
  - unfold pathErrors, doValidate. simpl. by rewrite Hnone.
  - unfold pathErrors, doValidate. simpl. by rewrite Hnone.
  - simpl in Hv. destruct (String.eqb s "") eqn:E; simpl.
    + unfold pathErrors, doValidate. simpl. by rewrite Hnone.
    + simpl in Hv. unfold pathErrors, doValidate. simpl.
      by rewrite (Hsome s Hv).
Qed.

(** A creatable payload passes the guard of the create handler, and
    the document built from it passes the schema. *)
Lemma creatable_valid {Id} (k : Id) body created updated :
  creatable body = true →
  truthy (Body.title body) && truthy (Body.description body)
  && truthy (Body.category body) && truthy (Body.technologies body) = true
  ∧ validate (new_document k body created updated) = [].
Proof.
  unfold creatable. rewrite !andb_true_iff.
  intros ((((((((Ht & Hd) & Hc) & Hte) & Hh) & Hi) & Hg) & Hl) & Him).
  destruct (title_ok _ Ht) as (-> & Vt).
  destruct (description_ok _ Hd) as (-> & Vd).
  destruct (category_ok _ Hc) as (-> & Vc).
  destruct (strings_ok "technologies" "Technologies array cannot be empty"
              technologies_validators _ (mkArrayPath [] None) Hte
              (λ _, eq_refl))
    as (-> & Vte).
  destruct (strings_ok "highlights" "Add at least one highlight"
              highlights_validators _ (mkArrayPath [] None) Hh (λ _, eq_refl))
    as (Hh' & Vh).
  split; [done|].
  apply validate_nil.
  unfold errorsByPath, new_document. cbn [Doc.title Doc.description
    Doc.category Doc.technologies Doc.highlights Doc.image Doc.github
    Doc.live Doc.impact].
  rewrite Hh', Vt, Vd, Vc, Vte, Vh.
  rewrite (optional_ok "image" image_validators _ _ Hi) by done.
  rewrite (optional_ok "github" github_validators _ _ Hg);
    [|done|by intros s Hs; simpl; rewrite Hs; destruct (String.eqb s "")].
  rewrite (optional_ok "live" live_validators _ _ Hl);
    [|done|by intros s Hs; simpl; rewrite Hs; destruct (String.eqb s "")].
  rewrite (optional_ok "impact" impact_validators _ _ Him); [done|done|].
  intros s Hs. simpl. apply Nat.leb_le in Hs.
  by destruct (Nat.ltb_spec 500 (String.length s)); [lia|].
Qed.

End Payloads.

(** ** Saving *)

Section ServerFacts.
Context {ObjectId : Type} `{Countable ObjectId} `{!NumberToString}.
Variable isValid : string → bool.
Variable castObjectId : string → ObjectId.
Implicit Types (w : World ObjectId) (p q : Project.t ObjectId)
  (d : Doc.t ObjectId) (env : Env ObjectId) (body : Body.t) (id : string).

Lemma save_invalid dt d w :
  validate d ≠ [] →
  save dt d w = (Thrown (ValidationError (validate d)), w).
Proof. unfold save. destruct (validate d); [done|]. reflexivity. Qed.

Lemma save_valid dt d w :
  validate d = [] →
  ∃ p, Doc.init p = Doc.set_isNew false (Doc.set_updatedAt (clock w + Z.of_N dt) d)
     ∧ save dt d w =
       bind (if Doc.isNew d then insertOne p else updateOne p)
            (λ _, ret p) (later dt w).
Proof.
  intros V. unfold save. rewrite V.
  destruct (valid_toObject (Doc.set_updatedAt (clock w + Z.of_N dt) d))
    as (p & Hp & Hinit); [by rewrite validate_set_updatedAt|].
  exists p. split; [done|].
  unfold bind at 1, pre_save, bind at 1, Date_now, ret at 1. simpl.
  rewrite Hp. reflexivity.
Qed.

(** What a stored project is, in terms of the document it was saved from. *)
Lemma init_fields p d :
  Doc.init p = Doc.set_isNew false d →
  Project._id p = Doc._id d
  ∧ Doc.title d = Ok (Some (Project.title p))
  ∧ Doc.description d = Ok (Some (Project.description p))
  ∧ Doc.category d = Ok (Some (Project.category p))
  ∧ Doc.technologies d = mkArrayPath (Project.technologies p) None
  ∧ Doc.highlights d = mkArrayPath (Project.highlights p) None
  ∧ Doc.image d = Ok (Project.image p)
  ∧ Doc.github d = Ok (Project.github p)
  ∧ Doc.live d = Ok (Project.live p)
  ∧ Doc.impact d = Ok (Project.impact p)
  ∧ Project.createdAt p = Doc.createdAt d
  ∧ Project.updatedAt p = Doc.updatedAt d.
Proof.
  destruct p, d. unfold Doc.init, Doc.set_isNew. simpl.
  intros [= -> -> -> -> -> -> -> -> -> -> -> ->]. done.
Qed.

Lemma init_valid p d :
  Doc.init p = Doc.set_isNew false d → validate d = [] → valid_project p.
Proof. unfold valid_project. intros -> V. by rewrite validate_set_isNew. Qed.


Lemma set_isNew_same d b : Doc.isNew d = b → Doc.set_isNew b d = d.
Proof. destruct d. simpl. by intros ->. Qed.

(** The assignments of the update handler leave the identity and the
    time stamps of the document alone. *)
Lemma update_fields_frame body d :
  Doc.isNew (update_fields body d) = Doc.isNew d
  ∧ Doc._id (update_fields body d) = Doc._id d
  ∧ Doc.createdAt (update_fields body d) = Doc.createdAt d
  ∧ Doc.updatedAt (update_fields body d) = Doc.updatedAt d.
Proof.
  unfold update_fields.
  repeat match goal with |- context [if ?b then _ else _] => destruct b end;
    done.
Qed.

(** What each path of the document holds after the assignments of the
    update handler. *)
Lemma update_fields_paths body d :
  let d' := update_fields body d in
  Doc.title d' =
    (if truthy (Body.title body) then castTrimmed (Body.title body)
     else Doc.title d)
  ∧ Doc.description d' =
    (if truthy (Body.description body) then castString (Body.description body)
     else Doc.description d)
  ∧ Doc.category d' =
    (if truthy (Body.category body) then castString (Body.category body)
     else Doc.category d)
  ∧ Doc.technologies d' =
    (if truthy (Body.technologies body)
     then assign (castStringArray (as_array (Body.technologies body)))
            (Doc.technologies d)
     else Doc.technologies d)
  ∧ Doc.highlights d' =
    (if truthy (Body.highlights body)
     then assign (castStringArray (as_array (Body.highlights body)))
            (Doc.highlights d)
     else Doc.highlights d)
  ∧ Doc.image d' =
    (if supplied (Body.image body) then castString (Body.image body)
     else Doc.image d)
  ∧ Doc.github d' =
    (if supplied (Body.github body) then castString (Body.github body)
     else Doc.github d)
  ∧ Doc.live d' =
    (if supplied (Body.live body) then castString (Body.live body)
     else Doc.live d)
  ∧ Doc.impact d' =
    (if supplied (Body.impact body) then castString (Body.impact body)
     else Doc.impact d).
Proof.
  unfold update_fields.
  destruct (truthy (Body.title body)), (truthy (Body.description body)),
    (truthy (Body.category body)), (truthy (Body.technologies body)),
    (truthy (Body.highlights body)), (supplied (Body.image body)),
    (supplied (Body.github body)), (supplied (Body.live body)),
    (supplied (Body.impact body)); repeat split.
Qed.

(** The errors of a stored project, path by path. *)
Lemma valid_project_paths p :
  valid_project p →
  pathErrors "title" title_validators (Ok (Some (Project.title p))) = []
  ∧ pathErrors "description" description_validators
      (Ok (Some (Project.description p))) = []
  ∧ pathErrors "category" category_validators
      (Ok (Some (Project.category p))) = []
  ∧ arrayErrors "technologies" technologies_validators
      (mkArrayPath (Project.technologies p) None) = []
  ∧ arrayErrors "highlights" highlights_validators
      (mkArrayPath (Project.highlights p) None) = []
  ∧ pathErrors "image" image_validators (Ok (Project.image p)) = []
  ∧ pathErrors "github" github_validators (Ok (Project.github p)) = []
  ∧ pathErrors "live" live_validators (Ok (Project.live p)) = []
  ∧ pathErrors "impact" impact_validators (Ok (Project.impact p)) = [].
Proof.
  unfold valid_project. rewrite validate_nil. unfold errorsByPath.
  by rewrite !app_nil.
Qed.

(** An error under a path comes from the assignment or from the
    validators of that path. *)
Lemma validate_at d path m :
  (path, m) ∈ validate d →
  (under "title" path = true
   ∧ (path, m) ∈ pathErrors "title" title_validators (Doc.title d))
  ∨ (under "description" path = true
     ∧ (path, m) ∈ pathErrors "description" description_validators
                      (Doc.description d))
  ∨ (under "category" path = true
     ∧ (path, m) ∈ pathErrors "category" category_validators (Doc.category d))
  ∨ (under "technologies" path = true
     ∧ (path, m) ∈ arrayErrors "technologies" technologies_validators
                      (Doc.technologies d))
  ∨ (under "highlights" path = true
     ∧ (path, m) ∈ arrayErrors "highlights" highlights_validators
                      (Doc.highlights d))
  ∨ (under "image" path = true
     ∧ (path, m) ∈ pathErrors "image" image_validators (Doc.image d))
  ∨ (under "github" path = true
     ∧ (path, m) ∈ pathErrors "github" github_validators (Doc.github d))
  ∨ (under "live" path = true
     ∧ (path, m) ∈ pathErrors "live" live_validators (Doc.live d))
  ∨ (under "impact" path = true
     ∧ (path, m) ∈ pathErrors "impact" impact_validators (Doc.impact d)).
Proof.
  clear isValid castObjectId.
  rewrite elem_of_validate. unfold errorsByPath. rewrite !elem_of_app.
  intros Hin.
  repeat (destruct Hin as [Hin|Hin];
          [first [pose proof (pathErrors_paths _ _ _ _ _ Hin)
                 |pose proof (arrayErrors_paths _ _ _ _ _ Hin)]; tauto|]).
  pose proof (pathErrors_paths _ _ _ _ _ Hin). tauto.
Qed.

Lemma not_supplied_falsy v : supplied v = false → truthy v = false.
Proof. by destruct v. Qed.

Lemma blank_ok path (vs : list (Validator (option string))) v old :
  blank v = true →
  pathErrors path vs (Ok old) = [] →
  first_failure vs None = None →
  first_failure vs (Some "") = None →
  pathErrors path vs (if supplied v then castString v else Ok old) = [].
Proof.
  intros Hb Hold Hnone Hempty.
  destruct v as [| | | |s| |]; try done; simpl.
  - unfold pathErrors, doValidate. simpl. by rewrite Hnone.
  - simpl in Hb. apply String.eqb_eq in Hb as ->.
    unfold pathErrors, doValidate. simpl. by rewrite Hempty.
Qed.

(** An update that only clears nullable fields of a valid project passes
    the schema. *)
Lemma clears_only_valid body p :
  clears_only body = true → valid_project p →
  validate (update_fields body (Doc.init p)) = [].
Proof.
  unfold clears_only. rewrite !andb_true_iff, !negb_true_iff.
  intros ((((((((Ht & Hd) & Hc) & Hte) & Hh) & Hi) & Hg) & Hl) & Him) V.
  apply valid_project_paths in V
    as (Vt & Vd & Vc & Vte & Vh & Vi & Vg & Vl & Vim).
  pose proof (update_fields_paths body (Doc.init p))
    as (Et & Ed & Ec & Ete & Eh & Ei & Eg & El & Eim).
  simpl in Et, Ed, Ec, Ete, Eh, Ei, Eg, El, Eim.
  apply validate_nil.
  unfold errorsByPath. rewrite Et, Ed, Ec, Ete, Eh, Ei, Eg, El, Eim.
  rewrite !not_supplied_falsy by done. cbv beta iota.
  rewrite Vt, Vd, Vc, Vte, Vh.
  by rewrite !blank_ok.
Qed.

(** The message of the GitHub validator is the message of no other
    validator of the schema. *)
Lemma length_app s t :
  String.length (s +:+ t) = (String.length s + String.length t)%nat.
Proof.
  induction s as [|a s IH]; [reflexivity|].
  change (S (String.length (s +:+ t)) = S (String.length s + String.length t)).
  by rewrite IH.
Qed.

(** The message of the [enum] validator ends as its template does,
    whatever the value put in the place of [{VALUE}]. *)
Lemma category_message s :
  formatMessage "{VALUE} is not a valid category" s
  = GetSubstitution "{VALUE}" "" " is not a valid category" s
    +:+ " is not a valid category".
Proof. reflexivity. Qed.

Lemma not_a_category_message s :
  formatMessage "{VALUE} is not a valid category" s
  ≠ "Please provide a valid GitHub URL".
Proof.
  rewrite category_message.
  generalize (GetSubstitution "{VALUE}" "" " is not a valid category" s).
  clear s. intros s Heq.
  assert (String.length s = 9%nat) as Hlen.
  { apply (f_equal String.length) in Heq.
    rewrite length_app in Heq. simpl in Heq. lia. }
  do 9 (destruct s as [|? s]; [discriminate Hlen|]).
  destruct s; [|discriminate Hlen]. discriminate Heq.
Qed.

Ltac other_message :=
  unfold title_validators, description_validators, category_validators,
    technologies_validators, highlights_validators, image_validators,
    live_validators, impact_validators, first_failure, required, maxlength,
    enum, required_array, nonempty_array, matches;
  repeat case_match; simplify_eq;
  rewrite ?list_elem_of_singleton, ?elem_of_nil; try done;
  intros [= ? Hm]; simplify_eq.

Lemma github_message_path d path :
  (path, ValidatorError "Please provide a valid GitHub URL") ∈ validate d →
  (path, ValidatorError "Please provide a valid GitHub URL")
    ∈ pathErrors "github" github_validators (Doc.github d).
Proof.
  intros Hin. apply validate_at in Hin.
  destruct Hin as [[_ Hin]|[[_ Hin]|[[_ Hin]|[[_ Hin]|[[_ Hin]|[[_ Hin]
                  |[[_ Hin]|[[_ Hin]|[_ Hin]]]]]]]]]; [..|exact Hin| |];
    exfalso; revert Hin;
    unfold pathErrors, arrayErrors, castError, arrayError, validateArray,
      doValidate; rewrite elem_of_app; intros [Hin|Hin]; revert Hin.
  - destruct (Doc.title d) as [[s|]|]; other_message.
  - destruct (Doc.title d) as [[s|]|]; other_message.
  - destruct (Doc.description d) as [[s|]|]; other_message.
  - destruct (Doc.description d) as [[s|]|]; other_message.
  - destruct (Doc.category d) as [[s|]|]; other_message.
  - destruct (Doc.category d) as [[s|]|]; other_message.
    by eapply not_a_category_message.
  - destruct (Doc.technologies d) as [l [[[i|] v]|]]; other_message.
  - destruct (Doc.technologies d) as [l [[[i|] v]|]]; other_message.
  - destruct (Doc.highlights d) as [l [[[i|] v]|]]; other_message.
  - destruct (Doc.highlights d) as [l [[[i|] v]|]]; other_message.
  - destruct (Doc.image d) as [[s|]|]; other_message.
  - destruct (Doc.image d) as [[s|]|]; other_message.
  - destruct (Doc.live d) as [[s|]|]; other_message.
  - destruct (Doc.live d) as [[s|]|]; other_message.
  - destruct (Doc.impact d) as [[s|]|]; other_message.
  - destruct (Doc.impact d) as [[s|]|]; other_message.
Qed.

(** ** The handlers, case by case *)

Lemma getProject_invalid id w :
  isValid id = false → getProject isValid castObjectId id w = (invalid_id, w).
Proof. intros E. unfold getProject, try_catch. by rewrite E. Qed.

Lemma getProject_valid id w :
  isValid id = true →
  getProject isValid castObjectId id w =
  (match collection w !! castObjectId id with
   | Some p => mkResponse 200 true None None (Some (One p)) None None
   | None => not_found
   end, logged (FindById (castObjectId id)) w).
Proof.
  intros E. unfold getProject, try_catch, bind, findById. rewrite E. simpl.
  by destruct (collection w !! castObjectId id).
Qed.

Lemma deleteProject_invalid id w :
  isValid id = false → deleteProject isValid castObjectId id w = (invalid_id, w).
Proof. intros E. unfold deleteProject, try_catch. by rewrite E. Qed.

Lemma deleteProject_valid id w :
  isValid id = true →
  deleteProject isValid castObjectId id w =
  (match collection w !! castObjectId id with
   | Some p => mkResponse 200 true (Some "Project deleted successfully")
                          None (Some (One p)) None None
   | None => not_found
   end,
   store (delete (castObjectId id) (collection w))
         (logged (FindByIdAndDelete (castObjectId id)) w)).
Proof.
  intros E. unfold deleteProject, try_catch, bind, findByIdAndDelete.
  rewrite E. simpl. by destruct (collection w !! castObjectId id).
Qed.

Lemma updateProject_invalid env id body w :
  isValid id = false →
  updateProject isValid castObjectId env id body w = (invalid_id, w).
Proof. intros E. unfold updateProject, try_catch. by rewrite E. Qed.

Lemma updateProject_missing env id body w :
  isValid id = true → collection w !! castObjectId id = None →
  updateProject isValid castObjectId env id body w =
  (not_found, logged (FindById (castObjectId id)) w).
Proof.
  intros E N. unfold updateProject, try_catch, bind, findById.
  rewrite E. simpl. by rewrite N.
Qed.

(** An update of a stored project that the schema rejects: 400, and the
    only store call is the query. *)
Lemma updateProject_rejected env id body w p :
  isValid id = true → collection w !! castObjectId id = Some p →
  validate (update_fields body (Doc.init p)) ≠ [] →
  updateProject isValid castObjectId env id body w =
  (mkResponse 400 false (Some "Validation error") None None
     (Some (validate (update_fields body (Doc.init p))).*2) None,
   logged (FindById (castObjectId id)) w).
Proof.
  intros E L V. unfold updateProject, try_catch, bind at 1, findById.
  rewrite E. simpl. rewrite L. unfold bind.
  by rewrite (save_invalid _ _ _ V).
Qed.

(** An update that the schema accepts: 200, the saved project is the
    updated document and takes the place of the stored one. *)
Lemma updateProject_accepted env id body w p :
  isValid id = true → collection w !! castObjectId id = Some p →
  validate (update_fields body (Doc.init p)) = [] →
  ∃ q, Doc.init q =
         Doc.set_updatedAt (clock w + Z.of_N (elapsed env 0%nat))
           (update_fields body (Doc.init p))
     ∧ updateProject isValid castObjectId env id body w =
       (mkResponse 200 true (Some "Project updated successfully") None
          (Some (One q)) None None,
        mkWorld (<[Project._id p := q]> (collection w))
                (clock w + Z.of_N (elapsed env 0%nat))
                (oplog w ++ [FindById (castObjectId id);
                             UpdateOne (Project._id p)])).
Proof.
  intros E L V.
  destruct (save_valid (elapsed env 0%nat) _
              (logged (FindById (castObjectId id)) w) V) as (q & Hq & Hs).
  pose proof (update_fields_frame body (Doc.init p)) as (N & I' & _).
  simpl in N, I'.
  assert (I : Project._id q = Project._id p).
  { apply init_fields in Hq as (-> & _). simpl. by rewrite I'. }
  exists q. split.
  - rewrite Hq. apply set_isNew_same. simpl. by rewrite N.
  - unfold updateProject, try_catch, bind at 1, findById.
    rewrite E. simpl. rewrite L. unfold bind at 1. rewrite Hs, N.
    unfold bind, updateOne, ret, later, store, logged. simpl.
    rewrite I, <- app_assoc. reflexivity.
Qed.

Lemma createProject_guard env body w :
  truthy (Body.title body) && truthy (Body.description body)
  && truthy (Body.category body) && truthy (Body.technologies body) = false →
  createProject env body w =
  (failure 400
     "Please provide all required fields: title, description, category, technologies",
   w).
Proof.
  intros G. unfold createProject, try_catch.
  destruct (truthy (Body.title body)), (truthy (Body.description body)),
    (truthy (Body.category body)), (truthy (Body.technologies body));
    done.
Qed.

(** The clock when a new document has been built, and the document. *)
Lemma new_Project_eq env body w :
  new_Project env body w =
  (Returned
     (new_document (generated env) body
        (clock w + Z.of_N (elapsed env 0%nat))
        (clock w + Z.of_N (elapsed env 0%nat) + Z.of_N (elapsed env 1%nat))),
   later (elapsed env 1%nat) (later (elapsed env 0%nat) w)).
Proof. reflexivity. Qed.

Lemma createProject_checked env body w :
  truthy (Body.title body) && truthy (Body.description body)
  && truthy (Body.category body) && truthy (Body.technologies body) = true →
  createProject env body w =
  match save (elapsed env 2%nat)
          (new_document (generated env) body
             (clock w + Z.of_N (elapsed env 0%nat))
             (clock w + Z.of_N (elapsed env 0%nat) + Z.of_N (elapsed env 1%nat)))
          (later (elapsed env 1%nat) (later (elapsed env 0%nat) w)) with
  | (Returned saved, w') =>
      (mkResponse 201 true (Some "Project created successfully") None
         (Some (One saved)) None None, w')
  | (Thrown e, w') => (on_save_error "Error creating project" e, w')
  end.
Proof.
  intros G. unfold createProject, try_catch.
  destruct (truthy (Body.title body)), (truthy (Body.description body)),
    (truthy (Body.category body)), (truthy (Body.technologies body));
    try done.
  simpl. unfold bind at 1. rewrite new_Project_eq. unfold bind at 1.
  destruct (save _ _ _) as [[saved|e] w']; reflexivity.
Qed.

(** A create that the schema rejects: 400 with the messages of the
    errors, and no store call. *)
Lemma createProject_rejected env body w created updated :
  truthy (Body.title body) && truthy (Body.description body)
  && truthy (Body.category body) && truthy (Body.technologies body) = true →
  validate (new_document (generated env) body created updated) ≠ [] →
  createProject env body w =
  (mkResponse 400 false (Some "Validation error") None None
     (Some (validate (new_document (generated env) body
                        created updated)).*2) None,
   later (elapsed env 1%nat) (later (elapsed env 0%nat) w)).
Proof.
  intros G V. rewrite createProject_checked by done.
  rewrite save_invalid by done. reflexivity.
Qed.

(** A create that the schema accepts, under an [_id] that is free: 201,
    and the saved project is stored. *)
Lemma createProject_accepted env body w :
  truthy (Body.title body) && truthy (Body.description body)
  && truthy (Body.category body) && truthy (Body.technologies body) = true →
  validate (new_document (generated env) body 0 0) = [] →
  collection w !! generated env = None →
  let created := clock w + Z.of_N (elapsed env 0%nat) in
  let saved := created + Z.of_N (elapsed env 1%nat) + Z.of_N (elapsed env 2%nat) in
  ∃ p, Doc.init p =
         Doc.set_isNew false
           (new_document (generated env) body created saved)
     ∧ createProject env body w =
       (mkResponse 201 true (Some "Project created successfully") None
          (Some (One p)) None None,
        mkWorld (<[generated env := p]> (collection w)) saved
                (oplog w ++ [InsertOne (generated env)])).
Proof.
  intros G V F created saved. rewrite createProject_checked by done.
  edestruct save_valid as (p & Hp & ->); [exact V|].
  exists p. split; [exact Hp|].
  apply init_fields in Hp as (I & _). simpl in I.
  unfold bind, insertOne, ret, later, store, logged. simpl.
  rewrite I, F. reflexivity.
Qed.

(** The same create under an [_id] that is taken: the insert fails. *)
Lemma createProject_duplicate env body w q :
  truthy (Body.title body) && truthy (Body.description body)
  && truthy (Body.category body) && truthy (Body.technologies body) = true →
  validate (new_document (generated env) body 0 0) = [] →
  collection w !! generated env = Some q →
  createProject env body w =
  (mkResponse 500 false (Some "Error creating project") None None None
     (Some (DuplicateKey (generated env))),
   mkWorld (collection w)
     (clock w + Z.of_N (elapsed env 0%nat) + Z.of_N (elapsed env 1%nat)
      + Z.of_N (elapsed env 2%nat))
     (oplog w ++ [InsertOne (generated env)])).
Proof.
  intros G V F. rewrite createProject_checked by done.
  edestruct save_valid as (p & Hp & ->); [exact V|].
  apply init_fields in Hp as (I & _). simpl in I.
  unfold bind, insertOne, ret, later, store, logged. simpl.
  rewrite I, F. reflexivity.
Qed.

(** ** Consistency of the reachable worlds *)

Lemma consistent_later w c t l :
  consistent w → c = collection w → clock w ≤ t →
  consistent (mkWorld c t l).
Proof.
  intros C -> T id p L. simpl in L.
  destruct (C id p L) as (? & ? & ? & ?). simpl. repeat split; [done..|lia].
Qed.

Lemma consistent_insert w k p t l :
  consistent w → clock w ≤ t →
  Project._id p = k → valid_project p →
  Project.createdAt p ≤ Project.updatedAt p → Project.updatedAt p ≤ t →
  consistent (mkWorld (<[k := p]> (collection w)) t l).
Proof.
  intros C T I V O U id q. simpl. rewrite lookup_insert.
  destruct (decide (k = id)) as [<-|Hne].
  - intros [= <-]. done.
  - intros L. destruct (C id q L) as (? & ? & ? & ?).
    repeat split; [done..|lia].
Qed.

Lemma consistent_delete w k t l :
  consistent w → clock w ≤ t →
  consistent (mkWorld (delete k (collection w)) t l).
Proof.
  intros C T id q. simpl. rewrite lookup_delete.
  destruct (decide (k = id)); [done|].
  intros L. destruct (C id q L) as (? & ? & ? & ?).
  repeat split; [done..|lia].
Qed.

Lemma createProject_consistent env body w :
  consistent w → consistent (createProject env body w).2.
Proof.
  intros C.
  destruct (truthy (Body.title body) && truthy (Body.description body)
            && truthy (Body.category body) && truthy (Body.technologies body))
    eqn:G.
  2: { by rewrite createProject_guard. }
  destruct (validate (new_document (generated env) body 0 0))
    eqn:V.
  2: { rewrite (createProject_rejected _ _ _ 0 0) by (done || by rewrite V).
       simpl. eapply consistent_later; [done..|]. simpl. lia. }
  destruct (collection w !! generated env) as [q|] eqn:F.
  { rewrite (createProject_duplicate _ _ _ q) by done. simpl.
    eapply consistent_later; [done..|]. lia. }
  destruct (createProject_accepted env body w G V F) as (p & Hp & ->).
  simpl. pose proof (init_valid _ _ Hp V) as Vp.
  apply init_fields in Hp as (I & _ & _ & _ & _ & _ & _ & _ & _ & _ & Cr & Up).
  simpl in I, Cr, Up.
  apply consistent_insert; [done|lia|done..|lia|lia].
Qed.

Lemma updateProject_consistent env id body w :
  consistent w → consistent (updateProject isValid castObjectId env id body w).2.
Proof.
  intros C. destruct (isValid id) eqn:E.
  2: { by rewrite updateProject_invalid. }
  destruct (collection w !! castObjectId id) as [p|] eqn:L.
  2: { rewrite updateProject_missing by done. simpl.
       destruct w. eapply consistent_later; [done..|]. simpl. lia. }
  destruct (validate (update_fields body (Doc.init p))) eqn:V.
  2: { rewrite (updateProject_rejected _ _ _ _ p) by (done || by rewrite V).
       simpl. destruct w. eapply consistent_later; [done..|]. simpl. lia. }
  destruct (updateProject_accepted env id body w p E L V) as (q & Hq & ->).
  simpl. destruct (C _ _ L) as (Ip & Vp & Op & Up).
  pose proof (update_fields_frame body (Doc.init p)) as (N & I' & Cr' & _).
  assert (Hq' : Doc.init q =
                Doc.set_isNew false
                  (Doc.set_updatedAt (clock w + Z.of_N (elapsed env 0%nat))
                     (update_fields body (Doc.init p)))).
  { rewrite Hq. symmetry. apply set_isNew_same. simpl. by rewrite N. }
  pose proof (init_valid _ _ Hq' V) as Vq.
  apply init_fields in Hq' as (I & _ & _ & _ & _ & _ & _ & _ & _ & _ & Cr & Uq).
  simpl in I, Cr, Uq. rewrite I' in I. rewrite Cr' in Cr. simpl in I, Cr.
  apply consistent_insert; [done|lia|congruence|done|lia|lia].
Qed.

Lemma handle_consistent env req w :
  consistent w → consistent (handle isValid castObjectId env req w).2.
Proof.
  intros C. destruct req as [c s|id|body|id body|id|c]; simpl.
  - destruct w. eapply consistent_later; [done..|]. simpl. lia.
  - destruct (isValid id) eqn:E.
    + rewrite getProject_valid by done. simpl.
      destruct w. eapply consistent_later; [done..|]. simpl. lia.
    + by rewrite getProject_invalid.
  - by apply createProject_consistent.
  - by apply updateProject_consistent.
  - destruct (isValid id) eqn:E.
    + rewrite deleteProject_valid by done. unfold store, logged. simpl.
      by apply consistent_delete.
    + by rewrite deleteProject_invalid.
  - destruct w. eapply consistent_later; [done..|]. simpl. lia.
Qed.

Lemma reachable_consistent w :
  reachable isValid castObjectId w → consistent w.
Proof.
  induction 1 as [t|env req w _ IH].
  - intros id p L. simpl in L. by rewrite lookup_empty in L.
  - by apply handle_consistent.
Qed.

(** ** The listing *)

Lemma title_le_trans : Transitive (title_le (ObjectId := ObjectId)).
Proof. intros p q r. unfold title_le. apply transitivity. Qed.

Lemma title_le_total : Total (title_le (ObjectId := ObjectId)).
Proof. intros p q. unfold title_le. apply total, _. Qed.

Lemma newer_first_trans : Transitive (newer_first (ObjectId := ObjectId)).
Proof. intros p q r. unfold newer_first. lia. Qed.

Lemma newer_first_total : Total (newer_first (ObjectId := ObjectId)).
Proof. intros p q. unfold newer_first. lia. Qed.

Lemma sorted_by_elem s (ps : list (Project.t ObjectId)) p :
  p ∈ sorted_by s ps ↔ p ∈ ps.
Proof. destruct s; simpl; by rewrite merge_sort_Permutation. Qed.

Lemma sorted_by_title (ps : list (Project.t ObjectId)) :
  StronglySorted title_le (sorted_by title_asc ps).
Proof.
  pose proof title_le_trans. pose proof title_le_total.
  apply StronglySorted_merge_sort; apply _.
Qed.

Lemma sorted_by_createdAt (ps : list (Project.t ObjectId)) :
  StronglySorted newer_first (sorted_by createdAt_desc ps).
Proof.
  pose proof newer_first_trans. pose proof newer_first_total.
  apply StronglySorted_merge_sort; apply _.
Qed.

(** The order that the comparison of two strings decides is the order
    of their character codes. *)
Lemma le_lex (s t : string) : String.le s t → lex_le s t.
Proof.
  clear isValid castObjectId.
  unfold String.le, String.leb. revert t.
  induction s as [|a s IH]; intros [|b t]; simpl.
  - intros _. left. by exists "".
  - intros _. left. by exists (String b t).
  - done.
  - unfold Ascii.compare.
    destruct (N.compare_spec (N_of_ascii a) (N_of_ascii b)) as [E|L|G].
    + apply (f_equal ascii_of_N) in E. rewrite !ascii_N_embedding in E.
      subst b. intros Hle. destruct (IH t Hle) as [(r & ->)|Hlt].
      * left. by exists r.
      * destruct Hlt as (pre & x & y & r & r' & -> & -> & Hxy).
        right. by exists (String a pre), x, y, r, r'.
    + intros _. right. exists "", a, b, s, t.
      repeat split. unfold nat_of_ascii. lia.
    + done.
Qed.

(** In a sorted list, what comes earlier is in relation with what comes
    later. *)
Lemma StronglySorted_earlier {A} (R : A → A → Prop) (l : list A) i j x y :
  StronglySorted R l → (i < j)%nat →
  l !! i = Some x → l !! j = Some y → R x y.
Proof.
  clear isValid castObjectId.
  intros Hs. revert i j. induction Hs as [|a l Hs IH Hall]; intros i j Hij.
  - by rewrite lookup_nil.
  - destruct j as [|j]; [lia|]. destruct i as [|i]; simpl.
    + intros [= <-] Hy. rewrite Forall_forall in Hall. apply Hall.
      by eapply list_elem_of_lookup_2.
    + apply IH. lia.
Qed.

(** ** The claims *)

(** C1, as amended. A create request whose body has no [title] is
    answered by the guard of the handler: status 400 and the single
    message that lists the required fields, [title] among them. The
    response has no list of errors, and the request leaves the world as
    it was: the store is not reached and the clock is not read. *)
Theorem create_without_title env body w :
  Body.title body = JUndefined →
  let r := (createProject env body w).1 in
  status r = 400
  ∧ message r =
    Some "Please provide all required fields: title, description, category, technologies"
  ∧ (∃ m, message r = Some m ∧ contains "title" m = true)
  ∧ errors r = None
  ∧ (createProject env body w).2 = w.
Proof.
  intros T. rewrite createProject_guard by (by rewrite T).
  simpl. repeat split. by eexists.
Qed.

(** C5. A get, an update or a delete whose id is not well formed is
    answered 400 and leaves the world as it was: no store call is in the
    log. When the id is well formed and no project is stored under it,
    the answer is 404, the store is as before, and the log has grown by
    the query that found nothing. Conversely a 404 of these handlers is
    always of that kind. *)
Theorem id_checked_before_store env id body w :
  let oid := castObjectId id in
  let get := getProject isValid castObjectId id w in
  let put := updateProject isValid castObjectId env id body w in
  let del := deleteProject isValid castObjectId id w in
  (isValid id = false →
     (status get.1 = 400 ∧ get.2 = w)
     ∧ (status put.1 = 400 ∧ put.2 = w)
     ∧ (status del.1 = 400 ∧ del.2 = w))
  ∧ (isValid id = true → collection w !! oid = None →
     (status get.1 = 404 ∧ get.2 = logged (FindById oid) w)
     ∧ (status put.1 = 404 ∧ put.2 = logged (FindById oid) w)
     ∧ (status del.1 = 404 ∧ del.2 = logged (FindByIdAndDelete oid) w))
  ∧ (status get.1 = 404 ∨ status put.1 = 404 ∨ status del.1 = 404 →
     isValid id = true ∧ collection w !! oid = None).
Proof.
  intros oid get put del. subst get put del. split; [|split].
  - intros E. rewrite getProject_invalid, updateProject_invalid,
      deleteProject_invalid by done. done.
  - intros E L. rewrite getProject_valid, updateProject_missing,
      deleteProject_valid by done. fold oid. rewrite L.
    repeat split. unfold store, logged. simpl. by rewrite delete_id.
  - destruct (isValid id) eqn:E.
    2: { rewrite getProject_invalid, updateProject_invalid,
           deleteProject_invalid by done. simpl. intros [?|[?|?]]; done. }
    destruct (collection w !! oid) as [p|] eqn:L; [|done].
    rewrite getProject_valid, deleteProject_valid by done.
    fold oid. rewrite L. simpl.
    destruct (validate (update_fields body (Doc.init p))) eqn:V.
    + destruct (updateProject_accepted env id body w p E L V) as (q & _ & ->).
      simpl. intros [?|[?|?]]; done.
    + rewrite (updateProject_rejected _ _ _ _ p) by (done || by rewrite V).
      simpl. intros [?|[?|?]]; done.
Qed.

(** C6. In every world that the server reaches from an empty collection,
    whatever the requests, every stored project has at least one
    technology, a category among the five of the schema, and an
    [updatedAt] that is not before its [createdAt]. *)
Theorem stored_project_invariants w (oid : ObjectId) p :
  reachable isValid castObjectId w → collection w !! oid = Some p →
  Project.technologies p ≠ []
  ∧ Project.category p ∈ categories
  ∧ Project.createdAt p ≤ Project.updatedAt p.
Proof.
  intros R L. apply reachable_consistent in R.
  destruct (R oid p L) as (_ & V & O & _).
  auto using valid_project_technologies, valid_project_category.
Qed.

(** C8. The listing answers 200 with the stored projects of the asked
    category, if one is asked. With [sort=title] they come by ascending
    title, in the order of the character codes: of two listed projects
    the earlier one has the title that is a prefix of the other, or that
    has the smaller code where the two first differ. With any other
    [sort], or none, they come by descending [createdAt]: of two listed
    projects the earlier one was not created before the other. *)
Theorem list_order category sort w :
  let r := (getProjects category sort w).1 in
  status r = 200
  ∧ ∃ ps, data r = Some (Lean ps)
     ∧ (∀ p, p ∈ ps ↔
          (∃ oid : ObjectId, collection w !! oid = Some p)
          ∧ (∀ c, category = Some c → c ≠ "" → Project.category p = c))
     ∧ (sort = Some "title" →
        ∀ i j p q, (i < j)%nat → ps !! i = Some p → ps !! j = Some q →
          lex_le (Project.title p) (Project.title q))
     ∧ (sort ≠ Some "title" →
        ∀ i j p q, (i < j)%nat → ps !! i = Some p → ps !! j = Some q →
          Project.createdAt q ≤ Project.createdAt p).
Proof.
  simpl. split; [done|]. eexists. split; [reflexivity|]. split; [|split].
  - intros p. rewrite sorted_by_elem, list_elem_of_filter, list_elem_of_fmap.
    split.
    + intros (Hc & [k q] & -> & Hin%elem_of_map_to_list). simpl in *.
      split; [eauto|]. intros c -> Hne. simpl in Hc.
      destruct (String.eqb_spec c ""); [done|]. exact Hc.
    + intros ((k & L) & Hc). split.
      * destruct category as [c|]; [|done]. simpl.
        destruct (String.eqb_spec c ""); [done|]. simpl. by apply Hc.
      * exists (k, p). split; [done|]. by apply elem_of_map_to_list.
  - intros -> i j p q Hij Hp Hq. rewrite bool_decide_eq_true_2 in Hp, Hq by done.
    apply le_lex.
    exact (StronglySorted_earlier _ _ _ _ _ _ (sorted_by_title _) Hij Hp Hq).
  - intros Hs i j p q Hij Hp Hq.
    rewrite bool_decide_eq_false_2 in Hp, Hq by done.
    assert (Hsorted : ∀ b : bool,
      StronglySorted newer_first
        (sorted_by (if b then createdAt_desc else createdAt_desc)
           (filter (in_category
                      match category with
                      | Some c => if truthy (JStr c) then Some c else None
                      | None => None
                      end) (map_to_list (collection w)).*2)))
      by (intros []; apply sorted_by_createdAt).
    exact (StronglySorted_earlier _ _ _ _ _ _ (Hsorted _) Hij Hp Hq).
Qed.

(** C9. Deleting a stored project answers 200 with the removed project,
    and a get of the same id right after answers 404. Deleting under a
    well-formed id that holds nothing answers 404, and under an id that
    is not well formed 400. *)
Theorem delete_then_get id w :
  let del := deleteProject isValid castObjectId id w in
  (∀ p, isValid id = true → collection w !! castObjectId id = Some p →
     status del.1 = 200 ∧ data del.1 = Some (One p)
     ∧ status (getProject isValid castObjectId id del.2).1 = 404)
  ∧ (isValid id = true → collection w !! castObjectId id = None →
     status del.1 = 404)
  ∧ (isValid id = false → status del.1 = 400).
Proof.
  intros del. subst del. split; [|split].
  - intros p E L. rewrite deleteProject_valid by done. rewrite L. simpl.
    rewrite getProject_valid by done. simpl. by rewrite lookup_delete_eq.
  - intros E L. rewrite deleteProject_valid by done. by rewrite L.
  - intros E. by rewrite deleteProject_invalid.
Qed.

(** C2, as amended. A create request whose payload has a title that is
    not blank and within 200 characters once trimmed, a description
    within 2000, a category of the schema, some technologies, some
    highlights, and optional fields that are absent, empty or valid, is
    answered 201 when the generated [_id] is free. The returned project
    is the stored one; it carries that [_id], the time of its
    construction as [createdAt] and the time of its save as [updatedAt]:
    [createdAt] is not after [updatedAt], and the two are equal when no
    time passes between the construction and the save. *)
Theorem create_valid_payload env body w :
  creatable body = true →
  collection w !! generated env = None →
  ∃ p w',
    createProject env body w =
    (mkResponse 201 true (Some "Project created successfully") None
       (Some (One p)) None None, w')
    ∧ collection w' !! generated env = Some p
    ∧ Project._id p = generated env
    ∧ Project.createdAt p = clock w + Z.of_N (elapsed env 0%nat)
    ∧ Project.updatedAt p =
      Project.createdAt p + Z.of_N (elapsed env 1%nat)
      + Z.of_N (elapsed env 2%nat)
    ∧ Project.createdAt p ≤ Project.updatedAt p.
Proof.
  intros Hb F.
  destruct (creatable_valid (generated env) body 0 0 Hb) as (G & V).
  destruct (createProject_accepted env body w G V F) as (p & Hp & ->).
  eexists p, _. split; [reflexivity|]. simpl.
  apply init_fields in Hp as (I & _ & _ & _ & _ & _ & _ & _ & _ & _ & Cr & Up).
  simpl in I, Cr, Up. rewrite lookup_insert_eq.
  repeat split; [done|done|lia|lia].
Qed.

(** The default of the create handler for absent highlights does not
    pass the schema: with the required fields present and no highlights,
    the answer is 400 and the list of errors has the message of the
    highlights validator. *)
Lemma create_without_highlights env body w :
  truthy (Body.title body) && truthy (Body.description body)
  && truthy (Body.category body) && truthy (Body.technologies body) = true →
  truthy (Body.highlights body) = false →
  ∃ msgs, (createProject env body w).1 =
          mkResponse 400 false (Some "Validation error") None None
                     (Some msgs) None
        ∧ ValidatorError "Add at least one highlight" ∈ msgs.
Proof.
  intros G Hh.
  assert (In : ("highlights", ValidatorError "Add at least one highlight")
               ∈ validate (new_document (generated env) body 0 0)).
  { apply elem_of_validate. unfold errorsByPath, new_document. simpl.
    rewrite Hh. rewrite !elem_of_app. do 4 right. left.
    by apply list_elem_of_singleton. }
  rewrite (createProject_rejected _ _ _ 0 0); [|done|].
  2: { intros E. rewrite E in In. by apply elem_of_nil in In. }
  eexists. split; [reflexivity|].
  apply list_elem_of_fmap. by eexists (_, _).
Qed.

(** C3. In a world the server can be in, an update whose body supplies
    [impact] alone leaves the stored project as it was in every field
    but [impact] and [updatedAt], whether the new impact is accepted or
    not, and its [updatedAt] is not before the previous one. *)
Theorem update_impact_only env id v w p :
  reachable isValid castObjectId w →
  isValid id = true →
  collection w !! castObjectId id = Some p →
  let w' := (updateProject isValid castObjectId env id (impact_only v) w).2 in
  ∃ p', collection w' !! castObjectId id = Some p'
      ∧ Project._id p' = Project._id p
      ∧ Project.title p' = Project.title p
      ∧ Project.description p' = Project.description p
      ∧ Project.category p' = Project.category p
      ∧ Project.technologies p' = Project.technologies p
      ∧ Project.highlights p' = Project.highlights p
      ∧ Project.image p' = Project.image p
      ∧ Project.github p' = Project.github p
      ∧ Project.live p' = Project.live p
      ∧ Project.createdAt p' = Project.createdAt p
      ∧ Project.updatedAt p ≤ Project.updatedAt p'.
Proof.
  intros R E L w'. subst w'. apply reachable_consistent in R.
  destruct (R _ _ L) as (I & _ & _ & U).
  destruct (validate (update_fields (impact_only v) (Doc.init p))) eqn:V.
  - destruct (updateProject_accepted env id _ w p E L V) as (q & Hq & ->).
    simpl. exists q. rewrite I, lookup_insert_eq. split; [done|].
    assert (Hq' : Doc.init q =
                  Doc.set_isNew false
                    (Doc.set_updatedAt (clock w + Z.of_N (elapsed env 0%nat))
                       (update_fields (impact_only v) (Doc.init p)))).
    { rewrite Hq. by destruct (supplied v) eqn:S; destruct v. }
    apply init_fields in Hq'
      as (? & Ht & Hd & Hc & Hte & Hh & Hi & Hg & Hl & _ & ? & Hu).
    unfold update_fields, impact_only in *. simpl in *.
    destruct (supplied v); simpl in *; simplify_eq; repeat split;
      try done; try congruence; lia.
  - rewrite (updateProject_rejected _ _ _ _ p) by (done || by rewrite V).
    simpl. exists p. repeat split; [done|lia].
Qed.

(** C4, as amended. In a world the server can be in, an update of a
    stored project that is answered 200 leaves each of [image],
    [github], [live] and [impact] with the cast of the supplied value
    when the body supplies the field, whatever the value (null stays
    null, the empty string stays the empty string), and with the stored
    value when the body does not. An update that is not answered 200
    changes no stored project. An update that only sets some of these
    four fields to null or to the empty string is answered 200. *)
Theorem update_nullable_fields env id body w p :
  reachable isValid castObjectId w →
  isValid id = true →
  collection w !! castObjectId id = Some p →
  let r := (updateProject isValid castObjectId env id body w).1 in
  let w' := (updateProject isValid castObjectId env id body w).2 in
  (status r = 200 →
     ∃ q, collection w' !! castObjectId id = Some q
        ∧ Ok (Project.image q) =
          (if supplied (Body.image body) then castString (Body.image body)
           else Ok (Project.image p))
        ∧ Ok (Project.github q) =
          (if supplied (Body.github body) then castString (Body.github body)
           else Ok (Project.github p))
        ∧ Ok (Project.live q) =
          (if supplied (Body.live body) then castString (Body.live body)
           else Ok (Project.live p))
        ∧ Ok (Project.impact q) =
          (if supplied (Body.impact body) then castString (Body.impact body)
           else Ok (Project.impact p)))
  ∧ (status r ≠ 200 → collection w' = collection w)
  ∧ (clears_only body = true → status r = 200).
Proof.
  intros R E L. apply reachable_consistent in R.
  destruct (R _ _ L) as (I & Vp & _ & _).
  destruct (validate (update_fields body (Doc.init p))) eqn:V.
  - destruct (updateProject_accepted env id body w p E L V) as (q & Hq & ->).
    simpl. split; [|done]. intros _. exists q.
    rewrite I, lookup_insert_eq. split; [done|].
    pose proof (update_fields_paths body (Doc.init p))
      as (_ & _ & _ & _ & _ & Ei & Eg & El & Eim).
    simpl in Ei, Eg, El, Eim. rewrite <- Ei, <- Eg, <- El, <- Eim.
    apply (f_equal Doc.image) in Hq as Hi.
    apply (f_equal Doc.github) in Hq as Hg.
    apply (f_equal Doc.live) in Hq as Hl.
    apply (f_equal Doc.impact) in Hq as Him.
    done.
  - rewrite (updateProject_rejected _ _ _ _ p) by (done || by rewrite V).
    simpl. split; [done|]. split; [done|].
    intros Hc. by rewrite (clears_only_valid _ _ Hc Vp) in V.
Qed.

(** C10. In a world the server can be in, an update of a stored project
    whose body gives [title], [description], [category] or
    [technologies] a falsy value (or none) leaves that field of the
    stored project as it was, and the validation of the update has no
    error under the path of that field or under an element of it. The
    errors meant are those the handler reports: when there are some,
    the answer is 400 and its list of errors is made of their messages,
    each once. *)
Theorem update_ignores_falsy env id body w p :
  reachable isValid castObjectId w →
  isValid id = true →
  collection w !! castObjectId id = Some p →
  let r := (updateProject isValid castObjectId env id body w).1 in
  let w' := (updateProject isValid castObjectId env id body w).2 in
  let errs := validate (update_fields body (Doc.init p)) in
  (errs ≠ [] → status r = 400 ∧ ∃ msgs, errors r = Some msgs ∧ msgs ≡ₚ errs.*2)
  ∧ ∃ q, collection w' !! castObjectId id = Some q
       ∧ (truthy (Body.title body) = false →
            Project.title q = Project.title p
            ∧ ∀ path m, (path, m) ∈ errs → under "title" path = false)
       ∧ (truthy (Body.description body) = false →
            Project.description q = Project.description p
            ∧ ∀ path m, (path, m) ∈ errs → under "description" path = false)
       ∧ (truthy (Body.category body) = false →
            Project.category q = Project.category p
            ∧ ∀ path m, (path, m) ∈ errs → under "category" path = false)
       ∧ (truthy (Body.technologies body) = false →
            Project.technologies q = Project.technologies p
            ∧ ∀ path m, (path, m) ∈ errs → under "technologies" path = false).
Proof.
  intros R E L r w' errs. apply reachable_consistent in R.
  destruct (R _ _ L) as (I & Vp & _ & _).
  apply valid_project_paths in Vp as (Vt & Vd & Vc & Vte & _).
  pose proof (update_fields_paths body (Doc.init p))
    as (Et & Ed & Ec & Ete & _).
  simpl in Et, Ed, Ec, Ete.
  assert (Hno :
    (truthy (Body.title body) = false →
     ∀ path m, (path, m) ∈ errs → under "title" path = false)
    ∧ (truthy (Body.description body) = false →
       ∀ path m, (path, m) ∈ errs → under "description" path = false)
    ∧ (truthy (Body.category body) = false →
       ∀ path m, (path, m) ∈ errs → under "category" path = false)
    ∧ (truthy (Body.technologies body) = false →
       ∀ path m, (path, m) ∈ errs → under "technologies" path = false)).
  { subst errs. repeat split; intros F path m Hin; apply validate_at in Hin;
      rewrite ?Et, ?Ed, ?Ec, ?Ete, F, ?Vt, ?Vd, ?Vc, ?Vte in Hin;
      repeat (destruct Hin as [[Hp Hin]|Hin];
              [first [by apply elem_of_nil in Hin | by other_path Hp]|]);
      destruct Hin as [Hp Hin]; by other_path Hp. }
  subst r w' errs.
  destruct (validate (update_fields body (Doc.init p))) eqn:V.
  - split; [done|].
    destruct (updateProject_accepted env id body w p E L V) as (q & Hq & ->).
    simpl. exists q. rewrite I, lookup_insert_eq. split; [done|].
    apply (f_equal Doc.title) in Hq as Ht.
    apply (f_equal Doc.description) in Hq as Hd.
    apply (f_equal Doc.category) in Hq as Hc.
    apply (f_equal Doc.technologies) in Hq as Hte.
    simpl in Ht, Hd, Hc, Hte. rewrite Et in Ht. rewrite Ed in Hd.
    rewrite Ec in Hc. rewrite Ete in Hte.
    destruct Hno as (N1 & N2 & N3 & N4).
    split; [|split; [|split]]; intros F; (split; [|by eauto]);
      rewrite F in *; congruence.
  - rewrite (updateProject_rejected _ _ _ _ p) by (done || by rewrite V).
    simpl. split; [by rewrite V; eauto|]. exists p. split; [done|].
    destruct Hno as (N1 & N2 & N3 & N4).
    split; [|split; [|split]]; intros F; (split; [done|by eauto]).
Qed.

(** The list of errors of a create response is the list of the messages
    of the validation of the new document. *)
Lemma createProject_errors env body w msgs :
  errors (createProject env body w).1 = Some msgs →
  truthy (Body.title body) && truthy (Body.description body)
  && truthy (Body.category body) && truthy (Body.technologies body) = true
  ∧ msgs = (validate (new_document (generated env) body 0 0)).*2.
Proof.
  destruct (truthy (Body.title body) && truthy (Body.description body)
            && truthy (Body.category body) && truthy (Body.technologies body))
    eqn:G.
  2: { by rewrite createProject_guard. }
  destruct (validate (new_document (generated env) body 0 0))
    eqn:V.
  2: { rewrite (createProject_rejected _ _ _ 0 0) by (done || by rewrite V).
       simpl. rewrite V. by intros [= <-]. }
  destruct (collection w !! generated env) as [q|] eqn:F.
  { by rewrite (createProject_duplicate _ _ _ q). }
  by destruct (createProject_accepted env body w G V F) as (p & Hp & ->).
Qed.

(** C7. On create, a [github] string that is not empty and does not
    match the pattern is answered 400, and once the required fields are
    there the list of errors has the message of the GitHub validator. A
    [github] string that matches the pattern never brings that message,
    and neither does a [github] that is absent, null or empty.
    ["https://evil.com"] does not match; ["https://github.com/me/repo"]
    does. *)
Theorem github_format_check env body w :
  let r := (createProject env body w).1 in
  let invalid_url := ValidatorError "Please provide a valid GitHub URL" in
  (∀ s, Body.github body = JStr s → s ≠ "" → github_re s = false →
     status r = 400
     ∧ (truthy (Body.title body) && truthy (Body.description body)
        && truthy (Body.category body) && truthy (Body.technologies body)
        = true →
        ∃ msgs, errors r = Some msgs ∧ invalid_url ∈ msgs))
  ∧ (∀ s, Body.github body = JStr s → github_re s = true →
     ∀ msgs, errors r = Some msgs → invalid_url ∉ msgs)
  ∧ (blank (Body.github body) = true →
     ∀ msgs, errors r = Some msgs → invalid_url ∉ msgs)
  ∧ github_re "https://evil.com" = false
  ∧ github_re "https://github.com/me/repo" = true.
Proof.
  intros r invalid_url. subst r invalid_url.
  assert (Hpass : ∀ msgs,
    pathErrors "github" github_validators
      (castString (or_null (Body.github body))) = [] →
    errors (createProject env body w).1 = Some msgs →
    ValidatorError "Please provide a valid GitHub URL" ∉ msgs).
  { intros msgs Hg [_ ->]%createProject_errors
      ([path m] & Hm & Hin)%list_elem_of_fmap.
    simpl in Hm. subst m. apply github_message_path in Hin.
    simpl in Hin. rewrite Hg in Hin. by apply elem_of_nil in Hin. }
  split; [|split; [|split; [|done]]].
  - intros s Hs Hne Hre.
    assert (In : ("github", ValidatorError "Please provide a valid GitHub URL")
                 ∈ validate (new_document (generated env) body 0 0)).
    { apply elem_of_validate. unfold errorsByPath.
      rewrite !elem_of_app. do 6 right. left.
      simpl. rewrite Hs. unfold or_null. simpl.
      apply String.eqb_neq in Hne. rewrite Hne. simpl.
      unfold pathErrors, doValidate. simpl. rewrite Hne, Hre.
      by apply list_elem_of_singleton. }
    destruct (truthy (Body.title body) && truthy (Body.description body)
              && truthy (Body.category body) && truthy (Body.technologies body))
      eqn:G.
    2: { by rewrite createProject_guard. }
    rewrite (createProject_rejected _ _ _ 0 0); [|done|].
    2: { intros E. rewrite E in In. by apply elem_of_nil in In. }
    simpl. split; [done|]. intros _. eexists. split; [reflexivity|].
    apply list_elem_of_fmap. by eexists (_, _).
  - intros s Hs Hre msgs. apply Hpass. rewrite Hs. unfold or_null. simpl.
    destruct (String.eqb s "") eqn:E; simpl; unfold pathErrors, doValidate;
      simpl; [done|]. by rewrite E, Hre.
  - intros Hb msgs. apply Hpass.
    destruct (Body.github body) as [| | | |s| |]; try done.
    simpl in Hb. unfold or_null. simpl. by rewrite Hb.
Qed.

End ServerFacts.

(** ** The claims on the concrete server *)

Section Examples.
Import Example.

Lemma w1_reachable : reachable isValid castObjectId w1.
Proof.
  exact (reachable_handle isValid castObjectId env1 (POST_project site) w0
           (reachable_initial isValid castObjectId 1000)).
Defined.

Lemma w1_project1 : collection w1 !! castObjectId id1 = Some project1.
Proof. vm_compute. reflexivity. Defined.

(** C1, on the empty body: the guard answers. *)
Lemma create_without_title_witness :
  Body.title Body.empty = JUndefined
  ∧ status (createProject env1 Body.empty w0).1 = 400
  ∧ errors (createProject env1 Body.empty w0).1 = None
  ∧ (createProject env1 Body.empty w0).2 = w0.
Proof.
  split; [reflexivity|].
  pose proof (create_without_title env1 Body.empty w0 eq_refl) as Hc.
  cbv zeta in Hc. destruct Hc as (Hs & _ & _ & He & Hw).
  split; [exact Hs|]. split; [exact He|exact Hw].
Defined.

(** C1 as it was stated fails on the empty body: the answer is 400, yet
    its body has no list of errors, and so none about the title. *)
Lemma create_without_title_counterexample :
  let r := (createProject env1 Body.empty w0).1 in
  ¬ (status r = 400
     ∧ ∃ msgs, errors r = Some msgs
             ∧ ∃ m, m ∈ msgs ∧ mentions "title" m = true).
Proof. simpl. intros (_ & msgs & Hm & _). discriminate Hm. Qed.

(** C2, on [site]: created at 1001, saved at 1003. *)
Lemma create_valid_payload_witness :
  creatable site = true
  ∧ collection w0 !! generated env1 = None
  ∧ ∃ p, (createProject env1 site w0).1 =
         mkResponse 201 true (Some "Project created successfully") None
                    (Some (One p)) None None
       ∧ Project.createdAt p ≤ Project.updatedAt p.
Proof.
  assert (Hc : creatable site = true) by reflexivity.
  assert (Hf : collection w0 !! generated env1 = None) by reflexivity.
  split; [exact Hc|]. split; [exact Hf|].
  destruct (create_valid_payload env1 site w0 Hc Hf)
    as (p & w' & Hr & _ & _ & _ & _ & Hle).
  exists p. rewrite Hr. split; [reflexivity|exact Hle].
Defined.

(** C2 as it was stated fails on [site]: the payload has every required
    field and valid optional ones and the answer is 201, but a
    millisecond passes before each read of the clock and the returned
    project has [createdAt] 1001 and [updatedAt] 1003. *)
Lemma create_timestamps_counterexample :
  let r := (createProject env1 site w0).1 in
  data r = Some (One project1)
  ∧ ¬ (status r = 201
       ∧ ∃ p, data r = Some (One p)
            ∧ Project._id p = generated env1
            ∧ Project.createdAt p = Project.updatedAt p).
Proof.
  split; [vm_compute; reflexivity|].
  intros (_ & p & Hd & _ & Heq). vm_compute in Hd.
  injection Hd as <-. discriminate Heq.
Qed.

(** C3, on [w1]: a new impact for the stored project. *)
Lemma update_impact_only_witness :
  reachable isValid castObjectId w1
  ∧ isValid id1 = true
  ∧ collection w1 !! castObjectId id1 = Some project1
  ∧ ∃ p', collection
            (updateProject isValid castObjectId env1 id1
               (impact_only (JStr "Used daily")) w1).2
          !! castObjectId id1 = Some p'
        ∧ Project.title p' = Project.title project1
        ∧ Project.updatedAt project1 ≤ Project.updatedAt p'.
Proof.
  split; [exact w1_reachable|]. split; [reflexivity|].
  split; [exact w1_project1|].
  destruct (update_impact_only isValid castObjectId env1 id1
              (JStr "Used daily") w1 project1 w1_reachable eq_refl
              w1_project1)
    as (p' & Hl & _ & Ht & _ & _ & _ & _ & _ & _ & _ & _ & Hu).
  exists p'. split; [exact Hl|]. split; [exact Ht|exact Hu].
Defined.

(** C4, on [w1]: emptying [github] and nulling [impact] is answered 200
    and applied; so is the number 1e21 as [impact], which is stored as
    JavaScript writes it. *)
Lemma update_nullable_fields_witness :
  reachable isValid castObjectId w1
  ∧ isValid id1 = true
  ∧ collection w1 !! castObjectId id1 = Some project1
  ∧ clears_only clearing = true
  ∧ (∃ q, collection
            (updateProject isValid castObjectId env1 id1 clearing w1).2
          !! castObjectId id1 = Some q
        ∧ Ok (Project.github q) = Ok (Some "")
        ∧ Ok (Project.impact q) = Ok None
        ∧ Ok (Project.live q) = Ok (Project.live project1))
  ∧ ∃ q, collection
           (updateProject isValid castObjectId env1 id1
              (impact_only (JNum (10 ^ 21))) w1).2
         !! castObjectId id1 = Some q
       ∧ Ok (Project.impact q) = Ok (Some "1e+21").
Proof.
  split; [exact w1_reachable|]. split; [reflexivity|].
  split; [exact w1_project1|]. split; [reflexivity|].
  destruct (update_nullable_fields isValid castObjectId env1 id1 clearing w1
              project1 w1_reachable eq_refl w1_project1)
    as (Happlied & _ & Hok).
  destruct (Happlied (Hok eq_refl)) as (q & Hl & _ & Hg & Hli & Him).
  destruct (update_nullable_fields isValid castObjectId env1 id1
              (impact_only (JNum (10 ^ 21))) w1 project1 w1_reachable eq_refl
              w1_project1)
    as (Hnumber & _).
  assert (Hs : status (updateProject isValid castObjectId env1 id1
                         (impact_only (JNum (10 ^ 21))) w1).1 = 200)
    by (vm_compute; reflexivity).
  destruct (Hnumber Hs) as (q' & Hl' & _ & _ & _ & Him').
  split.
  - exists q. split; [exact Hl|]. split; [exact Hg|].
    split; [exact Him|exact Hli].
  - exists q'. split; [exact Hl'|]. exact Him'.
Defined.

(** C4 as it was stated fails on [w1]: the update supplies a [github]
    that the schema rejects; the answer is 400 and the stored project
    keeps its [github]. *)
Lemma update_rejected_counterexample :
  let w' := (updateProject isValid castObjectId env1 id1 evil_github w1).2 in
  supplied (Body.github evil_github) = true
  ∧ collection w1 !! castObjectId id1 = Some project1
  ∧ collection w' !! castObjectId id1 = Some project1
  ∧ ¬ (∃ q, collection w' !! castObjectId id1 = Some q
          ∧ Project.github q = Some "https://evil.com").
Proof.
  split; [reflexivity|]. split; [exact w1_project1|].
  assert (L : collection
                (updateProject isValid castObjectId env1 id1 evil_github w1).2
              !! castObjectId id1 = Some project1)
    by (vm_compute; reflexivity).
  split; [exact L|]. intros (q & Hq & Hg).
  rewrite L in Hq. injection Hq as <-. discriminate Hg.
Qed.

(** C5, on [w1]: ["nope"] is not an id; [id2] is one and holds nothing. *)
Lemma id_checked_before_store_witness :
  isValid "nope" = false
  ∧ isValid id2 = true
  ∧ collection w1 !! castObjectId id2 = None
  ∧ (status (deleteProject isValid castObjectId "nope" w1).1 = 400
     ∧ (deleteProject isValid castObjectId "nope" w1).2 = w1)
  ∧ (status (getProject isValid castObjectId id2 w1).1 = 404
     ∧ (getProject isValid castObjectId id2 w1).2
       = logged (FindById (castObjectId id2)) w1).
Proof.
  split; [reflexivity|]. split; [reflexivity|]. split; [reflexivity|].
  pose proof (id_checked_before_store isValid castObjectId env1 "nope"
                Body.empty w1) as Hbad.
  pose proof (id_checked_before_store isValid castObjectId env1 id2
                Body.empty w1) as Hmiss.
  cbv zeta in Hbad, Hmiss.
  destruct Hbad as (Hbad & _). destruct (Hbad eq_refl) as (_ & _ & Hdel).
  destruct Hmiss as (_ & Hmiss & _).
  destruct (Hmiss eq_refl eq_refl) as (Hget & _).
  split; [exact Hdel|exact Hget].
Defined.

(** C6, on [w1] and the project it holds. *)
Lemma stored_project_invariants_witness :
  reachable isValid castObjectId w1
  ∧ collection w1 !! castObjectId id1 = Some project1
  ∧ Project.technologies project1 ≠ []
  ∧ Project.category project1 ∈ categories
  ∧ Project.createdAt project1 ≤ Project.updatedAt project1.
Proof.
  split; [exact w1_reachable|]. split; [exact w1_project1|].
  exact (stored_project_invariants isValid castObjectId w1 (castObjectId id1)
           project1 w1_reachable w1_project1).
Defined.

(** C7, on [site] with its [github] replaced. *)
Lemma github_format_check_witness :
  let evil :=
    Body.mk (Body.title site) (Body.description site) (Body.category site)
      (Body.technologies site) (Body.highlights site) JUndefined
      (JStr "https://evil.com") JUndefined JUndefined in
  status (createProject env1 evil w0).1 = 400
  ∧ (∃ msgs, errors (createProject env1 evil w0).1 = Some msgs
           ∧ ValidatorError "Please provide a valid GitHub URL" ∈ msgs)
  ∧ (∀ msgs, errors (createProject env1 site w0).1 = Some msgs →
       ValidatorError "Please provide a valid GitHub URL" ∉ msgs).
Proof.
  intros evil.
  pose proof (github_format_check env1 evil w0) as Hevil.
  pose proof (github_format_check env1 site w0) as Hsite.
  cbv zeta in Hevil, Hsite.
  destruct Hevil as (Hevil & _).
  destruct (Hevil "https://evil.com" eq_refl ltac:(discriminate) eq_refl)
    as (Hst & Herr).
  destruct Hsite as (_ & Hsite & _).
  split; [exact Hst|]. split; [exact (Herr eq_refl)|].
  exact (Hsite "https://github.com/me/repo" eq_refl eq_refl).
Defined.

(** C8, on [w2]: the collection holds [older] before [newer], and both
    listings give [newer] first: its title comes first in the order of
    the character codes, and it was created later. *)
Lemma list_order_witness :
  (map_to_list (collection w2)).*2 = [older; newer]
  ∧ data (getProjects None (Some "title") w2).1 = Some (Lean [newer; older])
  ∧ lex_le (Project.title newer) (Project.title older)
  ∧ data (getProjects None None w2).1 = Some (Lean [newer; older])
  ∧ Project.createdAt older ≤ Project.createdAt newer.
Proof.
  assert (Ht : data (getProjects None (Some "title") w2).1
               = Some (Lean [newer; older])) by (vm_compute; reflexivity).
  assert (Hn : data (getProjects None None w2).1
               = Some (Lean [newer; older])) by (vm_compute; reflexivity).
  pose proof (list_order None (Some "title") w2) as Lt.
  pose proof (list_order None None w2) as Ln.
  cbv zeta in Lt, Ln.
  destruct Lt as (_ & ps & Hd & _ & Hs & _).
  destruct Ln as (_ & qs & Hd' & _ & _ & Hs').
  rewrite Ht in Hd. injection Hd as <-.
  rewrite Hn in Hd'. injection Hd' as <-.
  split; [vm_compute; reflexivity|]. split; [exact Ht|].
  split; [exact (Hs eq_refl 0%nat 1%nat newer older (le_n 1) eq_refl eq_refl)|].
  split; [exact Hn|].
  assert (Hsort : None ≠ Some "title") by discriminate.
  exact (Hs' Hsort 0%nat 1%nat newer older (le_n 1) eq_refl eq_refl).
Defined.

(** C9, on [w1]: deleting the stored project, then getting it. *)
Lemma delete_then_get_witness :
  isValid id1 = true
  ∧ collection w1 !! castObjectId id1 = Some project1
  ∧ status (deleteProject isValid castObjectId id1 w1).1 = 200
  ∧ data (deleteProject isValid castObjectId id1 w1).1 = Some (One project1)
  ∧ status (getProject isValid castObjectId id1
              (deleteProject isValid castObjectId id1 w1).2).1 = 404
  ∧ status (deleteProject isValid castObjectId id2 w1).1 = 404
  ∧ status (deleteProject isValid castObjectId "nope" w1).1 = 400.
Proof.
  split; [reflexivity|]. split; [exact w1_project1|].
  pose proof (delete_then_get isValid castObjectId id1 w1) as H1.
  pose proof (delete_then_get isValid castObjectId id2 w1) as H2.
  pose proof (delete_then_get isValid castObjectId "nope" w1) as H3.
  cbv zeta in H1, H2, H3.
  destruct H1 as (H1 & _). destruct (H1 project1 eq_refl w1_project1)
    as (Hs & Hd & Hg).
  destruct H2 as (_ & H2 & _). destruct H3 as (_ & _ & H3).
  split; [exact Hs|]. split; [exact Hd|]. split; [exact Hg|].
  split; [exact (H2 eq_refl eq_refl)|exact (H3 eq_refl)].
Defined.

(** C10, on [w1]: an update with an empty title and a new description
    keeps the title and changes the description. *)
Lemma update_ignores_falsy_witness :
  reachable isValid castObjectId w1
  ∧ isValid id1 = true
  ∧ collection w1 !! castObjectId id1 = Some project1
  ∧ truthy (Body.title retitle) = false
  ∧ ∃ q, collection
           (updateProject isValid castObjectId env1 id1 retitle w1).2
         !! castObjectId id1 = Some q
       ∧ Project.title q = Project.title project1
       ∧ ∀ path m,
           (path, m) ∈ validate (update_fields retitle (Doc.init project1)) →
           under "title" path = false.
Proof.
  split; [exact w1_reachable|]. split; [reflexivity|].
  split; [exact w1_project1|]. split; [reflexivity|].
  pose proof (update_ignores_falsy isValid castObjectId env1 id1 retitle w1
                project1 w1_reachable eq_refl w1_project1) as Hu.
  cbv zeta in Hu. destruct Hu as (_ & q & Hl & Ht & _).
  destruct (Ht eq_refl) as (Hsame & Hno).
  exists q. split; [exact Hl|]. split; [exact Hsame|exact Hno].
Defined.

End Examples.


(** * Further properties of the handlers *)

(** ** Trimming *)

Lemma str_app_nil_r (s : string) : s +:+ "" = s.
Proof.
  induction s as [|a s IH]; [done|].
  change (String a (s +:+ "") = String a s). by rewrite IH.
Qed.

Lemma rev_app_app (x y acc : string) :
  String.rev_app (x +:+ y) acc = String.rev_app y (String.rev_app x acc).
Proof.
  revert acc. induction x as [|a x IH]; intros acc; [done|].
  change (String.rev_app (x +:+ y) (String a acc)
          = String.rev_app y (String.rev_app x (String a acc))).
  apply IH.
Qed.

Lemma rev_app_acc (x acc : string) :
  String.rev_app x acc = String.rev x +:+ acc.
Proof.
  revert acc. induction x as [|a x IH]; intros acc; [done|].
  unfold String.rev. cbn [String.rev_app].
  rewrite (IH (String a acc)), (IH (String a "")).
  by rewrite str_app_assoc.
Qed.

Lemma rev_cons a (x : string) :
  String.rev (String a x) = String.rev x +:+ String a "".
Proof. unfold String.rev at 1. cbn [String.rev_app]. apply rev_app_acc. Qed.

Lemma rev_snoc (x : string) a :
  String.rev (x +:+ String a "") = String a (String.rev x).
Proof. unfold String.rev. by rewrite rev_app_app. Qed.

Lemma rev_involutive (x : string) : String.rev (String.rev x) = x.
Proof.
  induction x as [|a x IH]; [done|]. by rewrite rev_cons, rev_snoc, IH.
Qed.

Lemma length_rev (x : string) : String.length (String.rev x) = String.length x.
Proof.
  induction x as [|a x IH]; [done|].
  rewrite rev_cons, length_app, IH. simpl. lia.
Qed.

Lemma length_trimStart (x : string) :
  (String.length (trimStart x) ≤ String.length x)%nat.
Proof.
  induction x as [|a x IH]; [done|]. simpl.
  destruct (isWhiteSpace a); simpl; lia.
Qed.

(** What [trimStart] returns does not begin with white space. *)
Lemma trimStart_head (x : string) a r :
  trimStart x = String a r → isWhiteSpace a = false.
Proof.
  induction x as [|b x IH]; [done|]. cbn [trimStart].
  destruct (isWhiteSpace b) eqn:E; [done|]. intros [= <- _]. done.
Qed.

Lemma trimStart_fixed (x : string) :
  trimStart x = x ↔ ∀ a r, x = String a r → isWhiteSpace a = false.
Proof.
  split.
  - intros Hx a r Hr. rewrite Hr in Hx. by eapply trimStart_head.
  - destruct x as [|a r]; [done|]. intros Hx. cbn [trimStart].
    by rewrite (Hx a r eq_refl).
Qed.

Lemma trimStart_idem (x : string) : trimStart (trimStart x) = trimStart x.
Proof.
  apply trimStart_fixed. intros a r. apply trimStart_head.
Qed.

Lemma trimStart_snoc (x : string) a :
  trimStart (x +:+ String a "") =
  if String.eqb (trimStart x) "" && isWhiteSpace a then ""
  else trimStart x +:+ String a "".
Proof.
  induction x as [|b x IH].
  - change ("" +:+ String a "") with (String a ""). cbn [trimStart].
    by destruct (isWhiteSpace a).
  - change (String b x +:+ String a "") with (String b (x +:+ String a "")).
    cbn [trimStart]. destruct (isWhiteSpace b) eqn:E; [exact IH|]. done.
Qed.

Lemma rev_eqb_empty (x : string) :
  String.eqb (String.rev x) "" = String.eqb x "".
Proof.
  destruct x as [|a x]; [done|].
  destruct (String.rev (String a x)) eqn:Er; [|done].
  apply (f_equal String.length) in Er. rewrite length_rev in Er. done.
Qed.

(** Trimming the end, one character further to the left. *)
Lemma trimEnd_cons a (x : string) :
  String.rev (trimStart (String.rev (String a x))) =
  if String.eqb (String.rev (trimStart (String.rev x))) "" && isWhiteSpace a
  then "" else String a (String.rev (trimStart (String.rev x))).
Proof.
  rewrite rev_cons, trimStart_snoc, rev_eqb_empty.
  destruct (String.eqb _ "" && isWhiteSpace a); [done|].
  by rewrite rev_snoc.
Qed.

Lemma trim_head (s : string) a r : trim s = String a r → isWhiteSpace a = false.
Proof.
  unfold trim.
  pose proof (trimStart_head s) as Hs. revert Hs.
  generalize (trimStart s). clear s. intros y Hy.
  destruct y as [|b y]; [done|].
  pose proof (Hy b y eq_refl) as Hb.
  rewrite trimEnd_cons, Hb, andb_false_r. by intros [= <- _].
Qed.

Lemma trim_idem (s : string) : trim (trim s) = trim s.
Proof.
  unfold trim at 1.
  assert (trimStart (trim s) = trim s) as ->.
  { apply trimStart_fixed. intros a r. apply trim_head. }
  unfold trim. by rewrite rev_involutive, trimStart_idem.
Qed.

Lemma trim_last (s r : string) a :
  trim s = r +:+ String a "" → isWhiteSpace a = false.
Proof.
  intros Hs%(f_equal String.rev). revert Hs.
  unfold trim. rewrite rev_involutive, rev_snoc.
  apply trimStart_head.
Qed.

Section MoreFacts.
Context {ObjectId : Type} `{Countable ObjectId} `{!NumberToString}.
Variable isValid : string → bool.
Variable castObjectId : string → ObjectId.
Implicit Types (w : World ObjectId) (p q : Project.t ObjectId)
  (d : Doc.t ObjectId) (env : Env ObjectId) (body : Body.t) (id : string)
  (k : ObjectId).

Lemma valid_project_highlights' p :
  valid_project p → Project.highlights p ≠ [].
Proof.
  intros (_ & _ & _ & _ & Vh & _)%valid_project_paths.
  revert Vh. unfold pathErrors, highlights_validators. simpl.
  unfold nonempty_array. by destruct (Project.highlights p).
Qed.

(** ** The outcomes of a create and of an update *)

(** A create ends in one of four ways: the guard answers; the schema
    rejects the document; the insert finds the [_id] taken; the project
    is stored. *)
Lemma createProject_cases env body w :
  let created := clock w + Z.of_N (elapsed env 0%nat) in
  let saved :=
    created + Z.of_N (elapsed env 1%nat) + Z.of_N (elapsed env 2%nat) in
  let errs := validate (new_document (generated env) body 0 0) in
  (truthy (Body.title body) && truthy (Body.description body)
   && truthy (Body.category body) && truthy (Body.technologies body) = false
   ∧ createProject env body w =
     (failure 400
        "Please provide all required fields: title, description, category, technologies",
      w))
  ∨ (errs ≠ []
     ∧ createProject env body w =
       (mkResponse 400 false (Some "Validation error") None None
          (Some errs.*2) None,
        later (elapsed env 1%nat) (later (elapsed env 0%nat) w)))
  ∨ (errs = [] ∧ is_Some (collection w !! generated env)
     ∧ createProject env body w =
       (mkResponse 500 false (Some "Error creating project") None None None
          (Some (DuplicateKey (generated env))),
        mkWorld (collection w) saved (oplog w ++ [InsertOne (generated env)])))
  ∨ (∃ p, errs = [] ∧ collection w !! generated env = None
        ∧ Doc.init p =
          Doc.set_isNew false
            (new_document (generated env) body created saved)
        ∧ createProject env body w =
          (mkResponse 201 true (Some "Project created successfully") None
             (Some (One p)) None None,
           mkWorld (<[generated env := p]> (collection w)) saved
                   (oplog w ++ [InsertOne (generated env)]))).
Proof.
  intros created saved errs. subst errs.
  destruct (truthy (Body.title body) && truthy (Body.description body)
            && truthy (Body.category body) && truthy (Body.technologies body))
    eqn:G.
  2: { left. split; [done|]. by apply createProject_guard. }
  right.
  destruct (validate (new_document (generated env) body 0 0)) eqn:V.
  2: { left. split; [done|].
       rewrite (createProject_rejected _ _ _ 0 0) by (done || by rewrite V).
       by rewrite V. }
  right.
  destruct (collection w !! generated env) as [q|] eqn:F.
  { left. split; [done|]. split; [by eexists|].
    by rewrite (createProject_duplicate _ _ _ q). }
  right.
  destruct (createProject_accepted env body w G V F) as (p & Hp & Hr).
  by exists p.
Qed.

(** An update ends in one of four ways: the id is not well formed;
    nothing is stored under it; the schema rejects the updated
    document; the updated project is stored. *)
Lemma updateProject_cases env id body w :
  let oid := castObjectId id in
  let saved := clock w + Z.of_N (elapsed env 0%nat) in
  (isValid id = false
   ∧ updateProject isValid castObjectId env id body w = (invalid_id, w))
  ∨ (isValid id = true ∧ collection w !! oid = None
     ∧ updateProject isValid castObjectId env id body w =
       (not_found, logged (FindById oid) w))
  ∨ (∃ p, isValid id = true ∧ collection w !! oid = Some p
        ∧ validate (update_fields body (Doc.init p)) ≠ []
        ∧ updateProject isValid castObjectId env id body w =
          (mkResponse 400 false (Some "Validation error") None None
             (Some (validate (update_fields body (Doc.init p))).*2) None,
           logged (FindById oid) w))
  ∨ (∃ p q, isValid id = true ∧ collection w !! oid = Some p
        ∧ validate (update_fields body (Doc.init p)) = []
        ∧ Doc.init q = Doc.set_updatedAt saved (update_fields body (Doc.init p))
        ∧ updateProject isValid castObjectId env id body w =
          (mkResponse 200 true (Some "Project updated successfully") None
             (Some (One q)) None None,
           mkWorld (<[Project._id p := q]> (collection w)) saved
                   (oplog w ++ [FindById oid; UpdateOne (Project._id p)]))).
Proof.
  intros oid saved. subst oid.
  destruct (isValid id) eqn:E.
  2: { left. split; [done|]. by apply updateProject_invalid. }
  right.
  destruct (collection w !! castObjectId id) as [p|] eqn:L.
  2: { left. split; [done|]. split; [done|]. by apply updateProject_missing. }
  right.
  destruct (validate (update_fields body (Doc.init p))) eqn:V.
  2: { left. exists p.
       split; [done|]. split; [done|]. split; [by rewrite V|].
       apply updateProject_rejected; [done..|by rewrite V]. }
  right.
  destruct (updateProject_accepted isValid castObjectId env id body w p E L V)
    as (q & Hq & Hr).
  by exists p, q.
Qed.

(** ** Writes and the store *)

(** X1. The collection changes only through a create answered 201, or
    an update or a delete answered 200: no read, and no request that is
    refused or that fails, changes what is stored. *)
Theorem store_changes_only_on_success env req w :
  collection (handle isValid castObjectId env req w).2 ≠ collection w →
  match req with
  | POST_project _ => status (handle isValid castObjectId env req w).1 = 201
  | PUT_project _ _ | DELETE_project _ =>
      status (handle isValid castObjectId env req w).1 = 200
  | _ => False
  end.
Proof.
  destruct req as [c s|id|body|id body|id|c]; simpl.
  - intros Hne. by apply Hne.
  - destruct (isValid id) eqn:E.
    + rewrite getProject_valid by done. intros Hne. by apply Hne.
    + rewrite getProject_invalid by done. intros Hne. by apply Hne.
  - destruct (createProject_cases env body w)
      as [(_ & ->)|[(_ & ->)|[(_ & _ & ->)|(p & _ & _ & _ & ->)]]];
      simpl; try done; intros Hne; by destruct Hne.
  - destruct (updateProject_cases env id body w)
      as [(_ & ->)|[(_ & _ & ->)|[(p & _ & _ & _ & ->)
         |(p & q & _ & _ & _ & _ & ->)]]];
      simpl; try done; intros Hne; by destruct Hne.
  - destruct (isValid id) eqn:E.
    + rewrite deleteProject_valid by done. simpl.
      destruct (collection w !! castObjectId id) eqn:L; [done|].
      intros Hne. destruct Hne. by apply delete_id.
    + rewrite deleteProject_invalid by done. intros Hne. by destruct Hne.
  - intros Hne. by apply Hne.
Qed.

(** X2. In a world the server can be in, a request leaves alone every
    project but the one it is about: a create the projects under other
    ids than the generated one, an update and a delete those under
    other ids than the one of the path. *)
Theorem other_projects_untouched env req w k :
  reachable isValid castObjectId w →
  match req with
  | POST_project _ => k ≠ generated env
  | PUT_project id _ | DELETE_project id => k ≠ castObjectId id
  | _ => True
  end →
  collection (handle isValid castObjectId env req w).2 !! k
  = collection w !! k.
Proof.
  intros R%reachable_consistent.
  destruct req as [c s|id|body|id body|id|c]; simpl; intros Hk.
  - done.
  - destruct (isValid id) eqn:E.
    + by rewrite getProject_valid.
    + by rewrite getProject_invalid.
  - destruct (createProject_cases env body w)
      as [(_ & ->)|[(_ & ->)|[(_ & _ & ->)|(p & _ & _ & _ & ->)]]];
      simpl; try done. by rewrite lookup_insert_ne.
  - destruct (updateProject_cases env id body w)
      as [(_ & ->)|[(_ & _ & ->)|[(p & _ & _ & _ & ->)
         |(p & q & _ & L & _ & _ & ->)]]];
      simpl; try done.
    destruct (R _ _ L) as (I & _). rewrite I. by rewrite lookup_insert_ne.
  - destruct (isValid id) eqn:E.
    + rewrite deleteProject_valid by done. simpl. by rewrite lookup_delete_ne.
    + by rewrite deleteProject_invalid.
  - done.
Qed.

(** X3. A write is read back: after a create answered 201, and in a
    world the server can be in after an update answered 200, a get of
    the id of the written project answers 200 with the very project that
    the write returned. *)
Theorem write_then_get env id body w :
  reachable isValid castObjectId w →
  isValid id = true →
  let get w' := (getProject isValid castObjectId id w').1 in
  let post := createProject env body w in
  let put := updateProject isValid castObjectId env id body w in
  (castObjectId id = generated env → status post.1 = 201 →
     status (get post.2) = 200 ∧ data (get post.2) = data post.1)
  ∧ (status put.1 = 200 →
     status (get put.2) = 200 ∧ data (get put.2) = data put.1).
Proof.
  intros R%reachable_consistent E get post put. subst get post put. split.
  - intros Hid.
    destruct (createProject_cases env body w)
      as [(_ & ->)|[(_ & ->)|[(_ & _ & ->)|(p & _ & _ & _ & ->)]]];
      simpl; try done.
    intros _. rewrite getProject_valid by done. simpl.
    by rewrite Hid, lookup_insert_eq.
  - destruct (updateProject_cases env id body w)
      as [(_ & ->)|[(_ & _ & ->)|[(p & _ & _ & _ & ->)
         |(p & q & _ & L & _ & _ & ->)]]];
      simpl; try done.
    intros _. rewrite getProject_valid by done. simpl.
    destruct (R _ _ L) as (I & _). by rewrite I, lookup_insert_eq.
Qed.

(** X4. In a world the server can be in, no update changes the [_id] or
    the [createdAt] of the stored project, whatever the body, and its
    [updatedAt] never goes back; an update answered 200 returns the
    stored project, whose [updatedAt] is the time of the save. *)
Theorem update_keeps_identity env id body w p :
  reachable isValid castObjectId w →
  isValid id = true →
  collection w !! castObjectId id = Some p →
  let put := updateProject isValid castObjectId env id body w in
  ∃ q, collection put.2 !! castObjectId id = Some q
     ∧ Project._id q = Project._id p
     ∧ Project.createdAt q = Project.createdAt p
     ∧ Project.updatedAt p ≤ Project.updatedAt q
     ∧ (status put.1 = 200 →
        data put.1 = Some (One q)
        ∧ Project.updatedAt q = clock w + Z.of_N (elapsed env 0%nat)).
Proof.
  intros R%reachable_consistent E L put. subst put.
  destruct (R _ _ L) as (I & _ & _ & U).
  destruct (updateProject_cases env id body w)
    as [(E' & _)|[(_ & L' & _)|[(p' & _ & L' & _ & ->)
       |(p' & q & _ & L' & _ & Hq & ->)]]]; simpl.
  - congruence.
  - congruence.
  - exists p. repeat split; try done; lia.
  - assert (p' = p) as -> by congruence.
    exists q. rewrite I, lookup_insert_eq. split; [done|].
    pose proof (update_fields_frame body (Doc.init p)) as (N & I' & Cr & _).
    apply (f_equal Doc._id) in Hq as Hi.
    apply (f_equal Doc.createdAt) in Hq as Hc.
    apply (f_equal Doc.updatedAt) in Hq as Hu.
    simpl in Hi, Hc, Hu. rewrite I' in Hi. rewrite Cr in Hc. simpl in Hi, Hc.
    repeat split; try done; try congruence; lia.
Qed.

(** X5. When the [_id] generated for a new document is already taken,
    nothing is stored and the project under that [_id] stays: a payload
    that passes the guard and the schema is answered 500 with the
    duplicate key as the error, any other payload 400 as usual. *)
Theorem create_on_taken_id env body w p :
  collection w !! generated env = Some p →
  let post := createProject env body w in
  collection post.2 = collection w
  ∧ (status post.1 = 400 ∨ status post.1 = 500)
  ∧ (creatable body = true →
     status post.1 = 500 ∧ error post.1 = Some (DuplicateKey (generated env))).
Proof.
  intros L post. subst post.
  destruct (createProject_cases env body w)
    as [(G & ->)|[(V & ->)|[(_ & _ & ->)|(p' & _ & F & _)]]];
    simpl; [..|congruence].
  - split; [done|]. split; [by left|]. intros Hc.
    destruct (creatable_valid (generated env) body 0 0 Hc) as (G' & _).
    congruence.
  - split; [done|]. split; [by left|]. intros Hc.
    destruct (creatable_valid (generated env) body 0 0 Hc) as (_ & V').
    done.
  - split; [done|]. split; [by right|]. done.
Qed.

(** ** Listings *)

Lemma filter_in_category_None (ps : list (Project.t ObjectId)) :
  filter (in_category None) ps = ps.
Proof.
  induction ps as [|p ps IH]; [done|].
  rewrite filter_cons_True by done. by rewrite IH.
Qed.

(** The records of a listing, before the sort. *)
Lemma getProjects_eq category sort w :
  getProjects category sort w =
  (let ps :=
     sorted_by (if bool_decide (sort = Some "title") then title_asc
                else createdAt_desc)
       (filter (in_category
                  (match category with
                   | Some c => if truthy (JStr c) then Some c else None
                   | None => None
                   end))
               (map_to_list (collection w)).*2) in
   mkResponse 200 true None (Some (length ps)) (Some (Lean ps)) None None,
   logged (Find (match category with
                 | Some c => if truthy (JStr c) then Some c else None
                 | None => None
                 end)) w).
Proof.
  unfold getProjects, try_catch, bind, find, ret. simpl.
  by destruct (bool_decide (sort = Some "title")),
    (bool_decide (sort = Some "newest")).
Qed.

Lemma sorted_by_perm s (ps : list (Project.t ObjectId)) : sorted_by s ps ≡ₚ ps.
Proof. destruct s; apply merge_sort_Permutation. Qed.

(** X6. A listing answers 200 with a [count] that is the number of the
    returned records. With a category [c] that is not empty these are,
    each once, the stored projects whose category is [c]; without a
    category, or with the empty one, all the stored projects. *)
Theorem list_category_filter category sort w :
  let stored := (map_to_list (collection w)).*2 in
  ∃ ps, (getProjects category sort w).1 =
        mkResponse 200 true None (Some (length ps)) (Some (Lean ps)) None None
      ∧ (∀ c, category = Some c → c ≠ "" →
           ps ≡ₚ filter (λ p, Project.category p = c) stored)
      ∧ (category = None ∨ category = Some "" → ps ≡ₚ stored).
Proof.
  intros stored. rewrite getProjects_eq. cbv zeta.
  eexists. split; [reflexivity|]. split.
  - intros c -> Hne. simpl.
    destruct (String.eqb_spec c ""); [done|]. simpl.
    rewrite sorted_by_perm. by erewrite list_filter_iff.
  - intros [->| ->]; simpl;
      by rewrite sorted_by_perm, filter_in_category_None.
Qed.


(** X8. The category route does not check its category: in a world the
    server can be in, a category that is not one of the five of the
    schema is answered 200 with an empty list and a [count] of zero. *)
Theorem unknown_category_lists_nothing c w :
  reachable isValid castObjectId w →
  c ∉ categories →
  (getProjectsByCategory c w).1 =
  mkResponse 200 true None (Some 0%nat) (Some (Many [])) None None.
Proof.
  intros R%reachable_consistent Hc.
  unfold getProjectsByCategory, try_catch, bind, find, ret. simpl.
  assert (filter (in_category (Some c)) (map_to_list (collection w)).*2 = [])
    as ->; [|done].
  apply elem_of_nil_inv. intros p.
  rewrite list_elem_of_filter, list_elem_of_fmap.
  intros (Hp & [k q] & -> & Hin%elem_of_map_to_list). simpl in *.
  destruct (R _ _ Hin) as (_ & V & _).
  apply valid_project_category in V. congruence.
Qed.

(** X9. The [count] of the unfiltered listing is the number of stored
    projects. A create answered 201 raises that number by one, a delete
    answered 200 lowers it by one, and in a world the server can be in
    an update leaves it as it is. *)
Theorem count_tracks_store env id body sort w :
  let n w := size (collection w) in
  count (getProjects None sort w).1 = Some (n w)
  ∧ (status (createProject env body w).1 = 201 →
     n (createProject env body w).2 = S (n w))
  ∧ (status (deleteProject isValid castObjectId id w).1 = 200 →
     S (n (deleteProject isValid castObjectId id w).2) = n w)
  ∧ (reachable isValid castObjectId w →
     n (updateProject isValid castObjectId env id body w).2 = n w).
Proof.
  intros n. subst n. cbv beta. split; [|split; [|split]].
  - rewrite getProjects_eq. cbv zeta. simpl.
    rewrite sorted_by_perm, filter_in_category_None, length_fmap.
    by rewrite length_map_to_list.
  - destruct (createProject_cases env body w)
      as [(_ & ->)|[(_ & ->)|[(_ & _ & ->)|(p & _ & F & _ & ->)]]];
      simpl; try done.
    intros _. by apply map_size_insert_None.
  - destruct (isValid id) eqn:E.
    2: { by rewrite deleteProject_invalid. }
    rewrite deleteProject_valid by done. simpl.
    destruct (collection w !! castObjectId id) as [p|] eqn:L; [|done].
    intros _. rewrite map_size_delete, L. simpl.
    assert (size (collection w) ≠ 0%nat); [|lia].
    intros Hz%map_size_empty_iff. by rewrite Hz, lookup_empty in L.
  - intros R%reachable_consistent.
    destruct (updateProject_cases env id body w)
      as [(_ & ->)|[(_ & _ & ->)|[(p & _ & _ & _ & ->)
         |(p & q & _ & L & _ & _ & ->)]]];
      simpl; try done.
    destruct (R _ _ L) as (I & _). rewrite I.
    by apply map_size_insert_Some.
Qed.

(** X10. What a delete has removed stays removed: after a delete under
    a well-formed id, whatever it answered, an update and a second
    delete of that id answer 404, and in a world the server can be in
    no listing returns a project of that [_id]. *)
Theorem deleted_is_gone env id body category sort w :
  isValid id = true →
  let w' := (deleteProject isValid castObjectId id w).2 in
  status (updateProject isValid castObjectId env id body w').1 = 404
  ∧ status (deleteProject isValid castObjectId id w').1 = 404
  ∧ (reachable isValid castObjectId w →
     ∀ ps p, data (getProjects category sort w').1 = Some (Lean ps) →
             p ∈ ps → Project._id p ≠ castObjectId id).
Proof.
  intros E w'. subst w'. rewrite (deleteProject_valid _ _ id w E).
  cbn [snd]. split; [|split].
  - rewrite updateProject_missing; [done|done|]. simpl. apply lookup_delete_eq.
  - rewrite deleteProject_valid by done. simpl. by rewrite lookup_delete_eq.
  - intros R%reachable_consistent ps p. rewrite getProjects_eq. cbv zeta.
    simpl. intros [= <-].
    rewrite sorted_by_elem, list_elem_of_filter, list_elem_of_fmap.
    intros (_ & [k q] & -> & Hin%elem_of_map_to_list). simpl in *.
    apply lookup_delete_Some in Hin as (Hk & L).
    destruct (R _ _ L) as (I & _). congruence.
Qed.

(** ** What the schema refuses *)

(** An error of the validation of a new document is reported: the
    answer is 400 with the messages of the errors, and the store is not
    reached. *)
Lemma create_error env body w path m :
  truthy (Body.title body) && truthy (Body.description body)
  && truthy (Body.category body) && truthy (Body.technologies body) = true →
  (path, m) ∈ validate (new_document (generated env) body 0 0) →
  ∃ msgs, (createProject env body w).1 =
          mkResponse 400 false (Some "Validation error") None None
                     (Some msgs) None
        ∧ m ∈ msgs
        ∧ collection (createProject env body w).2 = collection w
        ∧ oplog (createProject env body w).2 = oplog w.
Proof.
  intros G Hin.
  rewrite (createProject_rejected _ _ _ 0 0); [|done|].
  2: { intros E. rewrite E in Hin. by apply elem_of_nil in Hin. }
  eexists. split; [reflexivity|]. split; [|done].
  apply list_elem_of_fmap. by exists (path, m).
Qed.

(** The same for an update of a stored project: 400, and the stored
    project stays as it is. *)
Lemma update_error env id body w p path m :
  isValid id = true → collection w !! castObjectId id = Some p →
  (path, m) ∈ validate (update_fields body (Doc.init p)) →
  ∃ msgs, (updateProject isValid castObjectId env id body w).1 =
          mkResponse 400 false (Some "Validation error") None None
                     (Some msgs) None
        ∧ m ∈ msgs
        ∧ collection (updateProject isValid castObjectId env id body w).2
          = collection w.
Proof.
  intros E L Hin.
  rewrite (updateProject_rejected _ _ _ _ _ _ p); [|done|done|].
  2: { intros E'. rewrite E' in Hin. by apply elem_of_nil in Hin. }
  eexists. split; [reflexivity|]. split; [|done].
  apply list_elem_of_fmap. by exists (path, m).
Qed.

Ltac new_document_paths :=
  apply elem_of_validate; unfold errorsByPath, new_document;
  cbn [Doc.title Doc.description Doc.category Doc.technologies
       Doc.highlights Doc.image Doc.github Doc.live Doc.impact];
  rewrite !elem_of_app.

(** Without a dollar sign in it, the replacement text is the value. *)
Lemma GetSubstitution_plain matched before after s :
  contains "$" s = false →
  GetSubstitution matched before after s = s.
Proof.
  clear isValid castObjectId.
  induction s as [|a s IH]; [done|].
  cbn [contains strip_prefix].
  destruct (Ascii.eqb_spec "$" a) as [<-|Hne]; [done|].
  intros Hs. specialize (IH Hs).
  assert (GetSubstitution matched before after (String a s)
          = String a (GetSubstitution matched before after s)) as ->.
  { destruct a as [[] [] [] [] [] [] [] []]; try reflexivity. by destruct Hne. }
  by rewrite IH.
Qed.

(** X11. A category that is not one of the five of the schema is
    refused with a message that names it: on a create that has its
    required fields, and on an update of a stored project, the answer
    is 400, the list of errors has the message of the schema with the
    category in the place of [{VALUE}], and the collection is as
    before. The category is put there as [String.prototype.replace]
    does: for a category without a dollar sign the message is
    ["<category> is not a valid category"]. *)
Theorem invalid_category_rejected env id body w p c :
  Body.category body = JStr c → c ≠ "" → c ∉ categories →
  let invalid :=
    ValidatorError (formatMessage "{VALUE} is not a valid category" c) in
  let post := createProject env body w in
  let put := updateProject isValid castObjectId env id body w in
  (truthy (Body.title body) && truthy (Body.description body)
   && truthy (Body.technologies body) = true →
   status post.1 = 400
   ∧ (∃ msgs, errors post.1 = Some msgs ∧ invalid ∈ msgs)
   ∧ collection post.2 = collection w)
  ∧ (isValid id = true → collection w !! castObjectId id = Some p →
     status put.1 = 400
     ∧ (∃ msgs, errors put.1 = Some msgs ∧ invalid ∈ msgs)
     ∧ collection put.2 = collection w)
  ∧ (contains "$" c = false →
     invalid = ValidatorError (c +:+ " is not a valid category")).
Proof.
  intros Hc Hne%String.eqb_neq Hnot invalid post put.
  subst invalid post put.
  assert (Hv : pathErrors "category" category_validators (castString (JStr c))
               = [("category",
                   ValidatorError
                     (formatMessage "{VALUE} is not a valid category" c))]).
  { unfold pathErrors, doValidate. simpl. rewrite Hne.
    by rewrite bool_decide_eq_false_2. }
  split; [|split].
  - intros G.
    destruct (create_error env body w "category"
                (ValidatorError
                   (formatMessage "{VALUE} is not a valid category" c)))
      as (msgs & -> & Hin & Hcol & _).
    + rewrite Hc. simpl. rewrite Hne. simpl.
      by destruct (truthy (Body.title body)),
        (truthy (Body.description body)), (truthy (Body.technologies body)).
    + new_document_paths. do 2 right. left.
      rewrite Hc, Hv. by apply list_elem_of_singleton.
    + simpl. split; [done|]. split; [by exists msgs|done].
  - intros E L.
    destruct (update_error env id body w p "category"
                (ValidatorError
                   (formatMessage "{VALUE} is not a valid category" c)) E L)
      as (msgs & -> & Hin & Hcol).
    + apply elem_of_validate. unfold errorsByPath.
      rewrite !elem_of_app. do 2 right. left.
      pose proof (update_fields_paths body (Doc.init p)) as (_ & _ & -> & _).
      assert (truthy (JStr c) = true) as Htr by (simpl; by rewrite Hne).
      rewrite Hc, Htr, Hv. by apply list_elem_of_singleton.
    + simpl. split; [done|]. split; [by exists msgs|done].
  - intros Hplain. rewrite category_message.
    by rewrite GetSubstitution_plain.
Qed.

(** X12. The limits of length are enforced on create: with the required
    fields there, a title of more than 200 characters once trimmed, a
    description of more than 2000, or an impact of more than 500 is
    answered 400 with the message of its limit among the errors, and
    nothing is stored. *)
Theorem length_limits_enforced env body w s :
  truthy (Body.title body) && truthy (Body.description body)
  && truthy (Body.category body) && truthy (Body.technologies body) = true →
  let post := createProject env body w in
  let refused msg :=
    status post.1 = 400
    ∧ (∃ msgs, errors post.1 = Some msgs ∧ ValidatorError msg ∈ msgs)
    ∧ collection post.2 = collection w in
  (Body.title body = JStr s → (200 < String.length (trim s))%nat →
     refused "Title cannot exceed 200 characters")
  ∧ (Body.description body = JStr s → (2000 < String.length s)%nat →
     refused "Description cannot exceed 2000 characters")
  ∧ (Body.impact body = JStr s → (500 < String.length s)%nat →
     refused "Impact description cannot exceed 500 characters").
Proof.
  intros G post refused. subst post refused. cbv beta.
  assert (Hlong : ∀ n x, (n < String.length x)%nat →
            String.eqb x "" = false ∧ (n <? String.length x)%nat = true).
  { intros n x Hx. split; [|by apply Nat.ltb_lt].
    apply String.eqb_neq. intros ->. simpl in Hx. lia. }
  split; [|split].
  - intros Ht Hlen. destruct (Hlong _ _ Hlen) as (Hne & Hlt).
    destruct (create_error env body w "title"
                (ValidatorError "Title cannot exceed 200 characters") G)
      as (msgs & -> & Hin & Hcol & _).
    + new_document_paths. left.
      rewrite Ht. unfold castTrimmed, pathErrors. simpl.
      rewrite Hne, Hlt. by apply list_elem_of_singleton.
    + simpl. split; [done|]. split; [by exists msgs|done].
  - intros Hd Hlen. destruct (Hlong _ _ Hlen) as (Hne & Hlt).
    destruct (create_error env body w "description"
                (ValidatorError "Description cannot exceed 2000 characters") G)
      as (msgs & -> & Hin & Hcol & _).
    + new_document_paths. right. left.
      rewrite Hd. unfold pathErrors. simpl.
      rewrite Hne, Hlt. by apply list_elem_of_singleton.
    + simpl. split; [done|]. split; [by exists msgs|done].
  - intros Hi Hlen. destruct (Hlong _ _ Hlen) as (Hne & Hlt).
    destruct (create_error env body w "impact"
                (ValidatorError "Impact description cannot exceed 500 characters") G)
      as (msgs & -> & Hin & Hcol & _).
    + new_document_paths. do 8 right.
      rewrite Hi. unfold or_null. simpl. rewrite Hne. simpl.
      unfold pathErrors. simpl.
      rewrite Hlt. by apply list_elem_of_singleton.
    + simpl. split; [done|]. split; [by exists msgs|done].
Qed.

(** X13. A title of white space only is not missing for the guard of
    the create handler, but it is for the schema once trimmed: with the
    other required fields there, the answer is 400 with a list of
    errors that has ["Please provide a project title"], and nothing is
    stored. *)
Theorem blank_title_rejected env body w s :
  Body.title body = JStr s → s ≠ "" → trim s = "" →
  truthy (Body.description body) && truthy (Body.category body)
  && truthy (Body.technologies body) = true →
  let post := createProject env body w in
  status post.1 = 400
  ∧ message post.1 = Some "Validation error"
  ∧ (∃ msgs, errors post.1 = Some msgs
           ∧ ValidatorError "Please provide a project title" ∈ msgs)
  ∧ collection post.2 = collection w.
Proof.
  intros Ht Hne%String.eqb_neq Htrim G post. subst post.
  destruct (create_error env body w "title"
              (ValidatorError "Please provide a project title"))
    as (msgs & -> & Hin & Hcol & _).
  - rewrite Ht. simpl. by rewrite Hne.
  - new_document_paths. left.
    rewrite Ht. unfold castTrimmed, pathErrors. simpl.
    rewrite Htrim. by apply list_elem_of_singleton.
  - simpl. split; [done|]. split; [done|]. split; [by exists msgs|done].
Qed.

(** X14. The guard of the create handler covers the four required
    fields alike and looks at truthiness: when any of [title],
    [description], [category], [technologies] is absent, null, empty,
    zero or false, the answer is 400 with the message that lists the
    four, without a list of errors, and the world is as before. *)
Theorem required_fields_guard env body w :
  truthy (Body.title body) = false ∨ truthy (Body.description body) = false
  ∨ truthy (Body.category body) = false
  ∨ truthy (Body.technologies body) = false →
  createProject env body w =
  (mkResponse 400 false
     (Some "Please provide all required fields: title, description, category, technologies")
     None None None None,
   w).
Proof.
  intros Hf. apply (createProject_guard env body w).
  destruct Hf as [-> | [-> | [-> | ->]]]; simpl;
    rewrite ?andb_false_r; done.
Qed.

(** X15. An empty list is refused where the schema wants an element.
    On create, with the required fields there, empty technologies give
    400 with ["Technologies array cannot be empty"], and highlights that
    are empty, absent or falsy give 400 with ["Add at least one
    highlight"]; on an update of a stored project an empty array for
    either gives the same. Each time the collection is as before. *)
Theorem empty_lists_rejected env id body w p :
  let post := createProject env body w in
  let put := updateProject isValid castObjectId env id body w in
  let guard :=
    truthy (Body.title body) && truthy (Body.description body)
    && truthy (Body.category body) && truthy (Body.technologies body) in
  let no_technology := ValidatorError "Technologies array cannot be empty" in
  let no_highlight := ValidatorError "Add at least one highlight" in
  (guard = true → Body.technologies body = JArr [] →
     status post.1 = 400
     ∧ (∃ msgs, errors post.1 = Some msgs ∧ no_technology ∈ msgs)
     ∧ collection post.2 = collection w)
  ∧ (guard = true →
     Body.highlights body = JArr [] ∨ truthy (Body.highlights body) = false →
     status post.1 = 400
     ∧ (∃ msgs, errors post.1 = Some msgs ∧ no_highlight ∈ msgs)
     ∧ collection post.2 = collection w)
  ∧ (isValid id = true → collection w !! castObjectId id = Some p →
     (Body.technologies body = JArr [] →
        status put.1 = 400
        ∧ (∃ msgs, errors put.1 = Some msgs ∧ no_technology ∈ msgs)
        ∧ collection put.2 = collection w)
     ∧ (Body.highlights body = JArr [] →
        status put.1 = 400
        ∧ (∃ msgs, errors put.1 = Some msgs ∧ no_highlight ∈ msgs)
        ∧ collection put.2 = collection w)).
Proof.
  intros post put guard no_technology no_highlight.
  subst post put guard no_technology no_highlight.
  split; [|split].
  - intros G Ht.
    destruct (create_error env body w "technologies"
                (ValidatorError "Technologies array cannot be empty") G)
      as (msgs & -> & Hin & Hcol & _).
    + new_document_paths. do 3 right. left.
      rewrite Ht. by apply list_elem_of_singleton.
    + simpl. split; [done|]. split; [by exists msgs|done].
  - intros G Hh.
    destruct (create_error env body w "highlights"
                (ValidatorError "Add at least one highlight") G)
      as (msgs & -> & Hin & Hcol & _).
    + new_document_paths. do 4 right. left.
      destruct Hh as [->| ->]; by apply list_elem_of_singleton.
    + simpl. split; [done|]. split; [by exists msgs|done].
  - intros E L.
    pose proof (update_fields_paths body (Doc.init p))
      as (_ & _ & _ & Hte & Hh & _).
    split.
    + intros Ht.
      destruct (update_error env id body w p "technologies"
                  (ValidatorError "Technologies array cannot be empty") E L)
        as (msgs & -> & Hin & Hcol).
      * apply elem_of_validate. unfold errorsByPath.
        rewrite !elem_of_app. do 3 right. left.
        rewrite Hte, Ht. by apply list_elem_of_singleton.
      * simpl. split; [done|]. split; [by exists msgs|done].
    + intros Hh'.
      destruct (update_error env id body w p "highlights"
                  (ValidatorError "Add at least one highlight") E L)
        as (msgs & -> & Hin & Hcol).
      * apply elem_of_validate. unfold errorsByPath.
        rewrite !elem_of_app. do 4 right. left.
        rewrite Hh, Hh'. by apply list_elem_of_singleton.
      * simpl. split; [done|]. split; [by exists msgs|done].
Qed.

(** ** One value for a list *)

(** X16. A single value stands for the list of that value: a create
    and an update whose [technologies], or whose [highlights], is a
    truthy value that is not an array behave as with the array of that
    one value: the same response and the same world. *)
Theorem scalar_is_singleton env id t de c te h i g l im w :
  let post b := createProject env b w in
  let put b := updateProject isValid castObjectId env id b w in
  (isArray te = false → truthy te = true →
     post (Body.mk t de c te h i g l im)
     = post (Body.mk t de c (JArr [te]) h i g l im)
     ∧ put (Body.mk t de c te h i g l im)
       = put (Body.mk t de c (JArr [te]) h i g l im))
  ∧ (isArray h = false → truthy h = true →
     post (Body.mk t de c te h i g l im)
     = post (Body.mk t de c te (JArr [h]) i g l im)
     ∧ put (Body.mk t de c te h i g l im)
       = put (Body.mk t de c te (JArr [h]) i g l im)).
Proof.
  intros post put. subst post put. cbv beta.
  assert (Hwrap : ∀ v, isArray v = false → as_array v = [v])
    by (by intros []).
  split; intros Ha Ht; pose proof (Hwrap _ Ha) as Hw;
    unfold createProject, updateProject, new_Project, new_document,
      update_fields;
    cbn [Body.title Body.description Body.category Body.technologies
         Body.highlights Body.image Body.github Body.live Body.impact];
    rewrite Hw, Ht; done.
Qed.

(** ** What is stored *)

(** X17. In a world the server can be in, every stored project sits
    under its own [_id] and satisfies the whole schema: a title and a
    description that are not empty and within 200 and 2000 characters,
    at least one highlight, a [github] and a [live] that are null, empty
    or of the right form, an impact of at most 500 characters; and its
    [updatedAt] is not in the future. *)
Theorem stored_project_schema w k p :
  reachable isValid castObjectId w →
  collection w !! k = Some p →
  Project._id p = k
  ∧ (Project.title p ≠ "" ∧ (String.length (Project.title p) ≤ 200)%nat)
  ∧ (Project.description p ≠ ""
     ∧ (String.length (Project.description p) ≤ 2000)%nat)
  ∧ Project.highlights p ≠ []
  ∧ (∀ s, Project.github p = Some s → s = "" ∨ github_re s = true)
  ∧ (∀ s, Project.live p = Some s → s = "" ∨ url_re s = true)
  ∧ (∀ s, Project.impact p = Some s → (String.length s ≤ 500)%nat)
  ∧ Project.updatedAt p ≤ clock w.
Proof.
  intros R%reachable_consistent L.
  destruct (R _ _ L) as (I & V & _ & U).
  apply valid_project_paths in V
    as (Vt & Vd & _ & _ & Vh & _ & Vg & Vl & Vi).
  split; [done|].
  assert (Htext : ∀ path m1 n m2 x,
    pathErrors path [required m1; maxlength n m2] (Ok (Some x)) = [] →
    x ≠ "" ∧ (String.length x ≤ n)%nat).
  { intros path m1 n m2 x. unfold pathErrors. simpl.
    destruct (String.eqb_spec x ""); [done|].
    destruct (Nat.ltb_spec n (String.length x)); [done|]. split; [done|lia]. }
  assert (Hform : ∀ path re m x,
    pathErrors path [matches re m] (Ok (Some x)) = [] →
    x = "" ∨ re x = true).
  { intros path re m x. unfold pathErrors. simpl.
    destruct (String.eqb_spec x ""); [by left|].
    destruct (re x); [by right|done]. }
  split; [by eapply Htext|]. split; [by eapply Htext|].
  split.
  { revert Vh. unfold pathErrors, highlights_validators. simpl.
    unfold nonempty_array. by destruct (Project.highlights p). }
  split. { intros s Hs. rewrite Hs in Vg. by eapply Hform. }
  split. { intros s Hs. rewrite Hs in Vl. by eapply Hform. }
  split; [|done].
  intros s Hs. rewrite Hs in Vi. revert Vi.
  unfold pathErrors, impact_validators. simpl.
  destruct (Nat.ltb_spec 500 (String.length s)); [done|]. intros _. lia.
Qed.

(** An array path without an error holds the array that was assigned
    last. *)
Lemma assign_clean c (old : ArrayPath) l :
  mkArrayPath l None = assign c old → c = Ok l.
Proof. clear isValid castObjectId. destruct c; simpl; congruence. Qed.

Lemma assigned_array (b : bool) c l l' :
  mkArrayPath l None = (if b then assign c (mkArrayPath l' None)
                        else mkArrayPath l' None) →
  Ok l = (if b then c else Ok l').
Proof.
  clear isValid castObjectId.
  destruct b; [by intros ->%assign_clean|congruence].
Qed.

(** X18. In a world the server can be in, an update answered 200
    leaves each of [title], [description], [category], [technologies]
    and [highlights] with the cast of the supplied value when that value
    is truthy (the title trimmed, a single value as a list of one), and
    with the stored value otherwise. *)
Theorem update_applies_truthy env id body w p :
  reachable isValid castObjectId w →
  isValid id = true →
  collection w !! castObjectId id = Some p →
  status (updateProject isValid castObjectId env id body w).1 = 200 →
  ∃ q, collection (updateProject isValid castObjectId env id body w).2
       !! castObjectId id = Some q
     ∧ Ok (Some (Project.title q)) =
       (if truthy (Body.title body) then castTrimmed (Body.title body)
        else Ok (Some (Project.title p)))
     ∧ Ok (Some (Project.description q)) =
       (if truthy (Body.description body)
        then castString (Body.description body)
        else Ok (Some (Project.description p)))
     ∧ Ok (Some (Project.category q)) =
       (if truthy (Body.category body) then castString (Body.category body)
        else Ok (Some (Project.category p)))
     ∧ Ok (Project.technologies q) =
       (if truthy (Body.technologies body)
        then castStringArray (as_array (Body.technologies body))
        else Ok (Project.technologies p))
     ∧ Ok (Project.highlights q) =
       (if truthy (Body.highlights body)
        then castStringArray (as_array (Body.highlights body))
        else Ok (Project.highlights p)).
Proof.
  intros R%reachable_consistent E L.
  destruct (R _ _ L) as (I & _).
  destruct (updateProject_cases env id body w)
    as [(E' & _)|[(_ & L' & _)|[(p' & _ & _ & _ & ->)
       |(p' & q & _ & L' & _ & Hq & ->)]]]; simpl; try congruence; try done.
  intros _. assert (p' = p) as -> by congruence.
  exists q. rewrite I, lookup_insert_eq. split; [done|].
  pose proof (update_fields_paths body (Doc.init p))
    as (Et & Ed & Ec & Ete & Eh & _).
  simpl in Et, Ed, Ec, Ete, Eh. rewrite <- Et, <- Ed, <- Ec.
  apply (f_equal Doc.title) in Hq as Ht.
  apply (f_equal Doc.description) in Hq as Hd.
  apply (f_equal Doc.category) in Hq as Hc.
  apply (f_equal Doc.technologies) in Hq as Hte.
  apply (f_equal Doc.highlights) in Hq as Hh.
  simpl in Hte, Hh. rewrite Ete in Hte. rewrite Eh in Hh.
  apply assigned_array in Hte. apply assigned_array in Hh.
  done.
Qed.

(** ** The envelope *)

(** X19. Every response has one of two shapes. A success has [success]
    true, status 200 or 201, and data, without errors. A failure has
    [success] false, status 400, 404 or 500, a message and no data; it
    has a list of errors only with status 400, and an error exactly
    with status 500. *)
Theorem uniform_envelope env req w :
  let r := (handle isValid castObjectId env req w).1 in
  (success r = true ∧ (status r = 200 ∨ status r = 201)
   ∧ is_Some (data r) ∧ errors r = None ∧ error r = None)
  ∨ (success r = false
     ∧ (status r = 400 ∨ status r = 404 ∨ status r = 500)
     ∧ is_Some (message r) ∧ data r = None
     ∧ (is_Some (errors r) → status r = 400)
     ∧ (is_Some (error r) ↔ status r = 500)).
Proof.
  assert (Hsome : ∀ A (x : A), is_Some (Some x)) by (by eexists).
  assert (Hnone : ∀ A (P : Prop), is_Some (@None A) → P)
    by (by intros A P [? ?]).
  destruct req as [c s|id|body|id body|id|c]; cbn [handle].
  - rewrite getProjects_eq. simpl. left. repeat split; eauto.
  - destruct (isValid id) eqn:E.
    + rewrite getProject_valid by done. simpl.
      destruct (collection w !! castObjectId id); simpl.
      * left. repeat split; eauto.
      * right. repeat split; eauto; try (by intros [? ?]); done.
    + rewrite getProject_invalid by done. simpl.
      right. repeat split; eauto; try (by intros [? ?]); done.
  - destruct (createProject_cases env body w)
      as [(_ & ->)|[(_ & ->)|[(_ & _ & ->)|(p & _ & _ & _ & ->)]]]; simpl.
    + right. repeat split; eauto; try (by intros [? ?]); done.
    + right. repeat split; eauto; try (by intros [? ?]); done.
    + right. repeat split; eauto; try (by intros [? ?]); done.
    + left. repeat split; eauto.
  - destruct (updateProject_cases env id body w)
      as [(_ & ->)|[(_ & _ & ->)|[(p & _ & _ & _ & ->)
         |(p & q & _ & _ & _ & _ & ->)]]]; simpl.
    + right. repeat split; eauto; try (by intros [? ?]); done.
    + right. repeat split; eauto; try (by intros [? ?]); done.
    + right. repeat split; eauto; try (by intros [? ?]); done.
    + left. repeat split; eauto.
  - destruct (isValid id) eqn:E.
    + rewrite deleteProject_valid by done. simpl.
      destruct (collection w !! castObjectId id); simpl.
      * left. repeat split; eauto.
      * right. repeat split; eauto; try (by intros [? ?]); done.
    + rewrite deleteProject_invalid by done. simpl.
      right. repeat split; eauto; try (by intros [? ?]); done.
  - simpl. left. repeat split; eauto.
Qed.

(** ** The two patterns *)

Lemma lit_true (pre : string) (cont : string → bool) s :
  lit pre cont s = true ↔ ∃ r, s = pre +:+ r ∧ cont r = true.
Proof.
  unfold lit. destruct (strip_prefix pre s) as [r|] eqn:E.
  - apply strip_prefix_Some in E as ->. split; [by exists r|].
    intros (r' & Hr & Hk). by apply (inj _) in Hr as ->.
  - split; [done|]. intros (r & Hr%strip_prefix_Some & _). congruence.
Qed.

Lemma opt_true (pre : string) (cont : string → bool) s :
  opt pre cont s = true ↔ lit pre cont s = true ∨ cont s = true.
Proof. unfold opt. apply orb_true_iff. Qed.

(** X20. The strings that the GitHub pattern accepts are those that
    begin with [http://github.com/], [https://github.com/],
    [http://www.github.com/] or [https://www.github.com/]; those that
    the URL pattern accepts begin with [http://] or [https://]. What the
    first accepts, the second accepts. *)
Theorem url_patterns s :
  (github_re s = true ↔
   ∃ rest, s = "http://github.com/" +:+ rest
         ∨ s = "https://github.com/" +:+ rest
         ∨ s = "http://www.github.com/" +:+ rest
         ∨ s = "https://www.github.com/" +:+ rest)
  ∧ (url_re s = true ↔
     ∃ rest, s = "http://" +:+ rest ∨ s = "https://" +:+ rest)
  ∧ (github_re s = true → url_re s = true).
Proof.
  assert (Hg : github_re s = true ↔
    ∃ rest, s = "http://github.com/" +:+ rest
          ∨ s = "https://github.com/" +:+ rest
          ∨ s = "http://www.github.com/" +:+ rest
          ∨ s = "https://www.github.com/" +:+ rest).
  { split.
    - unfold github_re. intros (r1 & -> & H1)%lit_true.
      apply opt_true in H1 as [(r2 & -> & H2)%lit_true|H2];
        apply lit_true in H2 as (r3 & -> & H3);
        apply opt_true in H3 as [(r4 & -> & H4)%lit_true|H4];
        apply lit_true in H4 as (r5 & -> & _); exists r5; auto.
    - intros (rest & [->|[->|[->| ->]]]); reflexivity. }
  assert (Hu : url_re s = true ↔
    ∃ rest, s = "http://" +:+ rest ∨ s = "https://" +:+ rest).
  { split.
    - unfold url_re. intros (r1 & -> & H1)%lit_true.
      apply opt_true in H1 as [(r2 & -> & H2)%lit_true|H2];
        apply lit_true in H2 as (r3 & -> & _); exists r3; auto.
    - intros (rest & [->| ->]); reflexivity. }
  split; [done|]. split; [done|].
  rewrite Hg, Hu. intros (rest & [->|[->|[->| ->]]]).
  - exists ("github.com/" +:+ rest). by left.
  - exists ("github.com/" +:+ rest). by right.
  - exists ("www.github.com/" +:+ rest). by left.
  - exists ("www.github.com/" +:+ rest). by right.
Qed.

(** ** The form of [live], and the two forms on update *)

Lemma not_a_category_url s :
  formatMessage "{VALUE} is not a valid category" s
  ≠ "Please provide a valid URL".
Proof.
  rewrite category_message.
  generalize (GetSubstitution "{VALUE}" "" " is not a valid category" s).
  clear s. intros s Heq.
  assert (String.length s = 2%nat) as Hlen.
  { apply (f_equal String.length) in Heq.
    rewrite length_app in Heq. simpl in Heq. lia. }
  do 2 (destruct s as [|? s]; [discriminate Hlen|]).
  destruct s; [|discriminate Hlen]. discriminate Heq.
Qed.

Ltac foreign_message :=
  unfold title_validators, description_validators, category_validators,
    technologies_validators, highlights_validators, image_validators,
    github_validators, impact_validators, first_failure, required, maxlength,
    enum, required_array, nonempty_array, matches;
  repeat case_match; simplify_eq;
  rewrite ?list_elem_of_singleton, ?elem_of_nil; try done;
  intros [= ? Hm]; simplify_eq.

(** The message of the URL validator is the message of no other
    validator of the schema. *)
Lemma live_message_path d path :
  (path, ValidatorError "Please provide a valid URL") ∈ validate d →
  (path, ValidatorError "Please provide a valid URL")
    ∈ pathErrors "live" live_validators (Doc.live d).
Proof.
  intros Hin. apply validate_at in Hin.
  destruct Hin as [[_ Hin]|[[_ Hin]|[[_ Hin]|[[_ Hin]|[[_ Hin]|[[_ Hin]
                  |[[_ Hin]|[[_ Hin]|[_ Hin]]]]]]]]]; [..|exact Hin|];
    exfalso; revert Hin;
    unfold pathErrors, arrayErrors, castError, arrayError, validateArray,
      doValidate; rewrite elem_of_app; intros [Hin|Hin]; revert Hin.
  - destruct (Doc.title d) as [[s|]|]; foreign_message.
  - destruct (Doc.title d) as [[s|]|]; foreign_message.
  - destruct (Doc.description d) as [[s|]|]; foreign_message.
  - destruct (Doc.description d) as [[s|]|]; foreign_message.
  - destruct (Doc.category d) as [[s|]|]; foreign_message.
  - destruct (Doc.category d) as [[s|]|]; foreign_message.
    by eapply not_a_category_url.
  - destruct (Doc.technologies d) as [l [[[i|] v]|]]; foreign_message.
  - destruct (Doc.technologies d) as [l [[[i|] v]|]]; foreign_message.
  - destruct (Doc.highlights d) as [l [[[i|] v]|]]; foreign_message.
  - destruct (Doc.highlights d) as [l [[[i|] v]|]]; foreign_message.
  - destruct (Doc.image d) as [[s|]|]; foreign_message.
  - destruct (Doc.image d) as [[s|]|]; foreign_message.
  - destruct (Doc.github d) as [[s|]|]; foreign_message.
  - destruct (Doc.github d) as [[s|]|]; foreign_message.
  - destruct (Doc.impact d) as [[s|]|]; foreign_message.
  - destruct (Doc.impact d) as [[s|]|]; foreign_message.
Qed.

(** X21. On create, a [live] string that is not empty and does not
    begin with [http://] or [https://] is answered 400, and once the
    required fields are there the list of errors has ["Please provide a
    valid URL"]. A [live] that matches, or that is absent, null or
    empty, never brings that message. *)
Theorem live_format_check env body w :
  let r := (createProject env body w).1 in
  let invalid_url := ValidatorError "Please provide a valid URL" in
  (∀ s, Body.live body = JStr s → s ≠ "" → url_re s = false →
     status r = 400
     ∧ (truthy (Body.title body) && truthy (Body.description body)
        && truthy (Body.category body) && truthy (Body.technologies body)
        = true →
        ∃ msgs, errors r = Some msgs ∧ invalid_url ∈ msgs))
  ∧ (∀ s, Body.live body = JStr s → url_re s = true →
     ∀ msgs, errors r = Some msgs → invalid_url ∉ msgs)
  ∧ (blank (Body.live body) = true →
     ∀ msgs, errors r = Some msgs → invalid_url ∉ msgs).
Proof.
  intros r invalid_url. subst r invalid_url.
  assert (Hpass : ∀ msgs,
    pathErrors "live" live_validators
      (castString (or_null (Body.live body))) = [] →
    errors (createProject env body w).1 = Some msgs →
    ValidatorError "Please provide a valid URL" ∉ msgs).
  { intros msgs Hg [_ ->]%createProject_errors
      ([path m] & Hm & Hin)%list_elem_of_fmap.
    simpl in Hm. subst m. apply live_message_path in Hin.
    simpl in Hin. rewrite Hg in Hin. by apply elem_of_nil in Hin. }
  split; [|split].
  - intros s Hs Hne%String.eqb_neq Hre.
    destruct (truthy (Body.title body) && truthy (Body.description body)
              && truthy (Body.category body) && truthy (Body.technologies body))
      eqn:G.
    2: { by rewrite createProject_guard. }
    destruct (create_error env body w "live"
                (ValidatorError "Please provide a valid URL") G)
      as (msgs & -> & Hin & _).
    + new_document_paths. do 7 right. left.
      rewrite Hs. unfold or_null. simpl. rewrite Hne. simpl.
      unfold pathErrors. simpl. rewrite Hne, Hre.
      by apply list_elem_of_singleton.
    + simpl. split; [done|]. intros _. by exists msgs.
  - intros s Hs Hre msgs. apply Hpass. rewrite Hs. unfold or_null. simpl.
    destruct (String.eqb s "") eqn:E; simpl; unfold pathErrors; simpl;
      [done|]. by rewrite E, Hre.
  - intros Hb msgs. apply Hpass.
    destruct (Body.live body) as [| | | |s| |]; try done.
    simpl in Hb. unfold or_null. simpl. by rewrite Hb.
Qed.

(** X22. The two forms are checked on update too: a supplied [github]
    or [live] string that is not empty and does not match its pattern
    is answered 400 with the message of its validator among the errors,
    and the stored project keeps the value it had. *)
Theorem url_checks_on_update env id body w p s :
  isValid id = true →
  collection w !! castObjectId id = Some p →
  s ≠ "" →
  let put := updateProject isValid castObjectId env id body w in
  let refused msg :=
    status put.1 = 400
    ∧ (∃ msgs, errors put.1 = Some msgs ∧ ValidatorError msg ∈ msgs)
    ∧ collection put.2 = collection w in
  (Body.github body = JStr s → github_re s = false →
     refused "Please provide a valid GitHub URL")
  ∧ (Body.live body = JStr s → url_re s = false →
     refused "Please provide a valid URL").
Proof.
  intros E L Hne%String.eqb_neq put refused. subst put refused. cbv beta.
  pose proof (update_fields_paths body (Doc.init p))
    as (_ & _ & _ & _ & _ & _ & Hg & Hl & _).
  split.
  - intros Hs Hre.
    destruct (update_error env id body w p "github"
                (ValidatorError "Please provide a valid GitHub URL") E L)
      as (msgs & -> & Hin & Hcol).
    + apply elem_of_validate. unfold errorsByPath.
      rewrite !elem_of_app. do 6 right. left.
      rewrite Hg, Hs. unfold pathErrors. simpl. rewrite Hne, Hre.
      by apply list_elem_of_singleton.
    + simpl. split; [done|]. split; [by exists msgs|done].
  - intros Hs Hre.
    destruct (update_error env id body w p "live"
                (ValidatorError "Please provide a valid URL") E L)
      as (msgs & -> & Hin & Hcol).
    + apply elem_of_validate. unfold errorsByPath.
      rewrite !elem_of_app. do 7 right. left.
      rewrite Hl, Hs. unfold pathErrors. simpl. rewrite Hne, Hre.
      by apply list_elem_of_singleton.
    + simpl. split; [done|]. split; [by exists msgs|done].
Qed.

(** ** Stored titles *)

(** Every stored title is the trimming of a string. *)
Lemma stored_title_is_trim w :
  reachable isValid castObjectId w →
  ∀ k p, collection w !! k = Some p → ∃ s, Project.title p = trim s.
Proof.
  induction 1 as [t|env req w R IH]; intros k p L.
  { simpl in L. by rewrite lookup_empty in L. }
  apply reachable_consistent in R.
  assert (Hcast : ∀ v x, castTrimmed v = Ok (Some x) → ∃ s, x = trim s).
  { intros v x. unfold castTrimmed.
    destruct (castString v) as [[s|]|]; try done.
    intros [= <-]. by exists s. }
  destruct req as [c s|id|body|id body|id|c]; cbn [handle] in L.
  - rewrite getProjects_eq in L. by eapply IH.
  - destruct (isValid id) eqn:E.
    + rewrite getProject_valid in L by done. by eapply IH.
    + rewrite getProject_invalid in L by done. by eapply IH.
  - destruct (createProject_cases env body w)
      as [(_ & Hr)|[(_ & Hr)|[(_ & _ & Hr)|(p' & _ & _ & Hp & Hr)]]];
      rewrite Hr in L; simpl in L; try by eapply IH.
    apply lookup_insert_Some in L as [(_ & <-)|(_ & L)]; [|by eapply IH].
    apply init_fields in Hp as (_ & Ht & _). simpl in Ht. by eapply Hcast.
  - destruct (updateProject_cases env id body w)
      as [(_ & Hr)|[(_ & _ & Hr)|[(p' & _ & _ & _ & Hr)
         |(p' & q & _ & L' & _ & Hq & Hr)]]];
      rewrite Hr in L; simpl in L; try by eapply IH.
    apply lookup_insert_Some in L as [(_ & <-)|(_ & L)]; [|by eapply IH].
    apply (f_equal Doc.title) in Hq. simpl in Hq.
    pose proof (update_fields_paths body (Doc.init p')) as (Et & _).
    rewrite Et in Hq. simpl in Hq.
    destruct (truthy (Body.title body)).
    + by eapply Hcast.
    + injection Hq as Hq. rewrite Hq. by eapply IH.
  - destruct (isValid id) eqn:E.
    + rewrite deleteProject_valid in L by done. simpl in L.
      apply lookup_delete_Some in L as (_ & L). by eapply IH.
    + rewrite deleteProject_invalid in L by done. by eapply IH.
  - by eapply IH.
Qed.

(** X23. In a world the server can be in, every stored title is as the
    trimming leaves it: trimming it again changes nothing, and it
    neither begins nor ends with a white space character. *)
Theorem stored_title_trimmed w k p :
  reachable isValid castObjectId w →
  collection w !! k = Some p →
  trim (Project.title p) = Project.title p
  ∧ (∀ a r, Project.title p = String a r → isWhiteSpace a = false)
  ∧ (∀ r a, Project.title p = r +:+ String a "" → isWhiteSpace a = false).
Proof.
  intros R L. destruct (stored_title_is_trim w R k p L) as (s & ->).
  split; [apply trim_idem|]. split.
  - intros a r. apply trim_head.
  - intros r a. apply trim_last.
Qed.

(** ** What a create stores, and updates that change nothing *)

(** X24. A create answered 201 returns the project it has stored, and
    that project holds the casts of the payload: the title trimmed,
    [technologies] and [highlights] as lists (a single value as a list
    of one), and each of [image], [github], [live], [impact] as null
    when the payload has it absent, null, empty or otherwise falsy. *)
Theorem create_stores_payload env body w :
  status (createProject env body w).1 = 201 →
  ∃ p, data (createProject env body w).1 = Some (One p)
     ∧ collection (createProject env body w).2 !! generated env = Some p
     ∧ Project._id p = generated env
     ∧ Ok (Some (Project.title p)) = castTrimmed (Body.title body)
     ∧ Ok (Some (Project.description p)) = castString (Body.description body)
     ∧ Ok (Some (Project.category p)) = castString (Body.category body)
     ∧ Ok (Project.technologies p)
       = castStringArray (as_array (Body.technologies body))
     ∧ Ok (Project.highlights p)
       = castStringArray (as_array (Body.highlights body))
     ∧ (∀ field stored,
          (field, stored) ∈ [(Body.image body, Project.image p);
                             (Body.github body, Project.github p);
                             (Body.live body, Project.live p);
                             (Body.impact body, Project.impact p)] →
          if truthy field then Ok stored = castString field
          else stored = None).
Proof.
  destruct (createProject_cases env body w)
    as [(_ & ->)|[(_ & ->)|[(_ & _ & ->)|(p & V & _ & Hp & ->)]]];
    simpl; try done.
  intros _. exists p. split; [done|]. rewrite lookup_insert_eq.
  split; [done|].
  pose proof (init_valid _ _ Hp V) as Vp.
  apply valid_project_highlights' in Vp.
  apply init_fields in Hp
    as (I & Ht & Hd & Hc & Hte & Hh & Hi & Hg & Hl & Him & _).
  simpl in I, Ht, Hd, Hc, Hte, Hh, Hi, Hg, Hl, Him.
  symmetry in Hte, Hh. apply assign_clean in Hte, Hh.
  repeat (split; [done|]).
  split.
  { destruct (truthy (Body.highlights body)); [done|].
    injection Hh as Hh. by rewrite <- Hh in Vp. }
  intros field stored.
  rewrite !elem_of_cons, elem_of_nil.
  unfold or_null in Hi, Hg, Hl, Him.
  intros [[= -> ->]|[[= -> ->]|[[= -> ->]|[[= -> ->]|[]]]]];
    match goal with |- context [truthy ?v] => destruct (truthy v) end;
    first [done | by simplify_eq/=].
Qed.

(** X25. In a world the server can be in, an update with an empty body
    is answered 200 and touches the stored project only: every field
    stays, and [updatedAt] becomes the time of the save. *)
Theorem empty_update_touches env id w p :
  reachable isValid castObjectId w →
  isValid id = true →
  collection w !! castObjectId id = Some p →
  let put := updateProject isValid castObjectId env id Body.empty w in
  status put.1 = 200
  ∧ ∃ q, collection put.2 !! castObjectId id = Some q
       ∧ Doc.init q =
         Doc.set_updatedAt (clock w + Z.of_N (elapsed env 0%nat)) (Doc.init p).
Proof.
  intros R%reachable_consistent E L put. subst put.
  destruct (R _ _ L) as (I & Vp & _).
  destruct (updateProject_accepted isValid castObjectId env id Body.empty w p
              E L Vp) as (q & Hq & ->).
  simpl. split; [done|]. exists q. by rewrite I, lookup_insert_eq.
Qed.

(** Two documents with the same paths are the same document. *)
Lemma doc_ext d d' :
  Doc.isNew d = Doc.isNew d' → Doc._id d = Doc._id d' →
  Doc.title d = Doc.title d' → Doc.description d = Doc.description d' →
  Doc.category d = Doc.category d' →
  Doc.technologies d = Doc.technologies d' →
  Doc.highlights d = Doc.highlights d' → Doc.image d = Doc.image d' →
  Doc.github d = Doc.github d' → Doc.live d = Doc.live d' →
  Doc.impact d = Doc.impact d' → Doc.createdAt d = Doc.createdAt d' →
  Doc.updatedAt d = Doc.updatedAt d' → d = d'.
Proof. destruct d, d'; simpl; congruence. Qed.

(** The assignments of an update, made a second time, change nothing. *)
Lemma update_fields_twice body d t :
  update_fields body (Doc.set_updatedAt t (update_fields body d))
  = Doc.set_updatedAt t (update_fields body d).
Proof.
  pose proof (update_fields_frame body
                (Doc.set_updatedAt t (update_fields body d)))
    as (F1 & F2 & F3 & F4).
  pose proof (update_fields_paths body
                (Doc.set_updatedAt t (update_fields body d)))
    as (P1 & P2 & P3 & P4 & P5 & P6 & P7 & P8 & P9).
  pose proof (update_fields_paths body d)
    as (Q1 & Q2 & Q3 & Q4 & Q5 & Q6 & Q7 & Q8 & Q9).
  cbv zeta in *.
  apply doc_ext; [exact F1|exact F2|rewrite P1|rewrite P2|rewrite P3
                 |rewrite P4|rewrite P5|rewrite P6|rewrite P7|rewrite P8
                 |rewrite P9|exact F3|exact F4];
    unfold Doc.set_updatedAt;
    cbn [Doc.title Doc.description Doc.category Doc.technologies
         Doc.highlights Doc.image Doc.github Doc.live Doc.impact].
  all: match goal with
       | Q : ?x = _ |- context [?x] => rewrite Q
       end;
       match goal with |- context [if ?b then _ else _] => destruct b end;
       first [done
             |match goal with |- context [assign ?c _] => by destruct c end].
Qed.

(** X26. In a world the server can be in, an update that was answered
    200 is answered 200 again when it is repeated, and the second time
    changes nothing but [updatedAt], which becomes the time of the
    second save. *)
Theorem update_twice env env' id body w p :
  reachable isValid castObjectId w →
  isValid id = true →
  collection w !! castObjectId id = Some p →
  let put1 := updateProject isValid castObjectId env id body w in
  let put2 := updateProject isValid castObjectId env' id body put1.2 in
  status put1.1 = 200 →
  status put2.1 = 200
  ∧ ∃ q1 q2, collection put1.2 !! castObjectId id = Some q1
           ∧ collection put2.2 !! castObjectId id = Some q2
           ∧ Doc.init q2 =
             Doc.set_updatedAt (clock put1.2 + Z.of_N (elapsed env' 0%nat))
               (Doc.init q1).
Proof.
  intros R%reachable_consistent E L put1 put2. subst put1 put2.
  destruct (R _ _ L) as (I & _).
  destruct (updateProject_cases env id body w)
    as [(E' & _)|[(_ & L' & _)|[(p' & _ & _ & _ & ->)
       |(p' & q & _ & L' & V & Hq & Hr)]]]; simpl; try congruence; try done.
  assert (p' = p) as -> by congruence.
  rewrite Hr. cbn [fst snd status]. intros _.
  set (w1 := mkWorld _ _ _).
  assert (L1 : collection w1 !! castObjectId id = Some q).
  { subst w1. simpl. by rewrite I, lookup_insert_eq. }
  assert (V1 : validate (update_fields body (Doc.init q)) = []).
  { rewrite Hq, update_fields_twice. by rewrite validate_set_updatedAt. }
  destruct (updateProject_accepted isValid castObjectId env' id body w1 q
              E L1 V1) as (q2 & Hq2 & ->).
  simpl. split; [done|]. exists q, q2.
  split; [by rewrite I, lookup_insert_eq|].
  split.
  { apply (f_equal Doc._id) in Hq as Hi. simpl in Hi.
    pose proof (update_fields_frame body (Doc.init p)) as (_ & I' & _).
    rewrite I' in Hi. simpl in Hi. by rewrite Hi, I, lookup_insert_eq. }
  rewrite Hq2. rewrite Hq at 1. rewrite update_fields_twice.
  rewrite Hq. reflexivity.
Qed.

End MoreFacts.

(** * The further properties on the example worlds *)

Section MoreExamples.
Import Example.

Lemma games_unlisted : "Games" ∉ categories.
Proof.
  intros Hin.
  repeat (apply elem_of_cons in Hin as [Hin|Hin]; [discriminate Hin|]).
  by apply elem_of_nil in Hin.
Defined.

(** X1, on the create of [site] in the empty world. *)
Lemma store_changes_only_on_success_witness :
  collection (handle isValid castObjectId env1 (POST_project site) w0).2 ≠
      collection w0
  ∧ status (handle isValid castObjectId env1 (POST_project site) w0).1 = 201.
Proof.
  assert (Hne : collection (handle isValid castObjectId env1 (POST_project
      site) w0).2
                ≠ collection w0).
  { intros E. apply (f_equal (λ m, m !! id1)) in E.
    vm_compute in E. discriminate E. }
  split; [exact Hne|].
  exact (store_changes_only_on_success isValid castObjectId env1
           (POST_project site) w0 Hne).
Defined.

(** X2, on a second create in [w1]: the first project stays. *)
Lemma other_projects_untouched_witness :
  reachable isValid castObjectId w1
  ∧ id1 ≠ generated env2
  ∧ collection (handle isValid castObjectId env2 (POST_project site) w1).2 !!
      id1
    = collection w1 !! id1.
Proof.
  assert (Hne : id1 ≠ generated env2) by discriminate.
  split; [exact w1_reachable|]. split; [exact Hne|].
  exact (other_projects_untouched isValid castObjectId env2
           (POST_project site) w1 id1 w1_reachable Hne).
Defined.

(** X3, on an update in [w1] and the get that follows it. *)
Lemma write_then_get_witness :
  reachable isValid castObjectId w1
  ∧ isValid id1 = true
  ∧ status (updateProject isValid castObjectId env1 id1 retitle w1).1 = 200
  ∧ status (getProject isValid castObjectId id1 (updateProject isValid
      castObjectId env1 id1 retitle w1).2).1 = 200
  ∧ data (getProject isValid castObjectId id1 (updateProject isValid
      castObjectId env1 id1 retitle w1).2).1
    = data (updateProject isValid castObjectId env1 id1 retitle w1).1.
Proof.
  split; [exact w1_reachable|]. split; [reflexivity|].
  pose proof (write_then_get isValid castObjectId env1 id1 retitle w1
                w1_reachable eq_refl) as Hw.
  cbv zeta in Hw. destruct Hw as (_ & Hput).
  assert (Hs : status (updateProject isValid castObjectId env1 id1 retitle
      w1).1 = 200)
    by (vm_compute; reflexivity).
  split; [exact Hs|]. exact (Hput Hs).
Defined.

(** X4, on an update in [w1]. *)
Lemma update_keeps_identity_witness :
  reachable isValid castObjectId w1
  ∧ isValid id1 = true
  ∧ collection w1 !! castObjectId id1 = Some project1
  ∧ ∃ q, collection (updateProject isValid castObjectId env1 id1 retitle
      w1).2 !! castObjectId id1 = Some q
       ∧ Project._id q = Project._id project1
       ∧ Project.createdAt q = Project.createdAt project1.
Proof.
  split; [exact w1_reachable|]. split; [reflexivity|].
  split; [exact w1_project1|].
  pose proof (update_keeps_identity isValid castObjectId env1 id1 retitle w1
                project1 w1_reachable eq_refl w1_project1) as Hu.
  cbv zeta in Hu. destruct Hu as (q & Hl & Hi & Hc & _).
  exists q. split; [exact Hl|]. split; [exact Hi|exact Hc].
Defined.

(** X5, on a second create in [w1] under the id that is taken. *)
Lemma create_on_taken_id_witness :
  collection w1 !! generated env1 = Some project1
  ∧ creatable site = true
  ∧ collection (createProject env1 site w1).2 = collection w1
  ∧ status (createProject env1 site w1).1 = 500.
Proof.
  assert (Ht : collection w1 !! generated env1 = Some project1)
    by (vm_compute; reflexivity).
  split; [exact Ht|]. split; [reflexivity|].
  pose proof (create_on_taken_id env1 site w1 project1 Ht) as Hc.
  cbv zeta in Hc. destruct Hc as (Hsame & _ & Hdup).
  split; [exact Hsame|]. exact (proj1 (Hdup eq_refl)).
Defined.

(** X6, on [w1] and the category of its project. *)
Lemma list_category_filter_witness :
  ∃ ps, data (getProjects (Some "Web Development") None w1).1
        = Some (Lean ps)
      ∧ ps ≡ₚ filter (λ p, Project.category p = "Web Development")
                (map_to_list (collection w1)).*2.
Proof.
  pose proof (list_category_filter (Some "Web Development") None w1) as Hl.
  cbv zeta in Hl. destruct Hl as (ps & Hr & Hc & _).
  exists ps. split; [exact (f_equal data Hr)|].
  apply (Hc "Web Development" eq_refl). discriminate.
Defined.


(** X8, on [w1] and a category outside the schema. *)
Lemma unknown_category_lists_nothing_witness :
  reachable isValid castObjectId w1
  ∧ ("Games" ∉ categories)
  ∧ count (getProjectsByCategory "Games" w1).1 = Some 0%nat.
Proof.
  split; [exact w1_reachable|]. split; [exact games_unlisted|].
  exact (f_equal count
           (unknown_category_lists_nothing isValid castObjectId "Games" w1
              w1_reachable games_unlisted)).
Defined.

(** X9, on [w1] and a second create in it. *)
Lemma count_tracks_store_witness :
  count (getProjects None None w1).1 = Some (size (collection w1))
  ∧ status (createProject env2 site w1).1 = 201
  ∧ size (collection (createProject env2 site w1).2)
    = S (size (collection w1)).
Proof.
  pose proof (count_tracks_store isValid castObjectId env2 id1 site None w1)
    as Hn.
  cbv zeta in Hn. destruct Hn as (Hcount & Hpost & _).
  assert (Hs : status (createProject env2 site w1).1 = 201)
    by (vm_compute; reflexivity).
  split; [exact Hcount|]. split; [exact Hs|exact (Hpost Hs)].
Defined.

(** X10, on [w1] after its project has been deleted. *)
Lemma deleted_is_gone_witness :
  isValid id1 = true
  ∧ status (updateProject isValid castObjectId env1 id1 retitle
      (deleteProject isValid castObjectId id1 w1).2).1 = 404
  ∧ status (deleteProject isValid castObjectId id1 (deleteProject isValid
      castObjectId id1 w1).2).1 = 404.
Proof.
  split; [reflexivity|].
  pose proof (deleted_is_gone isValid castObjectId env1 id1 retitle None None
                w1 eq_refl) as Hd.
  cbv zeta in Hd. destruct Hd as (Hput & Hdel & _).
  split; [exact Hput|exact Hdel].
Defined.

Lemma dollars_unlisted : "US$$" ∉ categories.
Proof.
  intros Hin.
  repeat (apply elem_of_cons in Hin as [Hin|Hin]; [discriminate Hin|]).
  by apply elem_of_nil in Hin.
Defined.

(** X11, on the create of [games], and on that of [dollars], where the
    two dollar signs of the category come out as one. *)
Lemma invalid_category_rejected_witness :
  Body.category games = JStr "Games"
  ∧ ("Games" ∉ categories)
  ∧ contains "$" "Games" = false
  ∧ status (createProject env1 games w0).1 = 400
  ∧ (∃ msgs, errors (createProject env1 games w0).1 = Some msgs
           ∧ ValidatorError "Games is not a valid category" ∈ msgs)
  ∧ ∃ msgs, errors (createProject env1 dollars w0).1 = Some msgs
          ∧ ValidatorError "US$ is not a valid category" ∈ msgs.
Proof.
  split; [reflexivity|]. split; [exact games_unlisted|].
  split; [reflexivity|].
  assert (Hne : "Games" ≠ "") by discriminate.
  pose proof (invalid_category_rejected isValid castObjectId env1 id1 games
                w0 project1 "Games" eq_refl Hne games_unlisted) as Hc.
  cbv zeta in Hc. destruct Hc as (Hpost & _ & Hplain).
  destruct (Hpost eq_refl) as (Hs & (msgs & Hm & Hin) & _).
  split; [exact Hs|]. split.
  - exists msgs. split; [exact Hm|].
    pose proof (Hplain eq_refl) as Heq. rewrite Heq in Hin. exact Hin.
  - assert (Hne' : "US$$" ≠ "") by discriminate.
    pose proof (invalid_category_rejected isValid castObjectId env1 id1
                  dollars w0 project1 "US$$" eq_refl Hne' dollars_unlisted)
      as Hd.
    cbv zeta in Hd. destruct Hd as (Hpost' & _).
    destruct (Hpost' eq_refl) as (_ & Hm' & _). exact Hm'.
Defined.

(** X12, on [site] with a title of 201 characters. *)
Lemma length_limits_enforced_witness :
  (200 < String.length (trim long_title))%nat
  ∧ status (createProject env1 (with_title (JStr long_title) site) w0).1 = 400
  ∧ ∃ msgs,
      errors (createProject env1 (with_title (JStr long_title) site) w0).1
      = Some msgs
      ∧ ValidatorError "Title cannot exceed 200 characters" ∈ msgs.
Proof.
  assert (Hlen : (200 < String.length (trim long_title))%nat)
    by (apply Nat.ltb_lt; vm_compute; reflexivity).
  split; [exact Hlen|].
  pose proof (length_limits_enforced env1 (with_title (JStr long_title) site)
                w0 long_title eq_refl) as Hl.
  cbv zeta in Hl. destruct Hl as (Htitle & _).
  destruct (Htitle eq_refl Hlen) as (Hs & Hm & _).
  split; [exact Hs|exact Hm].
Defined.

(** X13, on [site] with a title of three spaces. *)
Lemma blank_title_rejected_witness :
  trim "   " = ""
  ∧ status (createProject env1 (with_title (JStr "   ") site) w0).1 = 400
  ∧ ∃ msgs,
      errors (createProject env1 (with_title (JStr "   ") site) w0).1
      = Some msgs
      ∧ ValidatorError "Please provide a project title" ∈ msgs.
Proof.
  assert (Ht : trim "   " = "") by (vm_compute; reflexivity).
  assert (Hne : "   " ≠ "") by discriminate.
  split; [exact Ht|].
  pose proof (blank_title_rejected env1 (with_title (JStr "   ") site) w0
                "   " eq_refl Hne Ht eq_refl) as Hb.
  cbv zeta in Hb. destruct Hb as (Hs & _ & Hm & _).
  split; [exact Hs|exact Hm].
Defined.

(** X14, on [site] with the number 0 as its title. *)
Lemma required_fields_guard_witness :
  truthy (Body.title (with_title (JNum 0) site)) = false
  ∧ status (createProject env1 (with_title (JNum 0) site) w0).1 = 400
  ∧ (createProject env1 (with_title (JNum 0) site) w0).2 = w0.
Proof.
  split; [reflexivity|].
  pose proof (required_fields_guard env1 (with_title (JNum 0) site) w0
                (or_introl eq_refl)) as Hg.
  split; [exact (f_equal (λ r, status r.1) Hg)|exact (f_equal snd Hg)].
Defined.

(** X15, on [site] with an empty list of technologies. *)
Lemma empty_lists_rejected_witness :
  Body.technologies (with_technologies (JArr []) site) = JArr []
  ∧ status (createProject env1 (with_technologies (JArr []) site) w0).1 = 400
  ∧ ∃ msgs,
      errors (createProject env1 (with_technologies (JArr []) site) w0).1
      = Some msgs
      ∧ ValidatorError "Technologies array cannot be empty" ∈ msgs.
Proof.
  split; [reflexivity|].
  pose proof (empty_lists_rejected isValid castObjectId env1 id1
                (with_technologies (JArr []) site) w0 project1) as He.
  cbv zeta in He. destruct He as (Hpost & _).
  destruct (Hpost eq_refl eq_refl) as (Hs & Hm & _).
  split; [exact Hs|exact Hm].
Defined.

(** X16, on [site], whose [technologies] is one string. *)
Lemma scalar_is_singleton_witness :
  isArray (Body.technologies site) = false
  ∧ truthy (Body.technologies site) = true
  ∧ createProject env1 site w0
    = createProject env1 (with_technologies (JArr [JStr "React"]) site) w0.
Proof.
  split; [reflexivity|]. split; [reflexivity|].
  pose proof (scalar_is_singleton isValid castObjectId env1 id1
                (Body.title site) (Body.description site)
                (Body.category site) (Body.technologies site)
                (Body.highlights site) (Body.image site) (Body.github site)
                (Body.live site) (Body.impact site) w0) as Hs.
  cbv zeta in Hs. destruct Hs as (Hte & _).
  exact (proj1 (Hte eq_refl eq_refl)).
Defined.

(** X17, on [w1] and the project it holds. *)
Lemma stored_project_schema_witness :
  reachable isValid castObjectId w1
  ∧ collection w1 !! castObjectId id1 = Some project1
  ∧ Project._id project1 = castObjectId id1
  ∧ Project.title project1 ≠ ""
  ∧ (String.length (Project.title project1) ≤ 200)%nat.
Proof.
  split; [exact w1_reachable|]. split; [exact w1_project1|].
  destruct (stored_project_schema isValid castObjectId w1 (castObjectId id1)
              project1 w1_reachable w1_project1) as (Hi & (Hne & Hlen) & _).
  split; [exact Hi|]. split; [exact Hne|exact Hlen].
Defined.

(** X18, on [w1]: an empty title is not applied, a description is. *)
Lemma update_applies_truthy_witness :
  reachable isValid castObjectId w1
  ∧ isValid id1 = true
  ∧ collection w1 !! castObjectId id1 = Some project1
  ∧ status (updateProject isValid castObjectId env1 id1 retitle w1).1 = 200
  ∧ ∃ q, collection (updateProject isValid castObjectId env1 id1 retitle
      w1).2 !! castObjectId id1 = Some q
       ∧ Ok (Some (Project.title q)) = Ok (Some (Project.title project1))
       ∧ Ok (Some (Project.description q)) = Ok (Some "A rewritten site").
Proof.
  split; [exact w1_reachable|]. split; [reflexivity|].
  split; [exact w1_project1|].
  assert (Hs : status (updateProject isValid castObjectId env1 id1 retitle
      w1).1 = 200)
    by (vm_compute; reflexivity).
  split; [exact Hs|].
  destruct (update_applies_truthy isValid castObjectId env1 id1 retitle w1
              project1 w1_reachable eq_refl w1_project1 Hs)
    as (q & Hl & Ht & Hd & _).
  exists q. split; [exact Hl|]. split; [exact Ht|exact Hd].
Defined.

(** X19, on a get in [w1] under a string that is not an id. *)
Lemma uniform_envelope_witness :
  success (handle isValid castObjectId env1 (GET_project "nope") w1).1 = false
  ∧ data (handle isValid castObjectId env1 (GET_project "nope") w1).1 = None.
Proof.
  pose proof (uniform_envelope isValid castObjectId env1 (GET_project "nope")
                w1) as He.
  cbv zeta in He. destruct He as [(Hs & _)|(Hs & _ & _ & Hd & _)].
  - vm_compute in Hs. discriminate Hs.
  - split; [exact Hs|exact Hd].
Defined.

(** X20, on the [github] of [site]. *)
Lemma url_patterns_witness :
  github_re "https://github.com/me/repo" = true
  ∧ url_re "https://github.com/me/repo" = true.
Proof.
  destruct (url_patterns "https://github.com/me/repo") as (Hg & _ & Hu).
  assert (Hm : github_re "https://github.com/me/repo" = true).
  { apply Hg. exists "me/repo". right. left. reflexivity. }
  split; [exact Hm|exact (Hu Hm)].
Defined.

(** X21, on [site] with a [live] that is no http URL. *)
Lemma live_format_check_witness :
  url_re "ftp://example.com" = false
  ∧ status (createProject env1 (with_live (JStr "ftp://example.com") site)
              w0).1 = 400
  ∧ ∃ msgs,
      errors (createProject env1 (with_live (JStr "ftp://example.com") site)
                w0).1 = Some msgs
      ∧ ValidatorError "Please provide a valid URL" ∈ msgs.
Proof.
  split; [reflexivity|].
  assert (Hne : "ftp://example.com" ≠ "") by discriminate.
  pose proof (live_format_check env1
                (with_live (JStr "ftp://example.com") site) w0) as Hl.
  cbv zeta in Hl. destruct Hl as (Hbad & _).
  destruct (Hbad "ftp://example.com" eq_refl Hne eq_refl) as (Hs & Hm).
  split; [exact Hs|exact (Hm eq_refl)].
Defined.

(** X22, on [w1]: an update with a [github] outside GitHub. *)
Lemma url_checks_on_update_witness :
  isValid id1 = true
  ∧ collection w1 !! castObjectId id1 = Some project1
  ∧ github_re "https://evil.com" = false
  ∧ status (updateProject isValid castObjectId env1 id1 evil_github w1).1 =
      400
  ∧ collection (updateProject isValid castObjectId env1 id1 evil_github w1).2
      = collection w1.
Proof.
  split; [reflexivity|]. split; [exact w1_project1|].
  split; [reflexivity|].
  assert (Hne : "https://evil.com" ≠ "") by discriminate.
  pose proof (url_checks_on_update isValid castObjectId env1 id1 evil_github
                w1 project1 "https://evil.com" eq_refl w1_project1 Hne)
    as Hu.
  cbv zeta in Hu. destruct Hu as (Hg & _).
  destruct (Hg eq_refl eq_refl) as (Hs & _ & Hc).
  split; [exact Hs|exact Hc].
Defined.

(** X23, on [w1]: [site] had spaces around its title. *)
Lemma stored_title_trimmed_witness :
  reachable isValid castObjectId w1
  ∧ collection w1 !! castObjectId id1 = Some project1
  ∧ trim (Project.title project1) = Project.title project1.
Proof.
  split; [exact w1_reachable|]. split; [exact w1_project1|].
  exact (proj1 (stored_title_trimmed isValid castObjectId w1
                  (castObjectId id1) project1 w1_reachable w1_project1)).
Defined.

(** X24, on the create of [site] in the empty world. *)
Lemma create_stores_payload_witness :
  status (createProject env1 site w0).1 = 201
  ∧ ∃ p, data (createProject env1 site w0).1 = Some (One p)
       ∧ Ok (Some (Project.title p)) = Ok (Some "Portfolio site")
       ∧ Ok (Project.technologies p) = Ok [Some "React"]
       ∧ Project.image p = None.
Proof.
  assert (Hs : status (createProject env1 site w0).1 = 201)
    by (vm_compute; reflexivity).
  split; [exact Hs|].
  destruct (create_stores_payload env1 site w0 Hs)
    as (p & Hd & _ & _ & Ht & _ & _ & Hte & _ & Hopt).
  exists p. split; [exact Hd|]. split; [exact Ht|]. split; [exact Hte|].
  apply (Hopt (Body.image site) (Project.image p)). left.
Defined.

(** X25, on [w1]. *)
Lemma empty_update_touches_witness :
  reachable isValid castObjectId w1
  ∧ isValid id1 = true
  ∧ collection w1 !! castObjectId id1 = Some project1
  ∧ status (updateProject isValid castObjectId env1 id1 Body.empty w1).1 = 200
  ∧ ∃ q, collection (updateProject isValid castObjectId env1 id1 Body.empty
      w1).2 !! castObjectId id1
         = Some q
       ∧ Doc.init q = Doc.set_updatedAt 1004 (Doc.init project1).
Proof.
  split; [exact w1_reachable|]. split; [reflexivity|].
  split; [exact w1_project1|].
  pose proof (empty_update_touches isValid castObjectId env1 id1 w1 project1
                w1_reachable eq_refl w1_project1) as He.
  cbv zeta in He. destruct He as (Hs & q & Hl & Hq).
  split; [exact Hs|]. exists q. split; [exact Hl|exact Hq].
Defined.

(** X26, on [w1]: the same update twice. *)
Lemma update_twice_witness :
  reachable isValid castObjectId w1
  ∧ isValid id1 = true
  ∧ collection w1 !! castObjectId id1 = Some project1
  ∧ status (updateProject isValid castObjectId env1 id1 retitle w1).1 = 200
  ∧ status (updateProject isValid castObjectId env1 id1 retitle
      (updateProject isValid castObjectId env1 id1 retitle w1).2).1 = 200.
Proof.
  split; [exact w1_reachable|]. split; [reflexivity|].
  split; [exact w1_project1|].
  assert (Hs : status (updateProject isValid castObjectId env1 id1 retitle
      w1).1 = 200)
    by (vm_compute; reflexivity).
  split; [exact Hs|].
  pose proof (update_twice isValid castObjectId env1 env1 id1 retitle w1
                project1 w1_reachable eq_refl w1_project1) as Hu.
  cbv zeta in Hu. exact (proj1 (Hu Hs)).
Defined.

End MoreExamples.
